(** * GAN training orchestration (gan.py): a shallow embedding

    The development follows [src/gan.py]:
    - Python exceptions and a state-and-exception monad for the methods
      that talk to the TensorFlow session, the random generator, the
      progress bar and the plotting code;
    - numpy arrays as a shape together with C-ordered flat data;
    - [Gan._run_batch], the public methods of [Gan], and the internal
      methods of [ToyGan], [ImageGan] and [UnrolledGan];
    - the symbolic unrolling of the discriminator updates of
      [UnrolledGan]: [extract_update_dict] and the generator loss. *)

From Stdlib Require Import ZArith List Bool Lia Reals Lra.
From stdpp Require Import gmap strings list.

Local Open Scope Z_scope.

(** ** Python exceptions and results *)

Inductive exn : Type :=
| AssertionError (msg : string)
| ValueError (msg : string)
| TypeError (msg : string)
| NameError (name : string)
| KeyError (key : string)
| IndexError
| ZeroDivisionError
| AttributeError (msg : string)
| EngineError (msg : string).

Inductive result (T : Type) : Type :=
| Ok (x : T)
| Raise (e : exn).
Arguments Ok {T} x.
Arguments Raise {T} e.

Definition is_ok {T} (r : result T) : bool :=
  match r with Ok _ => true | Raise _ => false end.

(** ** numpy arrays: a shape and the flat contents in C order *)

Record ndarray (A : Type) : Type := mk_nd { shape : list nat; flat : list A }.
Arguments mk_nd {A} shape flat.
Arguments shape {A} _.
Arguments flat {A} _.

Section Numpy.
Context {A : Type}.

(** [np.prod] of a shape. *)
Definition size_of (s : list nat) : nat := fold_right Nat.mul 1%nat s.

(** [len(a.shape)] *)
Definition ndim (a : ndarray A) : nat := length (shape a).

(** [a.shape[0]], which is also [len(a)] for an array of rank at least 1. *)
Definition len (a : ndarray A) : nat := hd 0%nat (shape a).

(** Number of scalars in one row (one point) of the array. *)
Definition stride (a : ndarray A) : nat := size_of (tl (shape a)).

(** Python slice bounds: a negative index counts from the end, and every
    index is clamped to the length. *)
Definition clamp_index (n : nat) (i : Z) : nat :=
  if i <? 0 then Z.to_nat (Z.of_nat n + i) else Nat.min n (Z.to_nat i).

(** [a[lo:hi]] along the first axis, on row numbers already clamped. *)
Definition slice_rows (a : ndarray A) (lo hi : nat) : ndarray A :=
  match shape a with
  | [] => a
  | _ :: s =>
      mk_nd ((hi - lo)%nat :: s)
            (take ((hi - lo) * size_of s)%nat (drop (lo * size_of s)%nat (flat a)))
  end.

(** [a[lo:hi]] *)
Definition slice (a : ndarray A) (lo hi : Z) : ndarray A :=
  slice_rows a (clamp_index (len a) lo) (clamp_index (len a) hi).

(** [a[lo:]] *)
Definition slice_from (a : ndarray A) (lo : Z) : ndarray A :=
  slice_rows a (clamp_index (len a) lo) (len a).

(** The [i]-th point of the array, flattened. *)
Definition row (a : ndarray A) (i : nat) : list A :=
  take (stride a) (drop (i * stride a)%nat (flat a)).

(** [np.reshape(res, [-1, 1])] *)
Definition reshape_column (a : ndarray A) : ndarray A :=
  mk_nd [size_of (shape a); 1%nat] (flat a).

(** [np.atleast_2d] *)
Definition atleast_2d (a : ndarray A) : ndarray A :=
  match shape a with
  | [] => mk_nd [1%nat; 1%nat] (flat a)
  | [n] => mk_nd [1%nat; n] (flat a)
  | _ => a
  end.

Definition shape_eqb (s t : list nat) : bool :=
  bool_decide (s = t).

(** [np.concatenate(arrs, 0)] on arrays of rank at least 2. *)
Definition concatenate0 (arrs : list (ndarray A)) : result (ndarray A) :=
  match arrs with
  | [] => Raise (ValueError "need at least one array to concatenate")
  | a :: rest =>
      if forallb (fun b => shape_eqb (tl (shape b)) (tl (shape a))) rest
      then Ok (mk_nd (sum_list_with len arrs :: tl (shape a))
                     (concat (map flat arrs)))
      else Raise (ValueError "all the input array dimensions except for the concatenation axis must match exactly")
  end.

(** [np.vstack] *)
Definition vstack (arrs : list (ndarray A)) : result (ndarray A) :=
  concatenate0 (map atleast_2d arrs).

(** [a[ids]] with a list of row numbers. *)
Definition take_rows (a : ndarray A) (ids : list nat) : result (ndarray A) :=
  match shape a with
  | [] => Raise IndexError
  | n :: s =>
      if forallb (fun i => i <? n)%nat ids
      then Ok (mk_nd (length ids :: s) (concat (map (row a) ids)))
      else Raise IndexError
  end.

(** A computation applied to every point independently: each row is
    mapped by [g] to an output of shape [out]. *)
Definition pointwise {B : Type} (g : list A -> list B) (out : list nat)
    (a : ndarray A) : ndarray B :=
  mk_nd (len a :: out) (concat (map (fun i => g (row a i)) (seq 0 (len a)))).

End Numpy.

(** ** The session, the random generator and the event trace *)

(** Keys of a feed dictionary: a graph placeholder, or any other Python
    object that ends up in that position. *)
Inductive feed_key : Type :=
| Placeholder (name : string)
| PyBool (b : bool)
| PyNone.

Global Instance feed_key_eq_dec : EqDecision feed_key.
Proof. solve_decision. Defined.

Inductive feed_val (A : Type) : Type :=
| FArr (a : ndarray A)
| FBool (b : bool).
Arguments FArr {A} a.
Arguments FBool {A} b.

Definition feed_dict (A : Type) : Type := list (feed_key * feed_val A).

(** A Python dict display [{k1: v1, k2: v2}]: a later equal key replaces
    the value of an earlier one. *)
Fixpoint dict_set {A} (d : feed_dict A) (k : feed_key) (v : feed_val A)
    : feed_dict A :=
  match d with
  | [] => [(k, v)]
  | (k', v') :: d' =>
      if bool_decide (k' = k) then (k', v) :: d' else (k', v') :: dict_set d' k v
  end.

Definition py_dict {A} (items : list (feed_key * feed_val A)) : feed_dict A :=
  fold_left (fun d kv => dict_set d (fst kv) (snd kv)) items [].

(** Graph elements the methods fetch. *)
Inductive fetch : Type := G | C_training | D_optim | G_optim | C_optim.

(** What [session.run] returns: an array for a tensor, [None] for an
    operation. *)
Inductive pyval (A : Type) : Type :=
| PNone
| PArr (a : ndarray A).
Arguments PNone {A}.
Arguments PArr {A} a.

(** The computation engine: opaque, stateful (the trainable parameters),
    and free to fail. *)
Class Engine (A : Type) : Type := {
  engine : Type;
  engine_run : fetch -> feed_dict A -> engine -> result (pyval A) * engine
}.

(** The random generator behind [np.random.choice] and
    [utils.generate_noise]. *)
Class Random (A : Type) : Type := {
  rng : Type;
  rng_choice : nat -> nat -> option (list A) -> rng -> result (list nat) * rng;
  rng_draw : rng -> A * rng
}.

Inductive event (A : Type) : Type :=
| EvRun (f : fetch) (fd : feed_dict A) (out : pyval A)
| EvBam
| EvPlot (counter : Z) (real : option (ndarray A)) (points : ndarray A)
         (epoch idx : nat).
Arguments EvRun {A} f fd out.
Arguments EvBam {A}.
Arguments EvPlot {A} counter real points epoch idx.

Record world (A : Type) {EN : Engine A} {RN : Random A} : Type := mk_world {
  eng : engine;
  gen : rng;
  trace : list (event A)
}.
Arguments mk_world {A _ _} eng gen trace.
Arguments eng {A _ _} _.
Arguments gen {A _ _} _.
Arguments trace {A _ _} _.

(** Configuration options read by the methods: the dictionary [opts],
    with every option the methods look up. Python integers are in [Z]. *)
Record options : Type := {
  tf_run_batch_size : Z;
  batch_size : Z;
  gan_epoch_num : Z;
  mixture_c_epoch_num : Z;
  d_steps : Z;
  g_steps : Z;
  latent_space_dim : Z;
  unrolling_steps : Z;
  early_stop : Z;
  plot_every : Z;
  verbose : bool
}.

(** [xrange(n)] *)
Definition xrange (n : Z) : list nat := seq 0 (Z.to_nat n).

Section Monad.
Context {A : Type} {EN : Engine A} {RN : Random A}.

(** State and exceptions: the state survives a raised exception. *)
Definition M (T : Type) : Type := world A -> result T * world A.

Definition ret {T} (x : T) : M T := fun w => (Ok x, w).

Definition bind {T U} (m : M T) (k : T -> M U) : M U :=
  fun w => match m w with
           | (Ok x, w') => k x w'
           | (Raise e, w') => (Raise e, w')
           end.

Definition raise {T} (e : exn) : M T := fun w => (Raise e, w).

Definition lift {T} (r : result T) : M T := fun w => (r, w).

Definition py_assert (b : bool) (msg : string) : M unit :=
  if b then ret tt else raise (AssertionError msg).

Definition log (ev : event A) : M unit :=
  fun w => (Ok tt, mk_world (eng w) (gen w) (trace w ++ [ev])).

(** [for i in l: s = body(i, s)] *)
Fixpoint for_each {S} (l : list nat) (body : nat -> S -> M S) (s : S) : M S :=
  match l with
  | [] => ret s
  | i :: l' => bind (body i s) (fun s' => for_each l' body s')
  end.

(** The same loop with [break]: the body also says whether to leave. *)
Fixpoint for_break {S} (l : list nat) (body : nat -> S -> M (S * bool)) (s : S)
    : M S :=
  match l with
  | [] => ret s
  | i :: l' =>
      bind (body i s) (fun r => if snd r then ret (fst r)
                                else for_break l' body (fst r))
  end.

End Monad.

Notation "x <- m ;; k" := (bind m (fun x => k))
  (at level 100, m at next level, right associativity).
Notation "m ;;; k" := (bind m (fun _ => k))
  (at level 100, right associativity).

(** ** The model objects *)

Inductive gan_class : Type := Gan | ToyGan | ImageGan | UnrolledGan.

(** The dataset collaborator: [num_points], [data_shape] and [data]. *)
Record dataset (A : Type) : Type := {
  num_points : Z;
  data_shape : list nat;
  data : ndarray A
}.
Arguments num_points {A} _.
Arguments data_shape {A} _.
Arguments data {A} _.

(** The attributes of a model that stay fixed after construction. *)
Record gan (A : Type) : Type := {
  cls : gan_class;
  _data : dataset A;
  _data_weights : list A;
  _noise_for_plots : ndarray A
}.
Arguments cls {A} _.
Arguments _data {A} _.
Arguments _data_weights {A} _.
Arguments _noise_for_plots {A} _.

Definition _real_points_ph : feed_key := Placeholder "real_points".
Definition _fake_points_ph : feed_key := Placeholder "fake_points".
Definition _noise_ph : feed_key := Placeholder "noise".

(** [self._is_training_ph]: a placeholder in [ImageGan], the constant
    [True] in [UnrolledGan]. *)
Definition _is_training_ph {A} (self : gan A) : feed_key :=
  match cls self with
  | ImageGan => Placeholder "is_train"
  | UnrolledGan => PyBool true
  | _ => PyNone
  end.

(** Python 2 integer division [a / b]. *)
Definition py_div (a b : Z) : result Z :=
  if b =? 0 then Raise ZeroDivisionError else Ok (a / b).

(** [int(np.ceil((n + 0.) / b))] *)
Definition ceil_div (n b : Z) : result Z :=
  if b =? 0 then Raise ZeroDivisionError else Ok (- ((- n) / b)).

Section Methods.
Context {A : Type} {EN : Engine A} {RN : Random A}.

(** [session.run(fetch, feed_dict=fd)]: every key of the feed must be a
    graph tensor; the engine then evaluates the fetch. *)
Definition is_tensor (k : feed_key) : bool :=
  match k with Placeholder _ => true | _ => false end.

Definition session_run (f : fetch) (fd : feed_dict A) : M (pyval A) :=
  fun w =>
    if forallb (fun kv => is_tensor (fst kv)) fd then
      match engine_run f fd (eng w) with
      | (Ok v, e') => (Ok v, mk_world e' (gen w) (trace w ++ [EvRun f fd v]))
      | (Raise x, e') => (Raise x, mk_world e' (gen w) (trace w))
      end
    else (Raise (TypeError "Cannot interpret feed_dict key as Tensor"), w).

(** [np.random.choice(a, size, replace=False, p=p)] *)
Definition np_random_choice (a size : Z) (p : option (list A)) : M (list nat) :=
  if a <=? 0 then raise (ValueError "a must be greater than 0")
  else if match p with
          | Some q => negb (Z.of_nat (length q) =? a)
          | None => false
          end
  then raise (ValueError "a and p must have same size")
  else if size <? 0 then raise (ValueError "negative dimensions are not allowed")
  else if a <? size
  then raise (ValueError "Cannot take a larger sample than population when 'replace=False'")
  else fun w =>
         let (r, g') := rng_choice (Z.to_nat a) (Z.to_nat size) p (gen w) in
         (r, mk_world (eng w) g' (trace w)).

Fixpoint draw_many (n : nat) (g : rng) : list A * rng :=
  match n with
  | O => ([], g)
  | S n' => let (x, g1) := rng_draw g in
            let (xs, g2) := draw_many n' g1 in (x :: xs, g2)
  end.

(** Modelled from the spec: [utils.generate_noise(opts, num)], which is
    not among the sources, "generates [count] random latent vectors":
    an array of shape [(num, latent_space_dim)] drawn from the random
    generator. *)
Definition generate_noise (opts : options) (num : Z) : M (ndarray A) :=
  if (num <? 0) || (latent_space_dim opts <? 0)
  then raise (ValueError "negative dimensions are not allowed")
  else fun w =>
         let n := Z.to_nat num in
         let d := Z.to_nat (latent_space_dim opts) in
         let (xs, g') := draw_many (n * d) (gen w) in
         (Ok (mk_nd [n; d] xs), mk_world (eng w) g' (trace w)).

(** Modelled from the spec: [pbar.bam()] of [utils.ProgressBar], which is
    not among the sources: the progress collaborator is "signaled once
    per completed epoch". *)
Definition bam : M unit := log EvBam.

(** Modelled from the spec: [Metrics().make_plots], which is not among
    the sources, "produces visual artifacts as a side effect; its return
    value is unused". *)
Definition make_plots (counter : Z) (real : option (ndarray A))
    (points : ndarray A) (epoch idx : nat) : M unit :=
  log (EvPlot counter real points epoch idx).

(** [res.shape] needs an array. *)
Definition as_array (v : pyval A) : M (ndarray A) :=
  match v with
  | PArr a => ret a
  | PNone => raise (AttributeError "'NoneType' object has no attribute 'shape'")
  end.

(** The feed of one chunk: with or without the second placeholder. *)
Definition chunk_feed (placeholder : feed_key) (chunk : ndarray A)
    (placeholder2 : feed_key) (feed2 : option (feed_val A)) : feed_dict A :=
  match feed2 with
  | None => py_dict [(placeholder, FArr chunk)]
  | Some v2 => py_dict [(placeholder, FArr chunk); (placeholder2, v2)]
  end.

(** The chunk with number [idx] out of [batches_num]. *)
Definition chunk_of (feed : ndarray A) (batch_size batches_num : Z) (idx : nat)
    : ndarray A :=
  if Z.of_nat idx =? batches_num - 1
  then slice_from feed (Z.of_nat idx * batch_size)
  else slice feed (Z.of_nat idx * batch_size) ((Z.of_nat idx + 1) * batch_size).

(** [if len(res.shape) == 1: res = np.reshape(res, [-1, 1])] *)
Definition to_column (res : ndarray A) : ndarray A :=
  if (ndim res =? 1)%nat then reshape_column res else res.

Definition run_batch_body (operation : fetch) (placeholder : feed_key)
    (feed : ndarray A) (placeholder2 : feed_key) (feed2 : option (feed_val A))
    (batch_size batches_num : Z) (idx : nat) (result : list (ndarray A))
    : M (list (ndarray A)) :=
  v <- session_run operation
         (chunk_feed placeholder (chunk_of feed batch_size batches_num idx)
                     placeholder2 feed2) ;;
  res <- as_array v ;;
  ret (result ++ [to_column res]).

(** [Gan._run_batch] (gan.py, lines 90-142). *)
Definition _run_batch (opts : options) (operation : fetch)
    (placeholder : feed_key) (feed : ndarray A)
    (placeholder2 : feed_key) (feed2 : option (feed_val A)) : M (ndarray A) :=
  py_assert (0 <? ndim feed)%nat "Empry feed." ;;;
  let num_points := len feed in
  let batch_size := tf_run_batch_size opts in
  batches_num <- lift (ceil_div (Z.of_nat num_points) batch_size) ;;
  result <- for_each (xrange batches_num)
              (run_batch_body operation placeholder feed placeholder2 feed2
                              batch_size batches_num) [] ;;
  result <- lift (vstack result) ;;
  py_assert (len result =? num_points)%nat "" ;;;
  ret result.

(** [len(a)] *)
Definition py_len (a : ndarray A) : result Z :=
  match shape a with
  | [] => Raise (TypeError "len() of unsized object")
  | n :: _ => Ok (Z.of_nat n)
  end.

(** [for _iter in xrange(n): _ = self._session.run(f, feed_dict=fd)] *)
Definition run_steps (n : Z) (f : fetch) (fd : feed_dict A) : M unit :=
  for_each (xrange n) (fun _ _ => session_run f fd ;;; ret tt) tt.

(** *** ToyGan

    [batch_images = self._data.data[data_ids].astype(np.float)]: the
    conversion leaves the values of the model as they are. *)

Definition toy_train_body (self : gan A) (opts : options)
    (_epoch _idx : nat) (counter : Z) : M Z :=
  data_ids <- np_random_choice (num_points (_data self)) (batch_size opts)
                (Some (_data_weights self)) ;;
  batch_images <- lift (take_rows (data (_data self)) data_ids) ;;
  batch_noise <- generate_noise opts (batch_size opts) ;;
  run_steps (d_steps opts) D_optim
    (py_dict [(_real_points_ph, FArr batch_images);
              (_noise_ph, FArr batch_noise)]) ;;;
  run_steps (g_steps opts) G_optim (py_dict [(_noise_ph, FArr batch_noise)]) ;;;
  let counter := counter + 1 in
  (if verbose opts && (counter mod 100 =? 0) then
     points_to_plot <- _run_batch opts G _noise_ph
                         (slice (_noise_for_plots self) 0 300) PyNone None ;;
     make_plots counter (Some (slice (data (_data self)) 0 300))
                points_to_plot _epoch _idx
   else ret tt) ;;;
  ret counter.

Definition toy_train_loop (self : gan A) (opts : options) : M Z :=
  batches_num <- lift (py_div (num_points (_data self)) (batch_size opts)) ;;
  for_each (xrange (gan_epoch_num opts))
    (fun _epoch counter =>
       counter <- for_each (xrange batches_num)
                    (toy_train_body self opts _epoch) counter ;;
       bam ;;; ret counter) 0.

Definition toy_sample_internal (self : gan A) (opts : options) (num : Z)
    : M (ndarray A) :=
  noise <- generate_noise opts num ;;
  _run_batch opts G _noise_ph noise PyNone None.

(** One classifier update of the mixture discriminator; [mode] is the
    part of the feed that carries the training flag, if any. *)
Definition mixture_body (self : gan A) (opts : options)
    (fake_images : ndarray A) (mode : list (feed_key * feed_val A))
    (idx : nat) (_ : unit) : M unit :=
  n_fake <- lift (py_len fake_images) ;;
  ids <- np_random_choice n_fake (batch_size opts) None ;;
  batch_fake_images <- lift (take_rows fake_images ids) ;;
  ids <- np_random_choice (num_points (_data self)) (batch_size opts) None ;;
  batch_real_images <- lift (take_rows (data (_data self)) ids) ;;
  session_run C_optim
    (py_dict ([(_real_points_ph, FArr batch_real_images);
               (_fake_points_ph, FArr batch_fake_images)] ++ mode)) ;;;
  ret tt.

Definition mixture_loop (self : gan A) (opts : options)
    (fake_images : ndarray A) (mode : list (feed_key * feed_val A)) : M unit :=
  batches_num <- lift (py_div (num_points (_data self)) (batch_size opts)) ;;
  for_each (xrange (mixture_c_epoch_num opts))
    (fun epoch _ =>
       for_each (xrange batches_num)
         (mixture_body self opts fake_images mode) tt ;;;
       bam) tt.

Definition toy_train_mixture_discriminator_internal (self : gan A)
    (opts : options) (fake_images : ndarray A) : M (ndarray A) :=
  mixture_loop self opts fake_images [] ;;;
  _run_batch opts C_training _real_points_ph (data (_data self)) PyNone None.

(** *** ImageGan *)

(** [if opts['verbose'] and counter % opts['plot_every'] == 0] *)
Definition plot_due (opts : options) (counter : Z) : M bool :=
  if verbose opts then
    if plot_every opts =? 0 then raise ZeroDivisionError
    else ret (counter mod plot_every opts =? 0)
  else ret false.

(** [if opts['early_stop'] > 0 and counter > opts['early_stop']: break] *)
Definition stop_now (opts : options) (counter : Z) : bool :=
  (0 <? early_stop opts) && (early_stop opts <? counter).

Definition image_train_body (self : gan A) (opts : options)
    (_epoch _idx : nat) (counter : Z) : M (Z * bool) :=
  data_ids <- np_random_choice (num_points (_data self)) (batch_size opts)
                (Some (_data_weights self)) ;;
  batch_images <- lift (take_rows (data (_data self)) data_ids) ;;
  batch_noise <- generate_noise opts (batch_size opts) ;;
  run_steps (d_steps opts) D_optim
    (py_dict [(_real_points_ph, FArr batch_images);
              (_noise_ph, FArr batch_noise);
              (_is_training_ph self, FBool true)]) ;;;
  run_steps (g_steps opts) G_optim
    (py_dict [(_noise_ph, FArr batch_noise);
              (_is_training_ph self, FBool true)]) ;;;
  let counter := counter + 1 in
  due <- plot_due opts counter ;;
  (if due then
     points_to_plot <- _run_batch opts G _noise_ph
                         (slice (_noise_for_plots self) 0 16)
                         (_is_training_ph self) (Some (FBool false)) ;;
     make_plots counter None points_to_plot _epoch _idx
   else ret tt) ;;;
  ret (counter, stop_now opts counter).

(** The two nested loops shared by [ImageGan._train_internal] and
    [UnrolledGan._train_internal]: the inner one can [break], the outer
    one signals the progress bar after every epoch. *)
Definition epochs_loop (self : gan A) (opts : options)
    (body : nat -> nat -> Z -> M (Z * bool)) : M Z :=
  batches_num <- lift (py_div (num_points (_data self)) (batch_size opts)) ;;
  for_each (xrange (gan_epoch_num opts))
    (fun _epoch counter =>
       counter <- for_break (xrange batches_num) (body _epoch) counter ;;
       bam ;;; ret counter) 0.

Definition image_train_loop (self : gan A) (opts : options) : M Z :=
  epochs_loop self opts (image_train_body self opts).

Definition image_sample_internal (self : gan A) (opts : options) (num : Z)
    : M (ndarray A) :=
  noise <- generate_noise opts num ;;
  _run_batch opts G _noise_ph noise (_is_training_ph self) (Some (FBool false)).

Definition image_train_mixture_discriminator_internal (self : gan A)
    (opts : options) (fake_images : ndarray A) : M (ndarray A) :=
  mixture_loop self opts fake_images [(_is_training_ph self, FBool true)] ;;;
  _run_batch opts C_training _real_points_ph (data (_data self))
             (_is_training_ph self) (Some (FBool false)).

(** *** UnrolledGan *)

Definition unrolled_train_body (self : gan A) (opts : options)
    (_epoch _idx : nat) (counter : Z) : M (Z * bool) :=
  data_ids <- np_random_choice (num_points (_data self)) (batch_size opts)
                (Some (_data_weights self)) ;;
  batch_images <- lift (take_rows (data (_data self)) data_ids) ;;
  batch_noise <- generate_noise opts (batch_size opts) ;;
  run_steps (d_steps opts) D_optim
    (py_dict [(_real_points_ph, FArr batch_images);
              (_noise_ph, FArr batch_noise)]) ;;;
  run_steps (g_steps opts) G_optim
    (py_dict [(_real_points_ph, FArr batch_images);
              (_noise_ph, FArr batch_noise)]) ;;;
  let counter := counter + 1 in
  due <- plot_due opts counter ;;
  (if due then
     points_to_plot <- _run_batch opts G _noise_ph
                         (slice (_noise_for_plots self) 0 16) PyNone None ;;
     make_plots counter None points_to_plot _epoch _idx
   else ret tt) ;;;
  ret (counter, stop_now opts counter).

Definition unrolled_train_loop (self : gan A) (opts : options) : M Z :=
  epochs_loop self opts (unrolled_train_body self opts).

Definition unrolled_sample_internal (self : gan A) (opts : options) (num : Z)
    : M (ndarray A) :=
  noise <- generate_noise opts num ;;
  _run_batch opts G _noise_ph noise PyNone None.

Definition unrolled_train_mixture_discriminator_internal (self : gan A)
    (opts : options) (fake_images : ndarray A) : M (ndarray A) :=
  mixture_loop self opts fake_images [] ;;;
  _run_batch opts C_training _real_points_ph (data (_data self))
             (_is_training_ph self) (Some (FBool false)).

(** *** Method dispatch on the class of the instance *)

Definition _train_internal (self : gan A) (opts : options) : M unit :=
  match cls self with
  | Gan => raise (AssertionError "Gan base class has no train method defined.")
  | ToyGan => toy_train_loop self opts ;;; ret tt
  | ImageGan => image_train_loop self opts ;;; ret tt
  | UnrolledGan => unrolled_train_loop self opts ;;; ret tt
  end.

Definition _sample_internal (self : gan A) (opts : options) (num : Z)
    : M (ndarray A) :=
  match cls self with
  | Gan => raise (AssertionError "Gan base class has no sample method defined.")
  | ToyGan => toy_sample_internal self opts num
  | ImageGan => image_sample_internal self opts num
  | UnrolledGan => unrolled_sample_internal self opts num
  end.

Definition _train_mixture_discriminator_internal (self : gan A)
    (opts : options) (fake_images : ndarray A) : M (ndarray A) :=
  match cls self with
  | Gan => raise (AssertionError
                    "Gan base class has no mixture discriminator method defined.")
  | ToyGan => toy_train_mixture_discriminator_internal self opts fake_images
  | ImageGan => image_train_mixture_discriminator_internal self opts fake_images
  | UnrolledGan =>
      unrolled_train_mixture_discriminator_internal self opts fake_images
  end.

(** *** The public methods of [Gan]

    The mutable attribute [self._trained] is kept next to the world; the
    internal methods above never see it. *)

Definition object_state : Type := bool * world A.

Definition _trained (st : object_state) : bool := fst st.

Definition untrained_msg : string := "Can not sample from the un-trained GAN".

(** [Gan.train] *)
Definition train (self : gan A) (opts : options) (st : object_state)
    : result unit * object_state :=
  match _train_internal self opts (snd st) with
  | (Ok _, w') => (Ok tt, (true, w'))
  | (Raise e, w') => (Raise e, (_trained st, w'))
  end.

(** [Gan.sample] *)
Definition sample (self : gan A) (opts : options) (num : Z) (st : object_state)
    : result (ndarray A) * object_state :=
  if _trained st then
    let (r, w') := _sample_internal self opts num (snd st) in
    (r, (_trained st, w'))
  else (Raise (AssertionError untrained_msg), st).

(** [Gan.train_mixture_discriminator] *)
Definition train_mixture_discriminator (self : gan A) (opts : options)
    (fake_images : ndarray A) (st : object_state)
    : result (ndarray A) * object_state :=
  let (r, w') := _train_mixture_discriminator_internal self opts fake_images
                   (snd st) in
  (r, (_trained st, w')).

End Methods.

(** ** Reading a trace *)

(** The arrays the engine returned, read off a trace. *)
Definition chunk_outputs {A} (tr : list (event A)) : list (ndarray A) :=
  flat_map (fun ev => match ev with
                      | EvRun _ _ (PArr a) => [a]
                      | _ => []
                      end) tr.

(** The feed dictionaries handed to the engine, read off a trace. *)
Definition fed {A} (tr : list (event A)) : list (feed_dict A) :=
  flat_map (fun ev => match ev with
                      | EvRun _ fd _ => [fd]
                      | _ => []
                      end) tr.

(** The number of progress signals in a trace. *)
Definition is_bam {A} (ev : event A) : bool :=
  match ev with EvBam => true | _ => false end.

Definition bams {A} (tr : list (event A)) : nat :=
  length (List.filter is_bam tr).

(** The sizes, in rows, of the arrays handed to the engine. *)
Definition fed_rows {A} (tr : list (event A)) : list nat :=
  map (fun fd => match fd with
                 | (_, FArr x) :: _ => len x
                 | _ => 0%nat
                 end) (fed tr).

(** The event of evaluating [op] on chunk [i] of [feed], for an engine
    that computes the function [f] of the chunk. *)
Definition run_event {A} {EN : Engine A} (op : fetch) (ph ph2 : feed_key)
    (feed2 : option (feed_val A)) (f : engine -> ndarray A -> ndarray A)
    (feed : ndarray A) (b m : Z) (e : engine) (i : nat) : event A :=
  EvRun op (chunk_feed ph (chunk_of feed b m i) ph2 feed2)
        (PArr (f e (chunk_of feed b m i))).

(** The shape of one output point once a rank-1 result has been turned
    into a column. *)
Definition column_shape (t : list nat) : list nat :=
  match t with [] => [1%nat] | _ => t end.

(** ** A small concrete engine and random generator

    They make the methods run on explicit inputs. The generator [G] turns
    a latent vector into a 2x1 "image"; the classifier output is one
    number per point, returned as a rank-1 array; every other fetch is a
    parameter update, counted by the engine's state. *)

Definition first_array {A} (fd : feed_dict A) : ndarray A :=
  match fd with
  | (_, FArr a) :: _ => a
  | _ => mk_nd [] []
  end.

Definition sum_row (r : list Z) : Z := foldr Z.add 0 r.

Definition image_of (r : list Z) : list Z := [sum_row r; sum_row r + 1].

Definition counting_engine : Engine Z := {|
  engine := nat;
  engine_run f fd e :=
    match f with
    | G => (Ok (PArr (pointwise image_of [2%nat; 1%nat] (first_array fd))), e)
    | C_training =>
        (Ok (PArr (pointwise (fun r => [sum_row r]) [] (first_array fd))), e)
    | _ => (Ok PNone, S e)
    end
|}.

Definition counting_random : Random Z := {|
  rng := nat;
  rng_choice a size p g := (Ok (seq 0 size), S g);
  rng_draw g := (Z.of_nat g, S g)
|}.

Definition demo_options : options := {|
  tf_run_batch_size := 2;
  batch_size := 2;
  gan_epoch_num := 3;
  mixture_c_epoch_num := 1;
  d_steps := 1;
  g_steps := 1;
  latent_space_dim := 2;
  unrolling_steps := 0;
  early_stop := 2;
  plot_every := 2;
  verbose := true
|}.

Definition demo_world : world Z (EN := counting_engine) (RN := counting_random) :=
  @mk_world Z counting_engine counting_random 0%nat 0%nat [].

(** Five points of two coordinates each. *)
Definition five_points : ndarray Z :=
  mk_nd [5%nat; 2%nat] [1; 2; 3; 4; 5; 6; 7; 8; 9; 10].

Definition demo_dataset : dataset Z :=
  {| num_points := 5; data_shape := [2%nat]; data := five_points |}.

Definition demo_gan (c : gan_class) : gan Z :=
  {| cls := c;
     _data := demo_dataset;
     _data_weights := [1; 1; 1; 1; 1];
     _noise_for_plots := mk_nd [3%nat; 2%nat] [1; 2; 3; 4; 5; 6] |}.

(** ** What a computation adds to the trace *)

Section Emits.
Context {A : Type} {EN : Engine A} {RN : Random A}.

(** [w'] is [w] after some more events, all of which satisfy [P]. *)
Definition extends (P : event A -> Prop) (w w' : world A) : Prop :=
  exists new, trace w' = trace w ++ new /\ Forall P new.

(** Every normal return of [m] has added only events that satisfy [P]. *)
Definition emits {T} (P : event A -> Prop) (m : M T) : Prop :=
  forall w x w', m w = (Ok x, w') -> extends P w w'.

(** The feed carries the training-mode flag of [self]: an entry under
    [self._is_training_ph], or a boolean value. *)
Definition carries_mode (self : gan A) (fd : feed_dict A) : bool :=
  existsb (fun kv => bool_decide (fst kv = _is_training_ph self)
                     || match snd kv with FBool _ => true | FArr _ => false end) fd.

Definition mode_free (self : gan A) (ev : event A) : Prop :=
  match ev with
  | EvRun _ fd _ => carries_mode self fd = false
  | _ => True
  end.

Definition not_bam (ev : event A) : Prop := is_bam ev = false.

End Emits.

(** ** Histories of calls on one instance *)

Inductive call (A : Type) : Type :=
| CallTrain (opts : options)
| CallSample (opts : options) (num : Z)
| CallMixture (opts : options) (fake_images : ndarray A).
Arguments CallTrain {A} opts.
Arguments CallSample {A} opts num.
Arguments CallMixture {A} opts fake_images.

(** What a call gave back: [None] for [train], the array otherwise. *)
Definition outcome (A : Type) : Type := result (option (ndarray A)).

Section Histories.
Context {A : Type} {EN : Engine A} {RN : Random A}.

Definition exec_call (self : gan A) (c : call A) (st : object_state)
    : outcome A * object_state :=
  match c with
  | CallTrain opts =>
      match train self opts st with
      | (Ok _, st') => (Ok None, st')
      | (Raise e, st') => (Raise e, st')
      end
  | CallSample opts num =>
      match sample self opts num st with
      | (Ok a, st') => (Ok (Some a), st')
      | (Raise e, st') => (Raise e, st')
      end
  | CallMixture opts fake_images =>
      match train_mixture_discriminator self opts fake_images st with
      | (Ok a, st') => (Ok (Some a), st')
      | (Raise e, st') => (Raise e, st')
      end
  end.

(** The calls in order, each with its outcome, and the final state. *)
Fixpoint exec_calls (self : gan A) (cs : list (call A)) (st : object_state)
    : list (call A * outcome A) * object_state :=
  match cs with
  | [] => ([], st)
  | c :: cs' =>
      let (o, st1) := exec_call self c st in
      let (h, st2) := exec_calls self cs' st1 in
      ((c, o) :: h, st2)
  end.

(** Some [train] call of the history returned normally. *)
Definition train_completed (h : list (call A * outcome A)) : bool :=
  existsb (fun co => match co with
                     | (CallTrain _, Ok _) => true
                     | _ => false
                     end) h.

End Histories.

(** ** The early stop, as a count of minibatch updates *)

(** Minibatch updates run by one epoch of [batches_num] minibatches that
    starts with the update counter at [c]: with a positive early-stop
    count the epoch ends with the first update that takes the counter
    above it, so an epoch that starts above it still runs one update. *)
Definition epoch_updates (opts : options) (batches_num : Z) (c : Z) : Z :=
  if batches_num <=? 0 then 0
  else if 0 <? early_stop opts
       then Z.min batches_num (Z.max 1 (early_stop opts + 1 - c))
       else batches_num.

(** The update counter after a number of epochs. *)
Fixpoint counter_after (opts : options) (batches_num : Z) (epochs : nat) : Z :=
  match epochs with
  | O => 0
  | S k => let c := counter_after opts batches_num k in
           c + epoch_updates opts batches_num c
  end.

(** The same count, one minibatch at a time. *)
Fixpoint updates_from (opts : options) (n : nat) (c : Z) : Z :=
  match n with
  | O => 0
  | S n' => if stop_now opts (c + 1) then 1
            else 1 + updates_from opts n' (c + 1)
  end.

(** A minibatch body that only counts and decides when to stop. *)
Definition counting_body {A} {EN : Engine A} {RN : Random A} (opts : options)
    (body : nat -> nat -> Z -> M (Z * bool)) : Prop :=
  forall e i c (w : world A) c2 b w2,
    body e i c w = (Ok (c2, b), w2) -> c2 = c + 1 /\ b = stop_now opts (c + 1).

(** ** The classifier's probability output, over the reals *)

(** [tf.nn.sigmoid], on real numbers. *)
Definition sigmoid (x : R) : R := (/ (1 + exp (- x)))%R.

(** The classifier output of the graph (gan.py, lines 227-228, 469-471
    and 733-735): [c_training = tf.nn.sigmoid(self.discriminator(...,
    real_points_ph, ..., prefix='CLASSIFIER', reuse=True))]. The
    discriminator ends in a linear layer of one unit, so its logits are
    one number per point, in a column. *)
Definition c_training (c_logits : list R) : ndarray R :=
  mk_nd [length c_logits; 1%nat] (map sigmoid c_logits).

(** The engine evaluates the classifier network point by point: the logit
    of a fed real point depends on the parameters and on that point only,
    and evaluating the classifier output leaves the parameters as they
    are. *)
Definition classifier_contract {EN : Engine R} (c_logit : engine -> list R -> R)
    : Prop :=
  forall (fd : feed_dict R) (x : ndarray R) (e : engine),
    hd_error fd = Some (_real_points_ph, FArr x) ->
    engine_run C_training fd e
    = (Ok (PArr (c_training (map (fun i => c_logit e (row x i))
                                 (seq 0 (len x))))), e).

(** A classifier update runs and returns. *)
Definition update_contract {EN : Engine R} : Prop :=
  forall (fd : feed_dict R) (e : engine),
    exists v e', engine_run C_optim fd e = (Ok v, e').

(** [np.random.choice] without replacement and without weights returns
    row numbers of the population whenever the sample is not larger than
    the population. *)
Definition choice_contract {RN : Random R} : Prop :=
  forall (a size : nat) (g : rng),
    (size <= a)%nat ->
    exists ids g', rng_choice a size None g = (Ok ids, g') /\
                   Forall (fun i => i < a)%nat ids.

(** ** A concrete engine and random generator over the reals *)

Definition real_engine : Engine R := {|
  engine := unit;
  engine_run f fd e :=
    match f with
    | C_training =>
        (Ok (PArr (pointwise (fun pt => [sigmoid 0]) [1%nat] (first_array fd))), e)
    | _ => (Ok PNone, e)
    end
|}.

Definition real_random : Random R := {|
  rng := unit;
  rng_choice a size p g := (Ok (seq 0 size), g);
  rng_draw g := (0%R, g)
|}.

Definition two_reals : ndarray R := mk_nd [2%nat; 1%nat] [0%R; 1%R].

Definition real_gan (c : gan_class) : gan R :=
  {| cls := c;
     _data := {| num_points := 2; data_shape := [1%nat]; data := two_reals |};
     _data_weights := [(1 / 2)%R; (1 / 2)%R];
     _noise_for_plots := mk_nd [0%nat; 2%nat] [] |}.

Definition real_world : world R (EN := real_engine) (RN := real_random) :=
  @mk_world R real_engine real_random tt tt [].

(** A single fake point. *)
Definition one_fake : ndarray Z := mk_nd [1%nat; 2%nat] [0; 0].

(** ** The unrolled discriminator updates of [UnrolledGan]

    The graph is kept symbolic: a tensor is an expression over the values
    of the variables and the placeholders. *)

Unset Elimination Schemes.
Inductive tensor : Type :=
| Read (v : string)
| Input (p : string)
| Neg (t : tensor)
| Add (a b : tensor)
| Op (f : string) (args : list tensor).
Set Elimination Schemes.

(** A tensor of the graph as an update op sees it: its name and what it
    computes. *)
Record tf_tensor : Type := { t_name : string; t_value : tensor }.

(** [update.op]: the type of the op and its inputs. *)
Record tf_operation : Type := { op_type : string; op_inputs : list tf_tensor }.

(** [inputs[i]] *)
Definition py_index {T} (l : list T) (i : nat) : result T :=
  match l !! i with
  | Some x => Ok x
  | None => Raise IndexError
  end.

(** One turn of the loop of [extract_update_dict]. The message of the
    [ValueError] in the last branch is built from [update_op], a name that
    is bound nowhere, so evaluating it raises [NameError]. *)
Definition extract_update (global_variables : list string)
    (updates : gmap string tensor) (update : tf_operation)
    : result (gmap string tensor) :=
  match py_index (op_inputs update) 0 with
  | Raise e => Raise e
  | Ok ref =>
      let var_name := t_name ref in
      if bool_decide (var_name ∈ global_variables) then
        match py_index (op_inputs update) 1 with
        | Raise e => Raise e
        | Ok value =>
            if String.eqb (op_type update) "Assign" then
              Ok (<[var_name := t_value value]> updates)
            else if String.eqb (op_type update) "AssignAdd" then
              Ok (<[var_name := Add (Read var_name) (t_value value)]> updates)
            else Raise (NameError "update_op")
        end
      else Raise (KeyError var_name)
  end.

Fixpoint extract_updates (global_variables : list string)
    (updates : gmap string tensor) (update_ops : list tf_operation)
    : result (gmap string tensor) :=
  match update_ops with
  | [] => Ok updates
  | update :: rest =>
      match extract_update global_variables updates update with
      | Ok updates' => extract_updates global_variables updates' rest
      | Raise e => Raise e
      end
  end.

(** [UnrolledGan.extract_update_dict] (gan.py, lines 799-821);
    [global_variables] are the names of [tf.global_variables()]. *)
Definition extract_update_dict (global_variables : list string)
    (update_ops : list tf_operation) : result (gmap string tensor) :=
  extract_updates global_variables ∅ update_ops.

(** [graph_replace(target, replacement)] on one tensor: the value of a
    variable that has a replacement is replaced by it. *)
Fixpoint graph_replace (target : tensor) (replacement : gmap string tensor)
    : tensor :=
  match target with
  | Read v => default (Read v) (replacement !! v)
  | Input p => Input p
  | Neg t => Neg (graph_replace t replacement)
  | Add a b => Add (graph_replace a replacement) (graph_replace b replacement)
  | Op f args => Op f (map (fun t => graph_replace t replacement) args)
  end.

(** [graph_replace] on a dictionary of tensors: the keys stay, the values
    are rewritten. *)
Definition graph_replace_dict (target replacement : gmap string tensor)
    : gmap string tensor :=
  (fun t => graph_replace t replacement) <$> target.

(** The generator loss of [UnrolledGan._build_model_internal] (gan.py,
    lines 768-781). *)
Definition unrolled_g_loss (opts : options) (global_variables : list string)
    (updates : list tf_operation) (d_loss : tensor) : result tensor :=
  if 0 <? unrolling_steps opts then
    match extract_update_dict global_variables updates with
    | Raise e => Raise e
    | Ok update_dict =>
        let cur_update_dict :=
          fold_left (fun cur _ => graph_replace_dict update_dict cur)
                    (xrange (unrolling_steps opts - 1)) update_dict in
        Ok (Neg (graph_replace d_loss cur_update_dict))
    end
  else Ok (Neg d_loss).

(** The single-step update mapping composed with itself [k] more times. *)
Fixpoint composed (update_dict : gmap string tensor) (k : nat)
    : gmap string tensor :=
  match k with
  | O => update_dict
  | S k' => graph_replace_dict update_dict (composed update_dict k')
  end.

Section Evaluation.
Context {V : Type}.
Variables (neg : V -> V) (add : V -> V -> V) (interp : string -> list V -> V).



End Evaluation.

(** An update that subtracts from a variable: neither [Assign] nor
    [AssignAdd]. *)
Definition assign_sub_op : tf_operation :=
  {| op_type := "AssignSub";
     op_inputs := [ {| t_name := "DISCRIMINATOR/w:0"; t_value := Read "DISCRIMINATOR/w:0" |};
                    {| t_name := "mul:0"; t_value := Op "Mul" [Input "lr"; Read "DISCRIMINATOR/w:0"] |} ] |}.

Definition assign_add_op : tf_operation :=
  {| op_type := "AssignAdd";
     op_inputs := [ {| t_name := "iterations:0"; t_value := Read "iterations:0" |};
                    {| t_name := "one:0"; t_value := Op "One" [] |} ] |}.

Definition assign_op : tf_operation :=
  {| op_type := "Assign";
     op_inputs := [ {| t_name := "DISCRIMINATOR/w:0"; t_value := Read "DISCRIMINATOR/w:0" |};
                    {| t_name := "sub:0";
                       t_value := Op "Sub" [Read "DISCRIMINATOR/w:0";
                                            Op "Grad" [Read "DISCRIMINATOR/w:0";
                                                       Input "real_points"]] |} ] |}.

Definition demo_variables : list string := ["DISCRIMINATOR/w:0"; "iterations:0"].

Definition demo_loss : tensor :=
  Op "Loss" [Read "DISCRIMINATOR/w:0"; Input "real_points"; Input "noise"].

(** The options of the concrete runs, with three unrolling steps. *)
Definition unrolled_options : options := {|
  tf_run_batch_size := 2;
  batch_size := 2;
  gan_epoch_num := 3;
  mixture_c_epoch_num := 1;
  d_steps := 1;
  g_steps := 1;
  latent_space_dim := 2;
  unrolling_steps := 3;
  early_stop := 2;
  plot_every := 2;
  verbose := true
|}.

(** An engine whose generator uses statistics of the fed batch, as batch
    normalisation in training mode does: every value is taken relative to
    the first value of the batch. The output has the shape of the feed. *)
Definition centered (x : ndarray Z) : ndarray Z :=
  mk_nd (shape x) (map (fun v => v - hd 0 (flat x)) (flat x)).

Definition batch_statistics_engine : Engine Z := {|
  engine := unit;
  engine_run f fd e :=
    match f with
    | G => (Ok (PArr (centered (first_array fd))), e)
    | _ => (Ok PNone, e)
    end
|}.

Definition batch_statistics_world
    : world Z (EN := batch_statistics_engine) (RN := counting_random) :=
  @mk_world Z batch_statistics_engine counting_random tt 0%nat [].

(** ** Counting the events of a trace *)

Global Instance fetch_eq_dec : EqDecision fetch.
Proof. solve_decision. Defined.

Definition is_run_of {A} (f : fetch) (ev : event A) : bool :=
  match ev with
  | EvRun f' _ _ => bool_decide (f' = f)
  | _ => false
  end.

Definition is_plot {A} (ev : event A) : bool :=
  match ev with
  | EvPlot _ _ _ _ _ => true
  | _ => false
  end.

Definition count_events {A} (c : event A -> bool) (tr : list (event A)) : nat :=
  length (List.filter c tr).

(** The number of times the engine ran the fetch [f]. *)
Definition runs_of {A} (f : fetch) (tr : list (event A)) : nat :=
  count_events (is_run_of f) tr.

(** The number of plots requested. *)
Definition plots {A} (tr : list (event A)) : nat := count_events is_plot tr.

(** The fetches that update parameters. *)
Definition is_update (f : fetch) : bool :=
  match f with
  | D_optim | G_optim | C_optim => true
  | G | C_training => false
  end.

Section Counting.
Context {A : Type} {EN : Engine A} {RN : Random A}.

(** Every normal return of [m] has added exactly [n] events that [c]
    counts. *)
Definition costs {T} (c : event A -> bool) (n : nat) (m : M T) : Prop :=
  forall w x w', m w = (Ok x, w') ->
                 exists new, trace w' = trace w ++ new /\ count_events c new = n.

Definition uncounted (c : event A -> bool) (ev : event A) : Prop := c ev = false.

(** The engine is only asked for fetches of the list [fs]. *)
Definition only_fetches (fs : list fetch) (ev : event A) : Prop :=
  match ev with
  | EvRun f _ _ => In f fs
  | _ => True
  end.

(** The feed of every engine call carries the training-mode flag of
    [self]: true with a parameter update, false with an evaluation. *)
Definition mode_fed (self : gan A) (ev : event A) : Prop :=
  match ev with
  | EvRun f fd _ => In (_is_training_ph self, FBool (is_update f)) fd
  | _ => True
  end.

(** A minibatch body of a loop without [break] that only counts. *)
Definition stepping_body (body : nat -> nat -> Z -> M Z) : Prop :=
  forall e i c (w : world A) c2 w2, body e i c w = (Ok c2, w2) -> c2 = c + 1.

End Counting.

(** ** Construction of an instance: [Gan.__init__] *)

Section Construction.
Context {A : Type} {EN : Engine A} {RN : Random A}.

(** The graph build of a subclass and the initialisation of the
    variables are the engine's business: any computations. *)
Variable build_graph : gan_class -> options -> dataset A -> M unit.
Variable run_init : M unit.

(** [_build_model_internal]: the base class has none. *)
Definition _build_model_internal (c : gan_class) (opts : options)
    (data : dataset A) : M unit :=
  match c with
  | Gan => raise (AssertionError "Gan base class has no build_model method defined.")
  | _ => build_graph c opts data
  end.

(** [Gan.__init__] (gan.py, lines 23-54): the new instance and its
    [_trained] flag. *)
Definition __init__ (c : gan_class) (opts : options) (data : dataset A)
    (weights : list A) : M (gan A * bool) :=
  let _trained := false in
  _noise_for_plots <- generate_noise opts 500 ;;
  _build_model_internal c opts data ;;;
  run_init ;;;
  ret ({| cls := c; _data := data; _data_weights := weights;
          _noise_for_plots := _noise_for_plots |}, _trained).

End Construction.

(** ** The layers of the image generator: [ImageGan.generator] *)

(** The shapes the generator asks of its layers (gan.py, lines 377-408):
    the units of the first linear layer, the shape it is reshaped to, and
    the output shapes of the three transposed convolutions. Dimensions are
    Python integers; [/] is the integer division of Python 2. *)
Record generator_layout : Type := {
  linear_units : Z;
  h0_shape : list Z;
  h1_shape : list Z;
  h2_shape : list Z;
  h3_shape : list Z
}.

Definition image_generator_layout (output_shape : list Z) (num_filters dim1 : Z)
    : result generator_layout :=
  match py_index output_shape 0 with
  | Raise e => Raise e
  | Ok d0 =>
      let height := d0 / 4 in
      match py_index output_shape 1 with
      | Raise e => Raise e
      | Ok d1 =>
          let width := d1 / 4 in
          Ok {| linear_units := num_filters * height * width;
                h0_shape := [-1; height; width; num_filters];
                h1_shape := [dim1; height * 2; width * 2; num_filters / 2];
                h2_shape := [dim1; height * 4; width * 4; num_filters / 4];
                h3_shape := dim1 :: output_shape |}
      end
  end.

(** ** Events counted against the update counter *)

Section Tracking.
Context {A : Type} {EN : Engine A} {RN : Random A}.

(** A loop on the update counter keeps the events that [c] counts in step
    with the counter: when it takes a counter [c0 >= 0] to [c1], the
    counted events it adds take [F c0] to [F c1]. *)
Definition tracks (c : event A -> bool) (F : Z -> nat) (loop : Z -> M Z) : Prop :=
  forall c0 (w : world A) c1 w1,
    0 <= c0 -> loop c0 w = (Ok c1, w1) ->
    c0 <= c1 /\
    exists new, trace w1 = trace w ++ new /\
                (F c0 + count_events c new = F c1)%nat.

(** One minibatch: the counter goes up by one, and so does the count. *)
Definition ticks {T} (c : event A -> bool) (F : Z -> nat) (counter : T -> Z)
    (body : nat -> Z -> M T) : Prop :=
  forall i c0 (w : world A) r w1,
    0 <= c0 -> body i c0 w = (Ok r, w1) ->
    counter r = c0 + 1 /\
    exists new, trace w1 = trace w ++ new /\
                (F c0 + count_events c new = F (c0 + 1)%Z)%nat.

End Tracking.

(** Parameter updates of the fetch [f] that one minibatch runs. *)
Definition updates_per_minibatch (opts : options) (f : fetch) : nat :=
  match f with
  | D_optim => Z.to_nat (d_steps opts)
  | G_optim => Z.to_nat (g_steps opts)
  | _ => 0%nat
  end.

(** Plots requested up to the update counter [c], one every [every]
    updates when [verbose] is set. *)
Definition plots_until (opts : options) (every : Z) (c : Z) : nat :=
  if verbose opts then Z.to_nat (c / every) else 0%nat.

(** ** More about the update dictionary *)

(** The variable a supported update op writes, and its value after the
    update: the assigned value for [Assign], the variable plus the
    increment for [AssignAdd]. *)
Definition post_update (update : tf_operation) : option (string * tensor) :=
  match op_inputs update with
  | ref :: value :: _ =>
      if String.eqb (op_type update) "Assign"
      then Some (t_name ref, t_value value)
      else if String.eqb (op_type update) "AssignAdd"
           then Some (t_name ref, Add (Read (t_name ref)) (t_value value))
           else None
  | _ => None
  end.

(** A dictionary after the assignments [d[k] = v] of a list, in order. *)
Definition assign_all (d : gmap string tensor) (kvs : list (string * tensor))
    : gmap string tensor :=
  fold_left (fun m kv => <[fst kv := snd kv]> m) kvs d.

(** The variables whose value a tensor reads. *)
Fixpoint reads (t : tensor) : list string :=
  match t with
  | Read v => [v]
  | Input _ => []
  | Neg t => reads t
  | Add a b => reads a ++ reads b
  | Op _ args => concat (map reads args)
  end.

(** ** Concrete inputs for the edge cases *)

(** Options with another chunk size of [_run_batch]. *)
Definition with_tf_run_batch_size (b : Z) (opts : options) : options := {|
  tf_run_batch_size := b;
  batch_size := batch_size opts;
  gan_epoch_num := gan_epoch_num opts;
  mixture_c_epoch_num := mixture_c_epoch_num opts;
  d_steps := d_steps opts;
  g_steps := g_steps opts;
  latent_space_dim := latent_space_dim opts;
  unrolling_steps := unrolling_steps opts;
  early_stop := early_stop opts;
  plot_every := plot_every opts;
  verbose := verbose opts
|}.

(** Options with another minibatch size. *)
Definition with_batch_size (b : Z) (opts : options) : options := {|
  tf_run_batch_size := tf_run_batch_size opts;
  batch_size := b;
  gan_epoch_num := gan_epoch_num opts;
  mixture_c_epoch_num := mixture_c_epoch_num opts;
  d_steps := d_steps opts;
  g_steps := g_steps opts;
  latent_space_dim := latent_space_dim opts;
  unrolling_steps := unrolling_steps opts;
  early_stop := early_stop opts;
  plot_every := plot_every opts;
  verbose := verbose opts
|}.

(** Options with another period of the plots. *)
Definition with_plot_every (p : Z) (opts : options) : options := {|
  tf_run_batch_size := tf_run_batch_size opts;
  batch_size := batch_size opts;
  gan_epoch_num := gan_epoch_num opts;
  mixture_c_epoch_num := mixture_c_epoch_num opts;
  d_steps := d_steps opts;
  g_steps := g_steps opts;
  latent_space_dim := latent_space_dim opts;
  unrolling_steps := unrolling_steps opts;
  early_stop := early_stop opts;
  plot_every := p;
  verbose := verbose opts
|}.

(** An instance on the five points with two weights only. *)
Definition short_weights_gan (c : gan_class) : gan Z :=
  {| cls := c;
     _data := demo_dataset;
     _data_weights := [1; 1];
     _noise_for_plots := mk_nd [3%nat; 2%nat] [1; 2; 3; 4; 5; 6] |}.

(** An engine that fails on every call, and counts the calls. *)
Definition failing_engine : Engine Z := {|
  engine := nat;
  engine_run f fd e := (Raise (EngineError "ResourceExhausted"), S e)
|}.

Definition failing_world : world Z (EN := failing_engine) (RN := counting_random) :=
  @mk_world Z failing_engine counting_random 0%nat 0%nat [].

(** A graph construction that adds nothing to the world. *)
Definition silent_build {A} {EN : Engine A} {RN : Random A}
    (c : gan_class) (opts : options) (d : dataset A) : M unit := ret tt.

(** An update op without inputs. *)
Definition no_op : tf_operation := {| op_type := "NoOp"; op_inputs := [] |}.

(** ** The connectivity check of [graph_replace]

    [tf.contrib.graph_editor.graph_replace] walks forward from the
    replaced tensors and backward from the targets and raises
    [ValueError] when the two walks share no op, that is when no target
    reads a variable that has a replacement. *)

(** The target reads a variable that has a replacement. *)
Definition reaches (replacement : gmap string tensor) (target : tensor) : bool :=
  existsb (fun v => bool_decide (is_Some (replacement !! v))) (reads target).

Definition not_connected : exn :=
  ValueError "Targets and replacements are not connected!".

(** [graph_replace(target, replacement)] with its check, on one tensor. *)
Definition checked_graph_replace (target : tensor)
    (replacement : gmap string tensor) : result tensor :=
  if reaches replacement target then Ok (graph_replace target replacement)
  else Raise not_connected.

(** The same on a dictionary of tensors: its values are the targets. *)
Definition checked_graph_replace_dict (target replacement : gmap string tensor)
    : result (gmap string tensor) :=
  if existsb (reaches replacement) (map snd (map_to_list target))
  then Ok (graph_replace_dict target replacement)
  else Raise not_connected.

(** The generator loss of [UnrolledGan._build_model_internal] (gan.py,
    lines 768-781), with the check of every [graph_replace] call. *)
Definition checked_unrolled_g_loss (opts : options)
    (global_variables : list string) (updates : list tf_operation)
    (d_loss : tensor) : result tensor :=
  if 0 <? unrolling_steps opts then
    match extract_update_dict global_variables updates with
    | Raise e => Raise e
    | Ok update_dict =>
        let cur_update_dict :=
          fold_left (fun cur _ =>
                       match cur with
                       | Ok cur => checked_graph_replace_dict update_dict cur
                       | Raise e => Raise e
                       end)
                    (xrange (unrolling_steps opts - 1)) (Ok update_dict) in
        match cur_update_dict with
        | Raise e => Raise e
        | Ok cur_update_dict =>
            match checked_graph_replace d_loss cur_update_dict with
            | Ok unrolled_loss => Ok (Neg unrolled_loss)
            | Raise e => Raise e
            end
        end
    end
  else Ok (Neg d_loss).

(** An assignment of a constant: its value reads no variable. *)
Definition assign_constant_op : tf_operation :=
  {| op_type := "Assign";
     op_inputs := [ {| t_name := "DISCRIMINATOR/w:0"; t_value := Read "DISCRIMINATOR/w:0" |};
                    {| t_name := "zeros:0"; t_value := Op "Zeros" [] |} ] |}.

(** A loss that reads no variable of the discriminator. *)
Definition detached_loss : tensor := Op "Loss" [Input "real_points"; Input "noise"].

(** ** What the engine has been through, and what a call can raise *)

(** The engine after the calls recorded in a trace, in order. *)
Definition replay {A} {EN : Engine A} (e : engine) (tr : list (event A))
    : engine :=
  fold_left (fun e ev => match ev with
                         | EvRun f fd _ => snd (engine_run f fd e)
                         | _ => e
                         end) tr e.

(** An event of the training of the mixture discriminator: a classifier
    update fed rows of the real data and rows of the fake points, or a
    progress signal. *)
Definition classifier_update {A} (self : gan A) (fake_images : ndarray A)
    (ev : event A) : Prop :=
  match ev with
  | EvRun f fd _ =>
      f = C_optim /\
      exists ids_real ids_fake batch_real_images batch_fake_images,
        take_rows (data (_data self)) ids_real = Ok batch_real_images /\
        take_rows fake_images ids_fake = Ok batch_fake_images /\
        In (_real_points_ph, FArr batch_real_images) fd /\
        In (_fake_points_ph, FArr batch_fake_images) fd
  | EvBam => True
  | EvPlot _ _ _ _ _ => False
  end.

(** The error of [sample] on an instance that is not trained. *)
Definition precondition_error : exn := AssertionError untrained_msg.

(** The collaborators do not raise the error of [sample] themselves. *)
Definition quiet_engine {A} {EN : Engine A} : Prop :=
  forall f (fd : feed_dict A) e x e',
    engine_run f fd e = (Raise x, e') -> x <> precondition_error.

Definition quiet_random {A} {RN : Random A} : Prop :=
  forall a size (p : option (list A)) g x g',
    rng_choice a size p g = (Raise x, g') -> x <> precondition_error.

Section Raising.
Context {A : Type} {EN : Engine A} {RN : Random A}.

(** Every exception that [m] raises satisfies [Q]. *)
Definition raises {T} (Q : exn -> Prop) (m : M T) : Prop :=
  forall (w : world A) x w', m w = (Raise x, w') -> Q x.

(** What [m] does when it returns: it adds events that satisfy [P], and
    the engine is the one the recorded calls lead to. *)
Definition drives {T} (P : event A -> Prop) (m : M T) : Prop :=
  forall (w : world A) x w',
    m w = (Ok x, w') ->
    exists new, trace w' = trace w ++ new /\ Forall P new /\
                eng w' = replay (eng w) new.

End Raising.
(** ** Reasoning about the monad and its loops *)

Section MonadFacts.
Context {A : Type} {EN : Engine A} {RN : Random A}.

Lemma bind_ok {T U} (m : M T) (k : T -> M U) w y w' :
  bind m k w = (Ok y, w') <->
  exists x w1, m w = (Ok x, w1) /\ k x w1 = (Ok y, w').
Proof.
  unfold bind. split.
  - destruct (m w) as [[x|e] w1] eqn:E; intros Hk; [eauto | discriminate].
  - intros (x & w1 & -> & Hk). exact Hk.
Qed.

Lemma bind_eq {T U} (m : M T) (k : T -> M U) w x w1 :
  m w = (Ok x, w1) -> bind m k w = k x w1.
Proof. unfold bind. intros ->. reflexivity. Qed.

Lemma bind_raise {T U} (m : M T) (k : T -> M U) w e w1 :
  m w = (Raise e, w1) -> bind m k w = (Raise e, w1).
Proof. unfold bind. intros ->. reflexivity. Qed.

(** Partial correctness of [for_each]: an invariant indexed by the number
    of completed iterations. *)
Lemma for_each_inv {S} (I : nat -> S -> world A -> Prop)
    (body : nat -> S -> M S) (l : list nat) :
  (forall k i s w s' w', l !! k = Some i -> I k s w ->
                         body i s w = (Ok s', w') -> I (Datatypes.S k) s' w') ->
  forall s w s' w', I 0%nat s w -> for_each l body s w = (Ok s', w') ->
                    I (length l) s' w'.
Proof.
  revert I. induction l as [|i l IH]; intros I Hstep s w s' w' H0 Hrun.
  - simpl in Hrun. inversion Hrun; subst. exact H0.
  - simpl in Hrun. apply bind_ok in Hrun as (s1 & w1 & Hb & Hrest).
    apply (IH (fun k => I (Datatypes.S k))) with (s := s1) (w := w1); auto.
    + intros k j s2 w2 s3 w3 Hk. apply (Hstep (Datatypes.S k) j). exact Hk.
    + apply (Hstep 0%nat i s w); auto.
Qed.

(** Total correctness of [for_each]: every iteration succeeds from a
    state that satisfies the invariant. *)
Lemma for_each_total {S} (I : nat -> S -> world A -> Prop)
    (body : nat -> S -> M S) (l : list nat) :
  (forall k i s w, l !! k = Some i -> I k s w ->
                   exists s' w', body i s w = (Ok s', w') /\
                                 I (Datatypes.S k) s' w') ->
  forall s w, I 0%nat s w ->
              exists s' w', for_each l body s w = (Ok s', w') /\
                            I (length l) s' w'.
Proof.
  revert I. induction l as [|i l IH]; intros I Hstep s w H0.
  - exists s, w. split; [reflexivity | exact H0].
  - destruct (Hstep 0%nat i s w eq_refl H0) as (s1 & w1 & Hb & H1).
    destruct (IH (fun k => I (Datatypes.S k))
                 (fun k j => Hstep (Datatypes.S k) j) s1 w1 H1)
      as (s' & w' & Hrun & Hend).
    exists s', w'. split; [|exact Hend].
    simpl. rewrite (bind_eq _ _ _ _ _ Hb). exact Hrun.
Qed.


End MonadFacts.

(** ** Arithmetic of the chunking *)

Lemma ceil_div_spec (n b : Z) :
  1 <= b -> exists m, ceil_div n b = Ok m /\ (m - 1) * b < n <= m * b.
Proof.
  intros Hb. unfold ceil_div.
  destruct (Z.eqb_spec b 0) as [->|_]; [lia|].
  eexists. split; [reflexivity|].
  pose proof (Z.mul_div_le (- n) b ltac:(lia)).
  pose proof (Z.mul_succ_div_gt (- n) b ltac:(lia)).
  nia.
Qed.


(** ** Facts about numpy arrays *)

Section NumpyFacts.
Context {A : Type}.
Implicit Types a r : ndarray A.

Lemma ndim_to_column_atleast_2d r :
  ndim (atleast_2d (if (ndim r =? 1)%nat then reshape_column r else r))
  = Nat.max 2 (ndim r).
Proof.
  destruct r as [[|n [|k s]] d]; reflexivity.
Qed.

Lemma atleast_2d_id a : (2 <= ndim a)%nat -> atleast_2d a = a.
Proof.
  destruct a as [[|n [|k s]] d]; unfold ndim; simpl; intros; try lia; reflexivity.
Qed.

(** A successful concatenation: every piece has the trailing shape of
    the result, the leading dimensions add up, the contents follow each
    other. *)
Lemma concatenate0_ok (arrs : list (ndarray A)) (res : ndarray A) :
  concatenate0 arrs = Ok res ->
  arrs <> [] /\
  Forall (fun b => tl (shape b) = tl (shape res)) arrs /\
  len res = sum_list_with len arrs /\
  flat res = concat (map flat arrs) /\
  ndim res = Datatypes.S (length (tl (shape res))).
Proof.
  unfold concatenate0. destruct arrs as [|a rest]; [discriminate|].
  destruct (forallb _ rest) eqn:Hall; [|discriminate].
  intros Hres. inversion Hres; subst res; clear Hres. simpl.
  repeat split; try discriminate.
  constructor; [reflexivity|].
  rewrite forallb_forall in Hall. apply Forall_forall. intros b Hb.
  apply list_elem_of_In in Hb.
  specialize (Hall b Hb). unfold shape_eqb in Hall.
  apply bool_decide_eq_true in Hall. exact Hall.
Qed.

(** The rank of a stack is the common rank of its pieces, but never
    less than 2. *)
Lemma vstack_ndim (arrs : list (ndarray A)) (res : ndarray A) :
  vstack (map (fun r => if (ndim r =? 1)%nat then reshape_column r else r) arrs)
  = Ok res ->
  arrs <> [] /\ Forall (fun r => ndim res = Nat.max 2 (ndim r)) arrs.
Proof.
  unfold vstack. intros Hv.
  apply concatenate0_ok in Hv as (Hne & Htl & _ & _ & Hnd).
  split; [destruct arrs; [contradiction | discriminate]|].
  rewrite map_map in Htl. rewrite Forall_map in Htl.
  eapply Forall_impl; [exact Htl|]. intros r Hr. simpl in Hr.
  rewrite <- ndim_to_column_atleast_2d, Hnd, <- Hr.
  pose proof (ndim_to_column_atleast_2d r) as Hmax.
  set (r' := atleast_2d _) in *. unfold ndim in *.
  destruct (shape r'); simpl in *; lia.
Qed.

End NumpyFacts.

(** ** Facts about [_run_batch] that hold for every engine *)

Section RunBatchFacts.
Context {A : Type} {EN : Engine A} {RN : Random A}.

Lemma session_run_ok f (fd : feed_dict A) w v w' :
  session_run f fd w = (Ok v, w') ->
  forallb (fun kv => is_tensor (fst kv)) fd = true /\
  exists e', engine_run f fd (eng w) = (Ok v, e') /\
             w' = mk_world e' (gen w) (trace w ++ [EvRun f fd v]).
Proof.
  unfold session_run. destruct (forallb _ fd); [|discriminate].
  destruct (engine_run f fd (eng w)) as [[v0|e] e'] eqn:E; [|discriminate].
  intros Hr. inversion Hr; subst. eauto.
Qed.

Lemma session_run_bad_key f (fd : feed_dict A) w :
  forallb (fun kv => is_tensor (fst kv)) fd = false ->
  session_run f fd w
  = (Raise (TypeError "Cannot interpret feed_dict key as Tensor"), w).
Proof. unfold session_run. intros ->. reflexivity. Qed.

Lemma chunk_feed_keys ph (x : ndarray A) ph2 feed2 :
  forallb (fun kv => is_tensor (fst kv)) (chunk_feed ph x ph2 feed2)
  = is_tensor ph && match feed2 with
                    | None => true
                    | Some _ => is_tensor ph2
                    end.
Proof.
  unfold chunk_feed, py_dict. destruct feed2 as [v2|]; simpl.
  - destruct (bool_decide (ph = ph2)) eqn:Hd; simpl.
    + apply bool_decide_eq_true in Hd. subst. destruct (is_tensor ph2); reflexivity.
    + rewrite andb_true_r. reflexivity.
  - rewrite andb_true_r. reflexivity.
Qed.

Lemma chunk_outputs_app (t1 t2 : list (event A)) :
  chunk_outputs (t1 ++ t2) = chunk_outputs t1 ++ chunk_outputs t2.
Proof. unfold chunk_outputs. apply flat_map_app. Qed.

(** One iteration of the loop adds one engine call to the trace and the
    call's output, as a column when it has rank 1, to the results. *)
Lemma run_batch_body_ok op ph (feed : ndarray A) ph2 feed2 b m idx acc w res w' :
  run_batch_body op ph feed ph2 feed2 b m idx acc w = (Ok res, w') ->
  exists r out,
    trace w' = trace w ++ [EvRun op (chunk_feed ph (chunk_of feed b m idx) ph2 feed2)
                                 (PArr r)] /\
    gen w' = gen w /\
    res = acc ++ [to_column r] /\
    engine_run op (chunk_feed ph (chunk_of feed b m idx) ph2 feed2) (eng w)
    = (Ok (PArr r), out) /\ eng w' = out.
Proof.
  unfold run_batch_body. intros Hrun.
  apply bind_ok in Hrun as (v & w1 & Hs & Hrun).
  apply bind_ok in Hrun as (r & w2 & Ha & Hrun).
  apply session_run_ok in Hs as (_ & e' & He & ->).
  destruct v as [|a]; [discriminate|].
  inversion Ha; subst. inversion Hrun; subst.
  exists r, e'. simpl. auto.
Qed.

Lemma run_batch_loop_ok op ph (feed : ndarray A) ph2 feed2 b m idxs acc w res w' :
  for_each idxs (run_batch_body op ph feed ph2 feed2 b m) acc w = (Ok res, w') ->
  exists new,
    trace w' = trace w ++ new /\
    gen w' = gen w /\
    res = acc ++ map to_column (chunk_outputs new) /\
    length (chunk_outputs new) = length idxs.
Proof.
  intros Hrun.
  apply (for_each_inv
           (fun k s w1 => exists new,
                trace w1 = trace w ++ new /\ gen w1 = gen w /\
                s = acc ++ map to_column (chunk_outputs new) /\
                length (chunk_outputs new) = k)) in Hrun; [exact Hrun| |].
  - intros k i s w1 s' w1' _ (new & Ht & Hg & Hs & Hl) Hb.
    apply run_batch_body_ok in Hb as (r & out & Ht' & Hg' & Hs' & _ & _).
    exists (new ++ [EvRun op (chunk_feed ph (chunk_of feed b m i) ph2 feed2) (PArr r)]).
    rewrite Ht', Ht, Hg', Hg, Hs', Hs, chunk_outputs_app, map_app, !length_app.
    simpl. rewrite <- !app_assoc. repeat split; lia.
  - exists []. simpl. rewrite !app_nil_r. auto.
Qed.

(** What a returned array says about the run: it is the stack of the
    engine's outputs (a rank-1 output entering as a column), and it has
    as many rows as the feed. *)
Lemma run_batch_ok opts op ph (feed : ndarray A) ph2 feed2 w arr w' :
  _run_batch opts op ph feed ph2 feed2 w = (Ok arr, w') ->
  exists new,
    trace w' = trace w ++ new /\
    gen w' = gen w /\
    vstack (map to_column (chunk_outputs new)) = Ok arr /\
    len arr = len feed.
Proof.
  unfold _run_batch. intros Hrun.
  apply bind_ok in Hrun as (u & w1 & Ha & Hrun).
  unfold py_assert in Ha. destruct (0 <? ndim feed)%nat; [|discriminate].
  injection Ha as _ <-.
  apply bind_ok in Hrun as (m & w1 & Hm & Hrun).
  injection Hm as Hm <-.
  apply bind_ok in Hrun as (res & w1 & Hloop & Hrun).
  apply run_batch_loop_ok in Hloop as (new & Ht & Hg & Hres & _).
  apply bind_ok in Hrun as (stacked & w2 & Hv & Hrun).
  injection Hv as Hv <-.
  apply bind_ok in Hrun as (u' & w2 & Ha & Hrun).
  unfold py_assert in Ha.
  destruct (Nat.eqb_spec (len stacked) (len feed)) as [Hlen|]; [|discriminate].
  injection Ha as _ <-.
  injection Hrun as <- <-.
  exists new. simpl in Hres. subst res. auto.
Qed.

End RunBatchFacts.

(** ** Chunks of an array and computations applied point by point *)

Section Chunks.
Context {A B : Type}.
Implicit Types a : ndarray A.

Lemma row_slice_rows a n s lo hi j :
  shape a = n :: s -> (j < hi - lo)%nat ->
  row (slice_rows a lo hi) j = row a (lo + j).
Proof.
  intros Hs Hj. unfold row, slice_rows, stride. rewrite Hs. simpl.
  set (st := size_of s).
  rewrite skipn_firstn_comm, take_take, drop_drop.
  assert (E : ((hi - lo) * st - j * st = st + (hi - lo - j - 1) * st)%nat).
  { remember (hi - lo)%nat as k eqn:Hk. clear Hk.
    replace k with (j + 1 + (k - j - 1))%nat at 1 by lia. lia. }
  rewrite E, Nat.min_l by apply Nat.le_add_r.
  f_equal. f_equal. lia.
Qed.

Lemma len_slice_rows a n s lo hi :
  shape a = n :: s -> len (slice_rows a lo hi) = (hi - lo)%nat.
Proof. intros Hs. unfold slice_rows, len. rewrite Hs. reflexivity. Qed.

Lemma map_seq_shift {C} (f : nat -> C) (lo s k : nat) :
  map f (seq (lo + s) k) = map (fun j => f (lo + j)%nat) (seq s k).
Proof.
  revert s. induction k as [|k IH]; intros s; [reflexivity|].
  simpl. f_equal. rewrite <- Nat.add_succ_r. apply IH.
Qed.

Lemma pointwise_slice_rows (g : list A -> list B) out a n s lo hi :
  shape a = n :: s ->
  pointwise g out (slice_rows a lo hi)
  = mk_nd ((hi - lo)%nat :: out)
          (concat (map (fun i => g (row a i)) (seq lo (hi - lo)))).
Proof.
  intros Hs. unfold pointwise. rewrite (len_slice_rows a n s) by exact Hs.
  f_equal. apply (f_equal (@concat B)).
  replace (seq lo (hi - lo)) with (seq (lo + 0) (hi - lo)) by (f_equal; lia).
  rewrite map_seq_shift.
  apply map_ext_in. intros j Hj. apply in_seq in Hj.
  rewrite (row_slice_rows a n s) by (auto; lia). reflexivity.
Qed.

(** Rows [i*b .. min n ((i+1)*b)) for i = 0 .. k-1 are rows [0 .. min n (k*b)). *)
Lemma concat_chunks (f : nat -> list B) (n b k : nat) :
  concat (map (fun i => concat (map f (seq (i * b) (Nat.min n ((i + 1) * b) - i * b))))
              (seq 0 k))
  = concat (map f (seq 0 (Nat.min n (k * b)))).
Proof.
  induction k as [|k IH]; [simpl; rewrite Nat.min_0_r; reflexivity|].
  rewrite seq_S, map_app, concat_app, IH. simpl. rewrite app_nil_r.
  rewrite <- concat_app, <- map_app. f_equal. f_equal.
  destruct (Nat.le_gt_cases (k * b) n) as [Hle|Hgt].
  - rewrite (Nat.min_r n (k * b)) by exact Hle.
    rewrite <- seq_app. f_equal. lia.
  - replace (Nat.min n ((k + 1) * b) - k * b)%nat with 0%nat by lia.
    simpl. rewrite app_nil_r. f_equal. lia.
Qed.

Lemma sum_chunks (n b k : nat) :
  sum_list_with (fun i => Nat.min n ((i + 1) * b) - i * b)%nat (seq 0 k)
  = Nat.min n (k * b).
Proof.
  induction k as [|k IH]; [simpl; lia|].
  rewrite seq_S, sum_list_with_app, IH. simpl. lia.
Qed.

Lemma map_seq_const {C} (f : nat -> C) (c : C) (s q : nat) :
  (forall i, (s <= i < s + q)%nat -> f i = c) -> map f (seq s q) = repeat c q.
Proof.
  revert s. induction q as [|q IH]; intros s Hf; [reflexivity|].
  simpl. rewrite (Hf s) by lia. f_equal. apply IH. intros i Hi. apply Hf. lia.
Qed.

End Chunks.

(** The sizes of the chunks: full chunks, then the remainder if there is
    one. *)
Lemma chunk_sizes (n b m : nat) :
  (1 <= b)%nat -> ((m - 1) * b < n)%nat -> (n <= m * b)%nat ->
  map (fun i => Nat.min n ((i + 1) * b) - i * b)%nat (seq 0 m)
  = repeat b (n / b) ++ (if (n mod b =? 0)%nat then [] else [(n mod b)%nat]).
Proof.
  intros Hb Hlo Hhi.
  pose proof (Nat.div_mod_eq n b) as Hdm.
  pose proof (Nat.mod_upper_bound n b ltac:(lia)) as Hr.
  destruct (Nat.eqb_spec (n mod b) 0) as [Hz|Hnz].
  - assert (m = (n / b)%nat) as -> by nia.
    rewrite app_nil_r. apply map_seq_const. intros i Hi. nia.
  - assert (m = Datatypes.S (n / b)) as -> by nia.
    rewrite seq_S, map_app. f_equal.
    + apply map_seq_const. intros i Hi. nia.
    + simpl. f_equal. nia.
Qed.

(** ** Runs of [_run_batch] on an engine that computes a function of the chunk *)

Section PureRuns.
Context {A : Type} {EN : Engine A} {RN : Random A}.

Lemma clamp_index_nonneg (n : nat) (i b : nat) :
  clamp_index n (Z.of_nat i * Z.of_nat b) = Nat.min n (i * b).
Proof.
  unfold clamp_index.
  destruct (Z.ltb_spec (Z.of_nat i * Z.of_nat b) 0) as [Hneg|_]; [nia|].
  rewrite <- Nat2Z.inj_mul, Nat2Z.id. reflexivity.
Qed.

(** With [m] chunks of [b] rows for [n] rows, chunk [idx] holds the rows
    from [idx*b] up to [(idx+1)*b], or up to the end for the last one. *)
Lemma chunk_of_rows (feed : ndarray A) n s (b m idx : nat) :
  shape feed = n :: s ->
  ((m - 1) * b < n)%nat -> (n <= m * b)%nat -> (idx < m)%nat ->
  chunk_of feed (Z.of_nat b) (Z.of_nat m) idx
  = slice_rows feed (idx * b) (Nat.min n ((idx + 1) * b)).
Proof.
  intros Hs Hlo Hhi Hidx. unfold chunk_of, slice, slice_from, len.
  rewrite Hs. simpl hd.
  replace ((Z.of_nat idx + 1) * Z.of_nat b)
    with (Z.of_nat (idx + 1) * Z.of_nat b) by lia.
  rewrite !clamp_index_nonneg.
  destruct (Z.eqb_spec (Z.of_nat idx) (Z.of_nat m - 1)) as [Hlast|Hreg].
  - assert (m = (idx + 1)%nat) as -> by lia.
    f_equal; nia.
  - f_equal. nia.
Qed.

Variables (op : fetch) (ph ph2 : feed_key) (feed2 : option (feed_val A)).
Variable f : engine -> ndarray A -> ndarray A.

(** The engine evaluates [op] on a chunk as the function [f] of the
    chunk, without changing its own state. *)
Hypothesis engine_pure :
  forall x e, engine_run op (chunk_feed ph x ph2 feed2) e = (Ok (PArr (f e x)), e).
Hypothesis ph_tensor : is_tensor ph = true.
Hypothesis ph2_tensor :
  match feed2 with None => True | Some _ => is_tensor ph2 = true end.

Lemma run_batch_loop_pure (feed : ndarray A) b m idxs acc w :
  for_each idxs (run_batch_body op ph feed ph2 feed2 b m) acc w
  = (Ok (acc ++ map (fun i => to_column (f (eng w) (chunk_of feed b m i))) idxs),
     mk_world (eng w) (gen w) (trace w ++ map (run_event op ph ph2 feed2 f feed b m (eng w)) idxs)).
Proof.
  revert acc w. induction idxs as [|i idxs IH]; intros acc w.
  - simpl. rewrite !app_nil_r. destruct w; reflexivity.
  - simpl. unfold bind at 1. unfold run_batch_body at 1.
    unfold bind, session_run. rewrite chunk_feed_keys, ph_tensor.
    replace (match feed2 with None => true | Some _ => is_tensor ph2 end)
      with true by (destruct feed2; [symmetry; exact ph2_tensor | reflexivity]).
    simpl. rewrite engine_pure. simpl.
    rewrite IH. simpl. rewrite <- !app_assoc. reflexivity.
Qed.

End PureRuns.

Section PointwiseRuns.
Context {A : Type} {EN : Engine A} {RN : Random A}.

Lemma concatenate0_same_tail (arrs : list (ndarray A)) (t : list nat) :
  arrs <> [] -> Forall (fun a => tl (shape a) = t) arrs ->
  concatenate0 arrs
  = Ok (mk_nd (sum_list_with len arrs :: t) (concat (map flat arrs))).
Proof.
  intros Hne Hall. unfold concatenate0.
  destruct arrs as [|a rest]; [contradiction|].
  inversion Hall as [|? ? Ha Hrest]; subst.
  replace (forallb _ rest) with true; [reflexivity|].
  symmetry. apply forallb_forall. intros b Hb.
  apply bool_decide_eq_true. rewrite Forall_forall in Hrest.
  apply Hrest. apply list_elem_of_In. exact Hb.
Qed.

Lemma vstack_rank2 (arrs : list (ndarray A)) :
  Forall (fun a => 2 <= ndim a)%nat arrs -> vstack arrs = concatenate0 arrs.
Proof.
  intros Hall. unfold vstack. f_equal.
  induction Hall as [|a arrs Ha _ IH]; [reflexivity|].
  simpl. rewrite atleast_2d_id by exact Ha. f_equal. exact IH.
Qed.

Variables (op : fetch) (ph ph2 : feed_key) (feed2 : option (feed_val A)).
Variables (g : engine -> list A -> list A) (out : list nat).

(** The engine evaluates [op] point by point: row [r] of the fed chunk
    gives [g e r], of shape [out], and the engine's state stays as it
    is. *)
Hypothesis engine_pointwise :
  forall x e, engine_run op (chunk_feed ph x ph2 feed2) e
              = (Ok (PArr (pointwise (g e) out x)), e).
Hypothesis ph_tensor : is_tensor ph = true.
Hypothesis ph2_tensor :
  match feed2 with None => True | Some _ => is_tensor ph2 = true end.

Lemma to_column_pointwise (x : ndarray A) e :
  to_column (pointwise (g e) out x)
  = mk_nd (len x :: column_shape out) (flat (pointwise (g e) out x)).
Proof.
  unfold to_column, pointwise, reshape_column, ndim. simpl.
  destruct out as [|k t]; simpl; [|reflexivity].
  rewrite Nat.mul_1_r. reflexivity.
Qed.

Lemma run_batch_pointwise opts (feed : ndarray A) n s w :
  shape feed = n :: s -> (1 <= n)%nat -> 1 <= tf_run_batch_size opts ->
  exists m : nat,
    ((m - 1) * Z.to_nat (tf_run_batch_size opts) < n)%nat /\
    (n <= m * Z.to_nat (tf_run_batch_size opts))%nat /\
    _run_batch opts op ph feed ph2 feed2 w
    = (Ok (mk_nd (n :: column_shape out) (flat (pointwise (g (eng w)) out feed))),
       mk_world (eng w) (gen w)
         (trace w ++ map (run_event op ph ph2 feed2
                            (fun e => pointwise (g e) out) feed
                            (tf_run_batch_size opts) (Z.of_nat m) (eng w))
                         (seq 0 m))).
Proof.
  intros Hs Hn HB.
  destruct (ceil_div_spec (Z.of_nat n) (tf_run_batch_size opts) HB)
    as (m & Hm & Hlo & Hhi).
  set (b := Z.to_nat (tf_run_batch_size opts)).
  assert (Hb : tf_run_batch_size opts = Z.of_nat b) by lia.
  exists (Z.to_nat m).
  assert (Hmm : m = Z.of_nat (Z.to_nat m)) by nia.
  set (mm := Z.to_nat m) in *. clearbody mm b. rewrite Hb in *. subst m.
  assert (Hlo' : ((mm - 1) * b < n)%nat) by nia.
  assert (Hhi' : (n <= mm * b)%nat) by nia.
  split; [exact Hlo'|]. split; [exact Hhi'|].
  unfold _run_batch. cbv zeta.
  erewrite bind_eq; [|unfold py_assert, ndim; rewrite Hs; reflexivity].
  erewrite bind_eq;
    [|unfold lift, len; rewrite Hs; simpl hd; rewrite Hb, Hm; reflexivity].
  erewrite bind_eq;
    [|unfold xrange; rewrite Nat2Z.id;
      apply (run_batch_loop_pure op ph ph2 feed2 (fun e => pointwise (g e) out)
               engine_pointwise ph_tensor ph2_tensor)].
  simpl app. rewrite Hb.
  erewrite (map_ext_in _ (fun i => mk_nd ((Nat.min n ((i + 1) * b) - i * b)%nat
                                          :: column_shape out)
               (concat (map (fun j => g (eng w) (row feed j))
                            (seq (i * b) (Nat.min n ((i + 1) * b) - i * b)))))).
  2:{ intros i Hi. apply in_seq in Hi.
      rewrite to_column_pointwise.
      rewrite (chunk_of_rows feed n s) by (auto; lia).
      rewrite (pointwise_slice_rows _ _ _ n s) by exact Hs.
      rewrite (len_slice_rows _ n s) by exact Hs. reflexivity. }
  erewrite bind_eq.
  2:{ unfold lift. rewrite vstack_rank2.
      2:{ apply Forall_forall. intros a Ha. apply list_elem_of_In in Ha.
          apply in_map_iff in Ha as (i & <- & _). unfold ndim. simpl.
          destruct out; simpl; lia. }
      rewrite (concatenate0_same_tail _ (column_shape out)).
      2:{ destruct mm; [lia|]. discriminate. }
      2:{ apply Forall_forall. intros a Ha. apply list_elem_of_In in Ha.
          apply in_map_iff in Ha as (i & <- & _). reflexivity. }
      rewrite map_map. simpl flat.
      rewrite (concat_chunks (fun j => g (eng w) (row feed j)) n b mm).
      replace (sum_list_with len _) with (Nat.min n (mm * b)).
      2:{ rewrite <- (sum_chunks n b mm). clear.
          generalize (seq 0 mm). intros l.
          induction l as [|i l IH]; [reflexivity|].
          simpl. rewrite IH. reflexivity. }
      rewrite Nat.min_l by exact Hhi'. reflexivity. }
  erewrite bind_eq;
    [|unfold py_assert, len; rewrite Hs; simpl hd; rewrite Nat.eqb_refl;
      reflexivity].
  unfold ret, pointwise, len. rewrite Hs. reflexivity.
Qed.

End PointwiseRuns.

(** ** Row order of a point-by-point computation *)

Section RowOrder.
Context {A B : Type}.

Lemma concat_nth_block (l : list (list B)) (st i : nat) (x : list B) :
  Forall (fun y => length y = st) l -> l !! i = Some x ->
  take st (drop (i * st) (concat l)) = x.
Proof.
  intros Hall. revert i. induction Hall as [|y l Hy _ IH]; intros i Hi.
  - discriminate.
  - destruct i as [|i]; simpl in *.
    + injection Hi as ->. apply take_app_length'. symmetry. exact Hy.
    + rewrite <- drop_drop, drop_app_length' by (symmetry; exact Hy).
      apply IH. exact Hi.
Qed.

Lemma lookup_map_seq {C} (f : nat -> C) (s n i : nat) :
  (i < n)%nat -> map f (seq s n) !! i = Some (f (s + i)%nat).
Proof.
  revert s i. induction n as [|n IH]; intros s i Hi; [lia|].
  destruct i as [|i]; simpl.
  - rewrite Nat.add_0_r. reflexivity.
  - rewrite IH by lia. f_equal. f_equal. lia.
Qed.

Lemma row_pointwise (g : list A -> list B) (out : list nat) (a : ndarray A) i :
  (forall r, length (g r) = size_of out) -> (i < len a)%nat ->
  row (pointwise g out a) i = g (row a i).
Proof.
  intros Hg Hi. unfold row at 1. unfold stride, pointwise. simpl.
  apply concat_nth_block.
  - apply Forall_forall. intros y Hy. apply list_elem_of_In in Hy.
    apply in_map_iff in Hy as (j & <- & _). apply Hg.
  - rewrite lookup_map_seq by exact Hi. reflexivity.
Qed.
End RowOrder.

(** ** BatchRunner: [Gan._run_batch] *)

Section BatchRunner.
Context {A : Type} {EN : Engine A} {RN : Random A}.

Lemma chunk_feed_head (ph ph2 : feed_key) (feed2 : option (feed_val A))
    (x : ndarray A) :
  match feed2 with None => True | Some _ => ph2 <> ph end ->
  hd_error (chunk_feed ph x ph2 feed2) = Some (ph, FArr x).
Proof.
  unfold chunk_feed, py_dict. destruct feed2 as [v2|]; [|reflexivity].
  intros Hne. simpl. rewrite bool_decide_eq_false_2 by congruence. reflexivity.
Qed.

Lemma fed_rows_run_events op ph ph2 feed2 f (feed : ndarray A) n s (b m : nat) e :
  shape feed = n :: s ->
  match feed2 with None => True | Some _ => ph2 <> ph end ->
  ((m - 1) * b < n)%nat -> (n <= m * b)%nat ->
  fed_rows (map (run_event op ph ph2 feed2 f feed
                           (Z.of_nat b) (Z.of_nat m) e) (seq 0 m))
  = map (fun i => Nat.min n ((i + 1) * b) - i * b)%nat (seq 0 m).
Proof.
  intros Hs Hne Hlo Hhi. unfold fed_rows, fed.
  assert (Hgen : forall l, Forall (fun i => i < m)%nat l ->
            map (fun fd : feed_dict A => match fd with
                           | (_, FArr x) :: _ => len x
                           | _ => 0%nat
                           end)
              (flat_map (fun ev : event A => match ev with
                                   | EvRun _ fd _ => [fd]
                                   | _ => []
                                   end)
                 (map (run_event op ph ph2 feed2 f feed
                                 (Z.of_nat b) (Z.of_nat m) e) l))
            = map (fun i => Nat.min n ((i + 1) * b) - i * b)%nat l).
  { induction l as [|i l IH]; intros Hall; [reflexivity|].
    inversion Hall as [|? ? Hi Hl]; subst. simpl. f_equal; [|apply IH; exact Hl].
    pose proof (chunk_feed_head ph ph2 feed2
                  (chunk_of feed (Z.of_nat b) (Z.of_nat m) i) Hne) as Hhd.
    destruct (chunk_feed ph _ ph2 feed2) as [|[k v] rest]; [discriminate|].
    injection Hhd as -> ->.
    rewrite (chunk_of_rows feed n s) by (auto; lia).
    apply (len_slice_rows _ n s). exact Hs. }
  apply Hgen. apply Forall_forall. intros i Hi.
  apply list_elem_of_In, in_seq in Hi. lia.
Qed.

Lemma row_column_shape (out : list nat) (k : nat) (fl : list A) (i : nat) :
  row (mk_nd (k :: column_shape out) fl) i = row (mk_nd (k :: out) fl) i.
Proof.
  unfold row, stride. simpl. destruct out as [|d t]; [|reflexivity].
  reflexivity.
Qed.

(** C1, as the code has it. For an input of [n >= 1] rows and a chunk size
    of at least 1, with or without a second placeholder, on an engine that
    applies the operation to every point on its own (the assumption of the
    method's docstring), [_run_batch] returns the values of the unchunked
    evaluation [pointwise g out feed] of the operation on the whole input:
    the result is the unchunked evaluation itself when that has rank at
    least 2, and the unchunked evaluation reshaped to a column [(n,1)],
    which is another array, when it has rank 1. The result has [n] rows,
    row [i] is the output for point [i], the engine's state is untouched,
    and the engine was fed full chunks followed by the remainder when the
    chunk size does not divide [n]. *)
Theorem run_batch_transparent (opts : options) (op : fetch)
    (ph ph2 : feed_key) (feed2 : option (feed_val A))
    (g : list A -> list A) (out : list nat) (feed : ndarray A)
    (n : nat) (s : list nat) (w : world A) :
  shape feed = n :: s ->
  (1 <= n)%nat ->
  1 <= tf_run_batch_size opts ->
  is_tensor ph = true ->
  match feed2 with
  | None => True
  | Some _ => is_tensor ph2 = true /\ ph2 <> ph
  end ->
  (forall r, length (g r) = size_of out) ->
  (forall x e, engine_run op (chunk_feed ph x ph2 feed2) e
               = (Ok (PArr (pointwise g out x)), e)) ->
  exists w',
    _run_batch opts op ph feed ph2 feed2 w
    = (Ok (to_column (pointwise g out feed)), w') /\
    (out <> [] -> to_column (pointwise g out feed) = pointwise g out feed) /\
    (out = [] ->
     to_column (pointwise g out feed)
     = mk_nd [n; 1%nat] (flat (pointwise g out feed)) /\
     to_column (pointwise g out feed) <> pointwise g out feed) /\
    len (to_column (pointwise g out feed)) = n /\
    (forall i, (i < n)%nat ->
               row (to_column (pointwise g out feed)) i = g (row feed i)) /\
    eng w' = eng w /\
    let b := Z.to_nat (tf_run_batch_size opts) in
    fed_rows (drop (length (trace w)) (trace w'))
    = repeat b (n / b) ++ (if (n mod b =? 0)%nat then [] else [(n mod b)%nat]).
Proof.
  intros Hs Hn HB Hph Hph2 Hg Heng.
  assert (Hk2 : match feed2 with None => True | Some _ => is_tensor ph2 = true end)
    by (destruct feed2; [apply Hph2 | exact I]).
  assert (Hne : match feed2 with None => True | Some _ => ph2 <> ph end)
    by (destruct feed2; [apply Hph2 | exact I]).
  destruct (run_batch_pointwise op ph ph2 feed2
              (fun _ => g) out Heng Hph Hk2 opts feed n s w Hs Hn HB)
    as (m & Hlo & Hhi & Hrun).
  assert (Hcol : to_column (pointwise g out feed)
                 = mk_nd (n :: column_shape out) (flat (pointwise g out feed))).
  { rewrite (to_column_pointwise op ph ph2 feed2 (fun _ => g) out Heng feed (eng w)).
    unfold len. rewrite Hs. reflexivity. }
  eexists. split; [|split; [|split; [|split; [|split; [|split]]]]].
  - rewrite Hrun, Hcol. reflexivity.
  - intros Hout. rewrite Hcol. unfold pointwise, len. rewrite Hs. simpl.
    destruct out; [contradiction|reflexivity].
  - intros ->. rewrite Hcol. split; [reflexivity|].
    intros E. apply (f_equal shape) in E. simpl in E. discriminate.
  - rewrite Hcol. reflexivity.
  - intros i Hi. rewrite Hcol, row_column_shape.
    replace (mk_nd (n :: out) (flat (pointwise g out feed)))
      with (pointwise g out feed)
      by (unfold pointwise, len; rewrite Hs; reflexivity).
    apply row_pointwise; [exact Hg|]. unfold len. rewrite Hs. exact Hi.
  - reflexivity.
  - simpl. rewrite drop_app_length.
    replace (tf_run_batch_size opts) with (Z.of_nat (Z.to_nat (tf_run_batch_size opts)))
      at 1 by lia.
    rewrite (fed_rows_run_events op ph ph2 feed2 _ feed n s) by assumption.
    apply chunk_sizes; [lia|assumption|assumption].
Qed.

(** C8. An input whose first dimension is zero makes [_run_batch] raise:
    the division fails for a chunk size of zero, and otherwise no chunk is
    evaluated and stacking the empty list of results fails. The engine is
    never called. *)
Theorem run_batch_empty_raises (opts : options) (op : fetch)
    (ph ph2 : feed_key) (feed2 : option (feed_val A))
    (s : list nat) (contents : list A) (w : world A) :
  _run_batch opts op ph (mk_nd (0%nat :: s) contents) ph2 feed2 w
  = (Raise (if tf_run_batch_size opts =? 0 then ZeroDivisionError
            else ValueError "need at least one array to concatenate"), w).
Proof.
  unfold _run_batch. cbv zeta.
  erewrite bind_eq; [|reflexivity].
  unfold len. simpl hd. change (Z.of_nat 0) with 0. unfold ceil_div.
  destruct (Z.eqb_spec (tf_run_batch_size opts) 0) as [Hz|Hnz].
  - reflexivity.
  - rewrite Z.opp_0, Z.div_0_l by exact Hnz.
    erewrite bind_eq; [|reflexivity].
    erewrite bind_eq; [|reflexivity].
    reflexivity.
Qed.

(** C7, as the code has it. Whatever the engine computes, when
    [_run_batch] returns an array it is the stack of the engine's
    per-chunk outputs in which every rank-1 output [(n,)] entered as the
    column [(n,1)]; so the returned array has rank 2 when the outputs have
    rank at most 2, and the rank of the outputs when that is higher. *)
Theorem run_batch_rank (opts : options) (op : fetch) (ph ph2 : feed_key)
    (feed : ndarray A) (feed2 : option (feed_val A))
    (w w' : world A) (arr : ndarray A) :
  _run_batch opts op ph feed ph2 feed2 w = (Ok arr, w') ->
  let outs := chunk_outputs (drop (length (trace w)) (trace w')) in
  outs <> [] /\
  vstack (map to_column outs) = Ok arr /\
  Forall (fun r => ndim r = 1%nat ->
                   to_column r = mk_nd [len r; 1%nat] (flat r)) outs /\
  Forall (fun r => ndim arr = Nat.max 2 (ndim r)) outs.
Proof.
  intros Hrun. apply run_batch_ok in Hrun as (new & Ht & _ & Hv & _).
  rewrite Ht, drop_app_length. cbv zeta.
  pose proof (vstack_ndim _ _ Hv) as (Hne & Hall).
  repeat split; auto.
  apply Forall_forall. intros r _ Hr. unfold to_column. rewrite Hr. simpl.
  unfold reshape_column, len. destruct r as [[|k [|? ?]] d]; try discriminate.
  simpl. rewrite Nat.mul_1_r. reflexivity.
Qed.

End BatchRunner.

Lemma run_batch_transparent_witness :
  (exists w',
      _run_batch demo_options G _noise_ph five_points
                 (_is_training_ph (demo_gan ImageGan)) (Some (FBool false))
                 demo_world
      = (Ok (pointwise image_of [2%nat; 1%nat] five_points), w') /\
      fed_rows (drop (length (trace demo_world)) (trace w'))
      = [2%nat; 2%nat; 1%nat]) /\
  (exists w',
      _run_batch demo_options C_training _real_points_ph five_points PyNone None
                 demo_world
      = (Ok (mk_nd [5%nat; 1%nat] [3; 7; 11; 15; 19]), w') /\
      pointwise (fun r => [sum_row r]) [] five_points
      = mk_nd [5%nat] [3; 7; 11; 15; 19]).
Proof.
  split.
  - destruct (run_batch_transparent (EN := counting_engine) (RN := counting_random)
                demo_options G _noise_ph (_is_training_ph (demo_gan ImageGan))
                (Some (FBool false)) image_of [2%nat; 1%nat] five_points
                5%nat [2%nat] demo_world)
      as (w' & Hrun & Hsame & _ & _ & _ & _ & Hfed).
    + reflexivity.
    + lia.
    + simpl. lia.
    + reflexivity.
    + split; [reflexivity | discriminate].
    + intros r. reflexivity.
    + intros x e. reflexivity.
    + exists w'. rewrite Hsame in Hrun by discriminate.
      split; [exact Hrun | exact Hfed].
  - destruct (run_batch_transparent (EN := counting_engine) (RN := counting_random)
                demo_options C_training _real_points_ph PyNone None
                (fun r => [sum_row r]) [] five_points
                5%nat [2%nat] demo_world)
      as (w' & Hrun & _ & Hcol & _).
    + reflexivity.
    + lia.
    + simpl. lia.
    + reflexivity.
    + exact I.
    + intros r. reflexivity.
    + intros x e. reflexivity.
    + exists w'. rewrite (proj1 (Hcol eq_refl)) in Hrun.
      split; [exact Hrun | reflexivity].
Defined.

(** C7, as stated, fails: chunks of rank 3 give an array of rank 3. *)
Lemma run_batch_rank_counterexample :
  exists arr w',
    _run_batch demo_options G (Placeholder "noise") five_points PyNone None demo_world
    = (Ok arr, w') /\ ndim arr = 3%nat /\ ndim arr <> 2%nat.
Proof.
  eexists. eexists. split; [vm_compute; reflexivity|].
  split; [reflexivity | discriminate].
Qed.

Lemma run_batch_rank_witness :
  exists arr w',
    _run_batch demo_options C_training (Placeholder "real_points") five_points
               PyNone None demo_world = (Ok arr, w') /\
    shape arr = [5%nat; 1%nat] /\
    Forall (fun r => ndim arr = Nat.max 2 (ndim r))
           (chunk_outputs (drop (length (trace demo_world)) (trace w'))).
Proof.
  eexists. eexists.
  assert (Hrun : _run_batch demo_options C_training (Placeholder "real_points")
                   five_points PyNone None demo_world
                 = (Ok (mk_nd [5%nat; 1%nat] [3; 7; 11; 15; 19]),
                    snd (_run_batch demo_options C_training
                           (Placeholder "real_points") five_points
                           PyNone None demo_world))).
  { vm_compute. reflexivity. }
  split; [exact Hrun|]. split; [reflexivity|].
  exact (proj2 (proj2 (proj2 (run_batch_rank _ _ _ _ _ _ _ _ _ Hrun)))).
Defined.

(** ** What the methods add to the trace *)

Section EmitsFacts.
Context {A : Type} {EN : Engine A} {RN : Random A}.
Variable P : event A -> Prop.

Lemma extends_refl (w : world A) : extends P w w.
Proof. exists []. rewrite app_nil_r. auto. Qed.

Lemma extends_trans (w1 w2 w3 : world A) :
  extends P w1 w2 -> extends P w2 w3 -> extends P w1 w3.
Proof.
  intros (n1 & H1 & F1) (n2 & H2 & F2). exists (n1 ++ n2).
  rewrite H2, H1, app_assoc. split; [reflexivity | apply Forall_app; auto].
Qed.

Lemma extends_trace_eq (w w' : world A) : trace w' = trace w -> extends P w w'.
Proof. intros E. exists []. rewrite app_nil_r. auto. Qed.

Lemma emits_ret {T} (x : T) : emits P (ret x).
Proof. intros w y w' E. injection E as _ <-. apply extends_refl. Qed.

Lemma emits_raise {T} (e : exn) : emits P (raise e : M T).
Proof. intros w y w' E. discriminate. Qed.

Lemma emits_lift {T} (r : result T) : emits P (lift r).
Proof. intros w y w' E. injection E as _ <-. apply extends_refl. Qed.

Lemma emits_py_assert b msg : emits P (py_assert b msg).
Proof. destruct b; [apply emits_ret | apply emits_raise]. Qed.

Lemma emits_bind {T U} (m : M T) (k : T -> M U) :
  emits P m -> (forall x, emits P (k x)) -> emits P (bind m k).
Proof.
  intros Hm Hk w y w' E. apply bind_ok in E as (x & w1 & E1 & E2).
  eapply extends_trans; [eapply Hm | eapply Hk]; eauto.
Qed.

Lemma emits_for_each {S} (l : list nat) (body : nat -> S -> M S) (s : S) :
  (forall i s', emits P (body i s')) -> emits P (for_each l body s).
Proof.
  intros Hb. revert s. induction l as [|i l IH]; intros s.
  - apply emits_ret.
  - simpl. apply emits_bind; [apply Hb | exact IH].
Qed.

Lemma emits_for_break {S} (l : list nat) (body : nat -> S -> M (S * bool)) (s : S) :
  (forall i s', emits P (body i s')) -> emits P (for_break l body s).
Proof.
  intros Hb. revert s. induction l as [|i l IH]; intros s.
  - apply emits_ret.
  - simpl. apply emits_bind; [apply Hb|].
    intros [s1 []]; simpl; [apply emits_ret | apply IH].
Qed.

Lemma emits_log (ev : event A) : P ev -> emits P (log ev).
Proof.
  intros Hev w y w' E. injection E as _ <-. exists [ev]. simpl. auto.
Qed.

Lemma emits_session_run f (fd : feed_dict A) :
  (forall v, P (EvRun f fd v)) -> emits P (session_run f fd).
Proof.
  intros Hev w v w' E. apply session_run_ok in E as (_ & e' & _ & ->).
  exists [EvRun f fd v]. simpl. auto.
Qed.

Lemma emits_np_random_choice a size p : emits P (np_random_choice a size p).
Proof.
  intros w ids w' E. apply extends_trace_eq. unfold np_random_choice in E.
  repeat match type of E with
         | (if ?c then _ else _) _ = _ => destruct c; [discriminate|]
         end.
  destruct (rng_choice _ _ _ _) as [r g']. injection E as _ <-. reflexivity.
Qed.

Lemma emits_generate_noise opts num : emits P (generate_noise opts num).
Proof.
  intros w x w' E. apply extends_trace_eq. unfold generate_noise in E.
  destruct (_ || _); [discriminate|].
  destruct (draw_many _ _) as [xs g']. injection E as _ <-. reflexivity.
Qed.

Lemma emits_as_array (v : pyval A) : emits P (as_array v).
Proof. destruct v; [apply emits_raise | apply emits_ret]. Qed.

Lemma emits_run_steps n f (fd : feed_dict A) :
  (forall v, P (EvRun f fd v)) -> emits P (run_steps n f fd).
Proof.
  intros Hev. apply emits_for_each. intros _ _.
  apply emits_bind; [apply emits_session_run, Hev | intros; apply emits_ret].
Qed.

Lemma emits_run_batch opts op ph (feed : ndarray A) ph2 feed2 :
  (forall x v, P (EvRun op (chunk_feed ph x ph2 feed2) v)) ->
  emits P (_run_batch opts op ph feed ph2 feed2).
Proof.
  intros Hev. unfold _run_batch.
  apply emits_bind; [apply emits_py_assert | intros _].
  apply emits_bind; [apply emits_lift | intros m].
  apply emits_bind.
  { apply emits_for_each. intros i acc. unfold run_batch_body.
    apply emits_bind; [apply emits_session_run; intros; apply Hev | intros v].
    apply emits_bind; [apply emits_as_array | intros; apply emits_ret]. }
  intros res. apply emits_bind; [apply emits_lift | intros stacked].
  apply emits_bind; [apply emits_py_assert | intros; apply emits_ret].
Qed.

End EmitsFacts.

(** Peels the monadic structure of an [emits] goal; [tac] shows that an
    emitted event is of the right kind. *)
Ltac emits_steps tac :=
  repeat first
    [ apply emits_ret | apply emits_raise | apply emits_lift
    | apply emits_py_assert | apply emits_np_random_choice
    | apply emits_generate_noise | apply emits_as_array
    | apply emits_run_steps; [intros; tac]
    | apply emits_run_batch; [intros; tac]
    | apply emits_session_run; [intros; tac]
    | apply emits_log; [tac]
    | apply emits_for_each; intros
    | apply emits_for_break; intros
    | apply emits_bind; [|intros]
    | match goal with
      | |- emits _ (if ?b then _ else _) => destruct b
      end ].

(** ** The training loops of [ImageGan] and [UnrolledGan] *)

Lemma updates_from_closed (opts : options) (n : nat) (c : Z) :
  updates_from opts n c = epoch_updates opts (Z.of_nat n) c.
Proof.
  revert c. induction n as [|n IH]; intros c; [reflexivity|].
  simpl updates_from. rewrite IH. unfold epoch_updates, stop_now.
  destruct (Z.ltb_spec 0 (early_stop opts)), (Z.ltb_spec (early_stop opts) (c + 1)),
    (Z.leb_spec (Z.of_nat n) 0), (Z.leb_spec (Z.of_nat (S n)) 0); simpl; lia.
Qed.

Lemma epoch_updates_to_nat (opts : options) (bn c : Z) :
  epoch_updates opts (Z.of_nat (Z.to_nat bn)) c = epoch_updates opts bn c.
Proof.
  unfold epoch_updates.
  destruct (Z.leb_spec bn 0), (Z.leb_spec (Z.of_nat (Z.to_nat bn)) 0);
    try lia; try reflexivity.
  rewrite Z2Nat.id by lia. reflexivity.
Qed.

Section TrainingLoops.
Context {A : Type} {EN : Engine A} {RN : Random A}.

Lemma bams_app (t1 t2 : list (event A)) : bams (t1 ++ t2) = (bams t1 + bams t2)%nat.
Proof. unfold bams. rewrite List.filter_app, length_app. reflexivity. Qed.

Lemma bams_not_bam (t : list (event A)) : Forall not_bam t -> bams t = 0%nat.
Proof.
  unfold bams. induction 1 as [|ev t Hev _ IH]; [reflexivity|].
  simpl. unfold not_bam in Hev. rewrite Hev. exact IH.
Qed.

Lemma image_train_body_counting (self : gan A) opts :
  counting_body opts (image_train_body self opts).
Proof.
  intros e i c w c2 b w2 E. unfold image_train_body in E. cbv zeta in E.
  repeat (apply bind_ok in E as (? & ? & _ & E)).
  injection E as <- <- _. auto.
Qed.

Lemma unrolled_train_body_counting (self : gan A) opts :
  counting_body opts (unrolled_train_body self opts).
Proof.
  intros e i c w c2 b w2 E. unfold unrolled_train_body in E. cbv zeta in E.
  repeat (apply bind_ok in E as (? & ? & _ & E)).
  injection E as <- <- _. auto.
Qed.

Lemma image_train_body_no_bam (self : gan A) opts e i c :
  emits not_bam (image_train_body self opts e i c).
Proof.
  unfold image_train_body, plot_due, make_plots. cbv zeta.
  emits_steps ltac:(idtac; reflexivity).
Qed.

Lemma unrolled_train_body_no_bam (self : gan A) opts e i c :
  emits not_bam (unrolled_train_body self opts e i c).
Proof.
  unfold unrolled_train_body, plot_due, make_plots. cbv zeta.
  emits_steps ltac:(idtac; reflexivity).
Qed.

(** The inner loop: the counter grows by the number of minibatches run,
    which the early stop cuts short. *)
Lemma inner_loop_counter opts (body : nat -> Z -> M (Z * bool)) l c (w : world A) c' w' :
  (forall i c w c2 b w2, body i c w = (Ok (c2, b), w2) ->
                         c2 = c + 1 /\ b = stop_now opts (c + 1)) ->
  for_break l body c w = (Ok c', w') ->
  c' = c + updates_from opts (length l) c.
Proof.
  intros Hbody. revert c w. induction l as [|i l IH]; intros c w E.
  - injection E as <- _. simpl. lia.
  - simpl in E. apply bind_ok in E as ([c2 b] & w2 & Eb & E).
    apply Hbody in Eb as (-> & ->). simpl in E. simpl updates_from.
    destruct (stop_now opts (c + 1)).
    + injection E as <- _. reflexivity.
    + apply IH in E. lia.
Qed.

Lemma epochs_loop_spec (self : gan A) opts body (w : world A) c w' :
  counting_body opts body ->
  (forall e i c0, emits not_bam (body e i c0)) ->
  epochs_loop self opts body w = (Ok c, w') ->
  exists bn new,
    py_div (num_points (_data self)) (batch_size opts) = Ok bn /\
    c = counter_after opts bn (Z.to_nat (gan_epoch_num opts)) /\
    trace w' = trace w ++ new /\
    bams new = Z.to_nat (gan_epoch_num opts).
Proof.
  intros Hcount Hquiet E. unfold epochs_loop in E.
  apply bind_ok in E as (bn & w1 & Ebn & E). injection Ebn as Ebn <-.
  exists bn.
  apply (for_each_inv
           (fun k c1 w1 => c1 = counter_after opts bn k /\
                           exists new, trace w1 = trace w ++ new /\ bams new = k))
    in E.
  - unfold xrange in E. rewrite length_seq in E.
    destruct E as (-> & new & Ht & Hb). exists new. auto.
  - intros k e c1 w1 c2 w2 _ (-> & new & Ht & Hb) Estep.
    apply bind_ok in Estep as (c3 & w3 & Einner & Estep).
    apply bind_ok in Estep as (u & w4 & Ebam & Estep).
    injection Estep as <- <-. injection Ebam as _ <-.
    pose proof (emits_for_break not_bam _ _ _ (Hquiet e) _ _ _ Einner)
      as (inner & Hti & Hqi).
    apply (inner_loop_counter opts) in Einner; [|apply Hcount].
    unfold xrange in Einner.
    rewrite length_seq, updates_from_closed, epoch_updates_to_nat in Einner.
    split; [simpl; exact Einner|].
    exists (new ++ inner ++ [EvBam]). simpl trace.
    rewrite Hti, Ht, <- !app_assoc. split; [reflexivity|].
    rewrite !bams_app, (bams_not_bam inner Hqi), Hb.
    change (bams [@EvBam A]) with 1%nat. lia.
  - split; [reflexivity|]. exists []. rewrite app_nil_r. auto.
Qed.

(** C6. In the training loops of the image variants, a positive early-stop
    count ends the inner minibatch loop with the first update that takes
    the counter above it, while the outer loop still goes through all
    [gan_epoch_num] epochs and signals the progress bar once in each: a
    run that returns has signalled exactly [gan_epoch_num] times and has
    counted the updates of every epoch, one update for each epoch that
    starts above the count. *)
Theorem early_stop_best_effort (self : gan A) (opts : options)
    (w w' : world A) (c : Z) :
  image_train_loop self opts w = (Ok c, w') \/
  unrolled_train_loop self opts w = (Ok c, w') ->
  exists bn,
    py_div (num_points (_data self)) (batch_size opts) = Ok bn /\
    c = counter_after opts bn (Z.to_nat (gan_epoch_num opts)) /\
    bams (drop (length (trace w)) (trace w')) = Z.to_nat (gan_epoch_num opts) /\
    (forall c0, 0 < early_stop opts -> 1 <= bn ->
                c0 + epoch_updates opts bn c0
                <= Z.max (c0 + 1) (early_stop opts + 1)) /\
    (forall c0, 0 < early_stop opts < c0 -> 1 <= bn ->
                epoch_updates opts bn c0 = 1).
Proof.
  intros Hrun.
  assert (Hspec : exists bn new,
             py_div (num_points (_data self)) (batch_size opts) = Ok bn /\
             c = counter_after opts bn (Z.to_nat (gan_epoch_num opts)) /\
             trace w' = trace w ++ new /\
             bams new = Z.to_nat (gan_epoch_num opts)).
  { destruct Hrun as [Hrun|Hrun].
    - eapply epochs_loop_spec; [| |exact Hrun].
      + apply image_train_body_counting.
      + apply image_train_body_no_bam.
    - eapply epochs_loop_spec; [| |exact Hrun].
      + apply unrolled_train_body_counting.
      + apply unrolled_train_body_no_bam. }
  destruct Hspec as (bn & new & Hbn & Hc & Ht & Hb).
  exists bn. rewrite Ht, drop_app_length.
  repeat split; auto; intros c0 Hes Hbn1; unfold epoch_updates;
    destruct (Z.leb_spec bn 0), (Z.ltb_spec 0 (early_stop opts)); lia.
Qed.

End TrainingLoops.

Lemma early_stop_best_effort_witness :
  exists w',
    image_train_loop (demo_gan ImageGan) demo_options demo_world = (Ok 4, w') /\
    bams (drop (length (trace demo_world)) (trace w')) = 3%nat.
Proof.
  eexists.
  assert (Hrun : image_train_loop (demo_gan ImageGan) demo_options demo_world
                 = (Ok 4, snd (image_train_loop (demo_gan ImageGan) demo_options
                                 demo_world))).
  { vm_compute. reflexivity. }
  split; [exact Hrun|].
  destruct (early_stop_best_effort _ _ _ _ _ (or_introl Hrun))
    as (bn & Hbn & _ & Hb & _).
  exact Hb.
Defined.

(** ** The public methods and the trained flag *)

Section PublicMethods.
Context {A : Type} {EN : Engine A} {RN : Random A}.

Lemma generate_noise_ok opts num (w : world A) x w' :
  generate_noise opts num w = (Ok x, w') ->
  shape x = [Z.to_nat num; Z.to_nat (latent_space_dim opts)].
Proof.
  unfold generate_noise. destruct (_ || _); [discriminate|].
  destruct (draw_many _ _) as [xs g']. intros E. injection E as <- _. reflexivity.
Qed.

Lemma sample_internal_rows (self : gan A) opts num w arr w' :
  _sample_internal self opts num w = (Ok arr, w') -> len arr = Z.to_nat num.
Proof.
  unfold _sample_internal, toy_sample_internal, image_sample_internal,
    unrolled_sample_internal.
  intros E. destruct (cls self); [discriminate| | |];
    apply bind_ok in E as (noise & w1 & En & E);
    apply generate_noise_ok in En;
    apply run_batch_ok in E as (_ & _ & _ & _ & ->);
    unfold len; rewrite En; reflexivity.
Qed.

Lemma sample_internal_through_run_batch (self : gan A) opts num :
  cls self <> Gan ->
  exists ph2 feed2,
    _sample_internal self opts num
    = (noise <- generate_noise opts num ;;
       _run_batch opts G _noise_ph noise ph2 feed2).
Proof.
  intros Hc. unfold _sample_internal. destruct (cls self); [contradiction| | |].
  - exists PyNone, None. reflexivity.
  - exists (_is_training_ph self), (Some (FBool false)). reflexivity.
  - exists PyNone, None. reflexivity.
Qed.

(** The flag after a history: set exactly when it was set before or some
    [train] call of the history returned normally. *)
Lemma trained_history (self : gan A) cs st h st' :
  exec_calls self cs st = (h, st') ->
  _trained st' = _trained st || train_completed h.
Proof.
  revert st h st'. induction cs as [|c cs IH]; intros st h st' E.
  - injection E as <- <-. simpl. rewrite orb_false_r. reflexivity.
  - simpl in E. destruct (exec_call self c st) as [o st1] eqn:Ec.
    destruct (exec_calls self cs st1) as [h1 st2] eqn:Ecs.
    injection E as <- <-. apply IH in Ecs. rewrite Ecs. simpl.
    destruct c as [opts|opts num|opts fake]; simpl in Ec.
    + unfold train in Ec.
      destruct (_train_internal self opts (snd st)) as [[u|e] w1];
        injection Ec as <- <-; simpl; [rewrite orb_true_r|]; reflexivity.
    + unfold sample in Ec. destruct (_trained st) eqn:Ht.
      * destruct (_sample_internal self opts num (snd st)) as [[a|e] w1];
          injection Ec as <- <-; reflexivity.
      * injection Ec as <- <-. rewrite Ht. reflexivity.
    + unfold train_mixture_discriminator in Ec.
      destruct (_train_mixture_discriminator_internal self opts fake (snd st))
        as [[a|e] w1]; injection Ec as <- <-; reflexivity.
Qed.

(** C4. On every instance, [sample] raises the precondition error as long
    as no [train] call has returned normally; a [train] call that returns
    normally sets the flag, and from then on [sample] runs
    [_sample_internal], which maps the generated noise through
    [_run_batch] and, when it returns, returns [num] points. *)
Theorem sample_requires_training (self : gan A) (cs : list (call A))
    (w0 : world A) (h : list (call A * outcome A)) (st : object_state)
    (opts : options) (num : Z) :
  exec_calls self cs (false, w0) = (h, st) ->
  _trained st = train_completed h /\
  (train_completed h = false ->
   sample self opts num st = (Raise (AssertionError untrained_msg), st)) /\
  (forall o s s', train self o s = (Ok tt, s') -> _trained s' = true) /\
  (train_completed h = true ->
   sample self opts num st
   = (let (r, w') := _sample_internal self opts num (snd st) in (r, (true, w'))) /\
   (cls self <> Gan ->
    exists ph2 feed2,
      _sample_internal self opts num
      = (noise <- generate_noise opts num ;;
         _run_batch opts G _noise_ph noise ph2 feed2)) /\
   (forall arr st', sample self opts num st = (Ok arr, st') ->
                    len arr = Z.to_nat num)).
Proof.
  intros E. apply trained_history in E. simpl in E.
  split; [exact E|]. split; [|split].
  - intros Hn. unfold sample. rewrite E, Hn. reflexivity.
  - intros o s s' Ht. unfold train in Ht.
    destruct (_train_internal self o (snd s)) as [[u|e] w1];
      [injection Ht as <-; reflexivity | discriminate].
  - intros Hc. rewrite Hc in E. split; [|split].
    + unfold sample. rewrite E. reflexivity.
    + apply sample_internal_through_run_batch.
    + intros arr st' Hs. unfold sample in Hs. rewrite E in Hs.
      destruct (_sample_internal self opts num (snd st)) as [r w1] eqn:Ei.
      injection Hs as -> _. eapply sample_internal_rows. exact Ei.
Qed.

(** ** The training-mode flag of [UnrolledGan] *)

Lemma run_batch_bad_key opts op ph (feed : ndarray A) ph2 v2 w arr w' :
  is_tensor ph2 = false ->
  _run_batch opts op ph feed ph2 (Some v2) w = (Ok arr, w') -> False.
Proof.
  intros Hk E. unfold _run_batch in E. cbv zeta in E.
  apply bind_ok in E as (u & w1 & _ & E).
  apply bind_ok in E as (m & w2 & _ & E).
  apply bind_ok in E as (res & w3 & Eloop & E).
  apply bind_ok in E as (stacked & w4 & Ev & _).
  destruct (xrange m) as [|i idxs].
  - injection Eloop as <- _. discriminate.
  - simpl in Eloop. apply bind_ok in Eloop as (r1 & w5 & Eb & _).
    unfold run_batch_body in Eb. apply bind_ok in Eb as (v & w6 & Es & _).
    apply session_run_ok in Es as (Hkeys & _).
    rewrite chunk_feed_keys, Hk, andb_false_r in Hkeys. discriminate.
Qed.

Lemma run_batch_bad_key_raises opts op ph (feed : ndarray A) ph2 v2 n s w :
  is_tensor ph2 = false ->
  shape feed = n :: s -> (1 <= n)%nat -> 1 <= tf_run_batch_size opts ->
  _run_batch opts op ph feed ph2 (Some v2) w
  = (Raise (TypeError "Cannot interpret feed_dict key as Tensor"), w).
Proof.
  intros Hk Hs Hn HB. unfold _run_batch. cbv zeta.
  erewrite bind_eq; [|unfold py_assert, ndim; rewrite Hs; reflexivity].
  destruct (ceil_div_spec (Z.of_nat n) (tf_run_batch_size opts) HB)
    as (m & Hm & Hlo & Hhi).
  erewrite bind_eq; [|unfold lift, len; rewrite Hs; simpl hd; rewrite Hm; reflexivity].
  assert (Hx : exists idxs, xrange m = 0%nat :: idxs).
  { unfold xrange. destruct (Z.to_nat m) eqn:Hz; [nia|]. simpl. eauto. }
  destruct Hx as (idxs & ->).
  apply bind_raise. simpl. apply bind_raise. unfold run_batch_body.
  apply bind_raise. apply session_run_bad_key.
  rewrite chunk_feed_keys, Hk, andb_false_r. reflexivity.
Qed.

(** C10. In [UnrolledGan] the training-mode flag is the constant [True],
    not a graph tensor. The final evaluation of the mixture discriminator
    passes it as the second feed key, so
    [_train_mixture_discriminator_internal] never returns an array: on a
    non-empty dataset the first chunk is refused as a feed before the
    engine runs. Sampling and the training loop feed no mode flag at
    all. *)
Theorem unrolled_mode_flag (self : gan A) :
  cls self = UnrolledGan ->
  _is_training_ph self = PyBool true /\
  is_tensor (_is_training_ph self) = false /\
  (forall opts fake_images w,
      is_ok (fst (_train_mixture_discriminator_internal self opts fake_images w))
      = false) /\
  (forall opts w n s,
      shape (data (_data self)) = n :: s -> (1 <= n)%nat ->
      1 <= tf_run_batch_size opts ->
      _run_batch opts C_training _real_points_ph (data (_data self))
                 (_is_training_ph self) (Some (FBool false)) w
      = (Raise (TypeError "Cannot interpret feed_dict key as Tensor"), w)) /\
  (forall opts num w arr w',
      _sample_internal self opts num w = (Ok arr, w') ->
      extends (mode_free self) w w') /\
  (forall opts w u w',
      _train_internal self opts w = (Ok u, w') ->
      extends (mode_free self) w w').
Proof.
  intros Hc.
  assert (Hflag : _is_training_ph self = PyBool true).
  { unfold _is_training_ph. rewrite Hc. reflexivity. }
  assert (Hfree : forall f (x y : ndarray A) v,
             mode_free self (EvRun f (py_dict [(_real_points_ph, FArr x);
                                               (_noise_ph, FArr y)]) v)).
  { intros. unfold mode_free, carries_mode. rewrite Hflag. reflexivity. }
  assert (Hfree1 : forall f (x : ndarray A) v,
             mode_free self (EvRun f (chunk_feed _noise_ph x PyNone None) v)).
  { intros. unfold mode_free, carries_mode. rewrite Hflag. reflexivity. }
  split; [exact Hflag|]. split; [rewrite Hflag; reflexivity|].
  split; [|split; [|split]].
  - intros opts fake w. unfold _train_mixture_discriminator_internal.
    rewrite Hc. unfold unrolled_train_mixture_discriminator_internal.
    destruct (bind _ _ w) as [[arr|e] w'] eqn:E; [|reflexivity].
    apply bind_ok in E as (u & w1 & _ & E).
    apply run_batch_bad_key in E; [contradiction|].
    rewrite Hflag. reflexivity.
  - intros opts w n s Hs Hn HB.
    apply (run_batch_bad_key_raises _ _ _ _ _ _ n s); auto.
    rewrite Hflag. reflexivity.
  - intros opts num w arr w'. unfold _sample_internal. rewrite Hc.
    unfold unrolled_sample_internal.
    revert w arr w'. change (emits (mode_free self)
      (noise <- generate_noise opts num ;;
       _run_batch opts G _noise_ph noise PyNone None)).
    emits_steps ltac:(idtac; apply Hfree1).
  - intros opts w u w'. unfold _train_internal. rewrite Hc.
    revert w u w'. change (emits (mode_free self)
      (unrolled_train_loop self opts ;;; ret tt)).
    unfold unrolled_train_loop, epochs_loop, unrolled_train_body, plot_due,
      make_plots, bam. cbv zeta.
    emits_steps ltac:(idtac; first [exact I | apply Hfree | apply Hfree1]).
Qed.

End PublicMethods.

Lemma sample_requires_training_witness :
  exists h st,
    exec_calls (EN := counting_engine) (RN := counting_random)
               (demo_gan ToyGan)
               [CallSample demo_options 4; CallTrain demo_options;
                CallSample demo_options 4] (false, demo_world) = (h, st) /\
    _trained st = true /\
    map (fun co => is_ok (snd co)) h = [false; true; true].
Proof.
  eexists. eexists.
  assert (E : exec_calls (EN := counting_engine) (RN := counting_random)
               (demo_gan ToyGan)
                [CallSample demo_options 4; CallTrain demo_options;
                 CallSample demo_options 4] (false, demo_world)
              = (fst (exec_calls (EN := counting_engine) (RN := counting_random)
               (demo_gan ToyGan)
                        [CallSample demo_options 4; CallTrain demo_options;
                         CallSample demo_options 4] (false, demo_world)),
                 snd (exec_calls (EN := counting_engine) (RN := counting_random)
               (demo_gan ToyGan)
                        [CallSample demo_options 4; CallTrain demo_options;
                         CallSample demo_options 4] (false, demo_world)))).
  { apply surjective_pairing. }
  split; [exact E|].
  destruct (sample_requires_training _ _ _ _ _ demo_options 4 E) as (Ht & _).
  split; [rewrite Ht; vm_compute; reflexivity | vm_compute; reflexivity].
Defined.

Lemma unrolled_mode_flag_witness :
  cls (demo_gan UnrolledGan) = UnrolledGan /\
  fst (_train_mixture_discriminator_internal (demo_gan UnrolledGan) demo_options
         five_points demo_world)
  = Raise (TypeError "Cannot interpret feed_dict key as Tensor").
Proof.
  split; [reflexivity|].
  destruct (unrolled_mode_flag (EN := counting_engine) (RN := counting_random)
              (demo_gan UnrolledGan) eq_refl)
    as (_ & _ & Hnever & _).
  specialize (Hnever demo_options five_points demo_world).
  vm_compute. reflexivity.
Defined.

(** The mixture discriminator runs on an instance that was never trained. *)
Example mixture_before_train :
  fst (train_mixture_discriminator (EN := counting_engine)
         (RN := counting_random) (demo_gan ToyGan) demo_options five_points
         (false, demo_world))
  = Ok (mk_nd [5%nat; 1%nat] [3; 7; 11; 15; 19]).
Proof. vm_compute. reflexivity. Qed.

(** ** Unrolling the discriminator updates *)

(** Induction on tensors, through the arguments of an operation. *)
Lemma tensor_induction (P : tensor -> Prop) :
  (forall v, P (Read v)) ->
  (forall p, P (Input p)) ->
  (forall t, P t -> P (Neg t)) ->
  (forall a b, P a -> P b -> P (Add a b)) ->
  (forall f args, Forall P args -> P (Op f args)) ->
  forall t, P t.
Proof.
  intros HRead HInput HNeg HAdd HOp.
  fix IH 1. intros [v|p|t|a b|f args].
  - apply HRead.
  - apply HInput.
  - apply HNeg, IH.
  - apply HAdd; apply IH.
  - apply HOp. induction args as [|t args IHargs]; constructor; [apply IH | exact IHargs].
Qed.

Section EvaluationFacts.
Context {V : Type}.
Variables (neg : V -> V) (add : V -> V -> V) (interp : string -> list V -> V).
Variable rho : string -> V.






End EvaluationFacts.

Lemma fold_composed (ud : gmap string tensor) (s n : nat) (cur : gmap string tensor) :
  fold_left (fun cur _ => graph_replace_dict ud cur) (seq s n) cur
  = Nat.iter n (graph_replace_dict ud) cur.
Proof.
  revert s cur. induction n as [|n IH]; intros s cur; [reflexivity|].
  simpl fold_left. rewrite IH, <- Nat.iter_succ_r. reflexivity.
Qed.

Lemma composed_iter (ud : gmap string tensor) (k : nat) :
  composed ud k = Nat.iter k (graph_replace_dict ud) ud.
Proof. induction k as [|k IH]; [reflexivity|]. simpl. rewrite IH. reflexivity. Qed.


(** What one supported update adds to the dictionary. *)
Lemma extract_update_supported gv updates update ref value others :
  op_inputs update = ref :: value :: others ->
  t_name ref ∈ gv ->
  (op_type update = "Assign" ->
   extract_update gv updates update
   = Ok (<[t_name ref := t_value value]> updates)) /\
  (op_type update = "AssignAdd" ->
   extract_update gv updates update
   = Ok (<[t_name ref := Add (Read (t_name ref)) (t_value value)]> updates)).
Proof.
  intros Hin Hgv. unfold extract_update, py_index. rewrite Hin. simpl.
  rewrite bool_decide_eq_true_2 by exact Hgv.
  split; intros ->; reflexivity.
Qed.

Lemma extract_updates_app gv updates ops1 ops2 :
  extract_updates gv updates (ops1 ++ ops2)
  = match extract_updates gv updates ops1 with
    | Ok updates' => extract_updates gv updates' ops2
    | Raise e => Raise e
    end.
Proof.
  revert updates. induction ops1 as [|op ops1 IH]; intros updates; [reflexivity|].
  simpl. destruct (extract_update gv updates op); [apply IH | reflexivity].
Qed.

Lemma extract_updates_no_value_error gv updates ops msg :
  extract_updates gv updates ops <> Raise (ValueError msg).
Proof.
  revert updates. induction ops as [|op ops IH]; intros updates; [discriminate|].
  simpl. destruct (extract_update gv updates op) as [u|e] eqn:E; [apply IH|].
  unfold extract_update, py_index in E.
  destruct (op_inputs op !! 0%nat); [|injection E as <-; discriminate].
  destruct (bool_decide _); [|injection E as <-; discriminate].
  destruct (op_inputs op !! 1%nat); [|injection E as <-; discriminate].
  destruct (String.eqb _ "Assign"); [discriminate|].
  destruct (String.eqb _ "AssignAdd"); [discriminate|].
  injection E as <-. discriminate.
Qed.

(** C3, where the code departs from it. An update op that is neither
    [Assign] nor [AssignAdd], reached after supported ones, does stop the
    extraction, but with [NameError] for the unbound name [update_op]
    instead of the unsupported-update [ValueError] that names the op type;
    the extraction never raises [ValueError]. *)
Theorem extract_update_dict_unsupported (gv : list string)
    (supported : list tf_operation) (update : tf_operation)
    (rest : list tf_operation) (update_dict : gmap string tensor)
    (ref value : tf_tensor) (others : list tf_tensor) :
  extract_update_dict gv supported = Ok update_dict ->
  op_inputs update = ref :: value :: others ->
  t_name ref ∈ gv ->
  op_type update <> "Assign" ->
  op_type update <> "AssignAdd" ->
  extract_update_dict gv (supported ++ update :: rest) = Raise (NameError "update_op") /\
  forall ops msg, extract_update_dict gv ops <> Raise (ValueError msg).
Proof.
  intros Hsup Hin Hgv Hna Hnaa. split.
  - unfold extract_update_dict in *. rewrite extract_updates_app, Hsup. simpl.
    unfold extract_update, py_index. rewrite Hin. simpl.
    rewrite bool_decide_eq_true_2 by exact Hgv.
    apply String.eqb_neq in Hna, Hnaa. rewrite Hna, Hnaa. reflexivity.
  - intros ops msg. apply extract_updates_no_value_error.
Qed.

Lemma extract_update_dict_unsupported_witness :
  extract_update_dict demo_variables [assign_add_op; assign_sub_op]
  = Raise (NameError "update_op").
Proof.
  refine (proj1 (extract_update_dict_unsupported demo_variables [assign_add_op]
                   assign_sub_op [] _ _ _ _ _ _ _ _ _)).
  - vm_compute. reflexivity.
  - reflexivity.
  - vm_compute. apply list_elem_of_In. left. reflexivity.
  - discriminate.
  - discriminate.
Defined.


(** C1, as stated, fails: a computation that keeps the rank and the number
    of rows but is not applied to every point on its own (it uses
    statistics of the batch it is fed) gives another result in chunks than
    on the whole input. *)
Lemma run_batch_transparent_counterexample :
  (forall x e, engine_run (Engine := batch_statistics_engine) G
                 (py_dict [(Placeholder "noise", FArr x)]) e
               = (Ok (PArr (centered x)), e)) /\
  shape (centered five_points) = shape five_points /\
  exists arr w',
    _run_batch demo_options G (Placeholder "noise") five_points PyNone None
               batch_statistics_world = (Ok arr, w') /\
    shape arr = shape (centered five_points) /\
    flat arr = [0; 1; 2; 3; 0; 1; 2; 3; 0; 1] /\
    flat (centered five_points) = [0; 1; 2; 3; 4; 5; 6; 7; 8; 9] /\
    arr <> centered five_points.
Proof.
  split; [intros x e; reflexivity|]. split; [reflexivity|].
  eexists. eexists. split; [vm_compute; reflexivity|].
  repeat split; discriminate.
Qed.

(** * Further properties of the code *)

(** ** Counting what the loops add to the trace *)

Section CountingFacts.
Context {A : Type} {EN : Engine A} {RN : Random A}.
Variable c : event A -> bool.

Lemma count_events_app (t1 t2 : list (event A)) :
  count_events c (t1 ++ t2) = (count_events c t1 + count_events c t2)%nat.
Proof. unfold count_events. rewrite List.filter_app, length_app. reflexivity. Qed.

Lemma count_events_uncounted (t : list (event A)) :
  Forall (uncounted c) t -> count_events c t = 0%nat.
Proof.
  unfold count_events. induction 1 as [|ev t Hev _ IH]; [reflexivity|].
  simpl. unfold uncounted in Hev. rewrite Hev. exact IH.
Qed.

Lemma costs_of_emits {T} (m : M T) : emits (uncounted c) m -> costs c 0 m.
Proof.
  intros Hm w x w' E. destruct (Hm w x w' E) as (new & Ht & Hall).
  exists new. split; [exact Ht | apply count_events_uncounted, Hall].
Qed.

Lemma costs_bind {T U} (m : M T) (k : T -> M U) n1 n2 :
  costs c n1 m -> (forall x, costs c n2 (k x)) -> costs c (n1 + n2) (bind m k).
Proof.
  intros Hm Hk w y w' E. apply bind_ok in E as (x & w1 & E1 & E2).
  destruct (Hm _ _ _ E1) as (new1 & Ht1 & Hc1).
  destruct (Hk x _ _ _ E2) as (new2 & Ht2 & Hc2).
  exists (new1 ++ new2). rewrite Ht2, Ht1, app_assoc, count_events_app.
  split; [reflexivity | lia].
Qed.

Lemma costs_zero_l {T U} (m : M T) (k : T -> M U) n :
  emits (uncounted c) m -> (forall x, costs c n (k x)) -> costs c n (bind m k).
Proof.
  intros Hm Hk. apply (costs_bind m k 0 n); [apply costs_of_emits, Hm | exact Hk].
Qed.

Lemma costs_zero_r {T U} (m : M T) (k : T -> M U) n :
  costs c n m -> (forall x, emits (uncounted c) (k x)) -> costs c n (bind m k).
Proof.
  intros Hm Hk. replace n with (n + 0)%nat by lia.
  apply costs_bind; [exact Hm | intros x; apply costs_of_emits, Hk].
Qed.

Lemma costs_log (ev : event A) : c ev = true -> costs c 1 (log ev).
Proof.
  intros Hev w x w' E. injection E as _ <-. exists [ev]. split; [reflexivity|].
  unfold count_events. simpl. rewrite Hev. reflexivity.
Qed.

Lemma costs_for_each {S} (l : list nat) (body : nat -> S -> M S) (s : S) n :
  (forall i s', costs c n (body i s')) ->
  costs c (length l * n) (for_each l body s).
Proof.
  intros Hb. revert s. induction l as [|i l IH]; intros s.
  - apply costs_of_emits, emits_ret.
  - simpl. apply costs_bind; [apply Hb | exact IH].
Qed.

Lemma costs_run_steps n f (fd : feed_dict A) :
  (forall v, c (EvRun f fd v) = true) ->
  costs c (Z.to_nat n) (run_steps n f fd).
Proof.
  intros Hev. unfold run_steps.
  replace (Z.to_nat n) with (length (xrange n) * 1)%nat
    by (unfold xrange; rewrite length_seq; lia).
  apply costs_for_each. intros _ _.
  apply costs_zero_r; [|intros; apply emits_ret].
  intros w v w' E. apply session_run_ok in E as (_ & e' & _ & ->).
  exists [EvRun f fd v]. split; [reflexivity|].
  unfold count_events. simpl. rewrite Hev. reflexivity.
Qed.

(** Loops on the update counter. *)

Variable F : Z -> nat.

Lemma tracks_for_break (body : nat -> Z -> M (Z * bool)) (l : list nat) :
  ticks c F fst body -> tracks c F (for_break l body).
Proof.
  intros Hb. induction l as [|i l IH]; intros c0 w c1 w1 H0 E.
  - injection E as <- <-. split; [lia|]. exists []. rewrite app_nil_r. auto.
  - simpl in E. apply bind_ok in E as ([c2 b] & w2 & Eb & E).
    destruct (Hb _ _ _ _ _ H0 Eb) as (Hc2 & new1 & Ht1 & Hn1). simpl in Hc2, E.
    subst c2. destruct b.
    + injection E as <- <-. split; [lia|]. exists new1. auto.
    + destruct (IH (c0 + 1) w2 c1 w1 ltac:(lia) E) as (Hle & new2 & Ht2 & Hn2).
      split; [lia|]. exists (new1 ++ new2).
      rewrite Ht2, Ht1, app_assoc, count_events_app. split; [reflexivity | lia].
Qed.

Lemma tracks_for_each (body : nat -> Z -> M Z) (l : list nat) :
  ticks c F (fun r => r) body -> tracks c F (for_each l body).
Proof.
  intros Hb. induction l as [|i l IH]; intros c0 w c1 w1 H0 E.
  - injection E as <- <-. split; [lia|]. exists []. rewrite app_nil_r. auto.
  - simpl in E. apply bind_ok in E as (c2 & w2 & Eb & E).
    destruct (Hb _ _ _ _ _ H0 Eb) as (Hc2 & new1 & Ht1 & Hn1). simpl in Hc2.
    subst c2.
    destruct (IH (c0 + 1) w2 c1 w1 ltac:(lia) E) as (Hle & new2 & Ht2 & Hn2).
    split; [lia|]. exists (new1 ++ new2).
    rewrite Ht2, Ht1, app_assoc, count_events_app. split; [reflexivity | lia].
Qed.

(** The loop over the epochs: the inner loop, then the progress signal. *)
Lemma tracks_epochs (inner : nat -> Z -> M Z) (l : list nat) :
  c EvBam = false ->
  (forall e, tracks c F (inner e)) ->
  tracks c F (for_each l (fun e c0 => c1 <- inner e c0 ;; bam ;;; ret c1)).
Proof.
  intros Hbam Hin. induction l as [|e l IH]; intros c0 w c1 w1 H0 E.
  - injection E as <- <-. split; [lia|]. exists []. rewrite app_nil_r. auto.
  - simpl in E. apply bind_ok in E as (c2 & w2 & Eb & E).
    apply bind_ok in Eb as (c3 & w3 & Ei & Eb).
    apply bind_ok in Eb as (u & w4 & Ebam & Eb).
    injection Eb as <- <-. injection Ebam as _ <-.
    destruct (Hin e _ _ _ _ H0 Ei) as (Hle1 & new1 & Ht1 & Hn1).
    destruct (IH c3 _ c1 w1 ltac:(lia) E) as (Hle2 & new2 & Ht2 & Hn2).
    split; [lia|]. exists (new1 ++ [EvBam] ++ new2).
    rewrite Ht2. simpl trace. rewrite Ht1, <- !app_assoc.
    split; [reflexivity|].
    rewrite !count_events_app.
    replace (count_events c [@EvBam A]) with 0%nat
      by (unfold count_events; simpl; rewrite Hbam; reflexivity).
    lia.
Qed.

End CountingFacts.

(** ** More about [_run_batch] *)

Section RunBatchMore.
Context {A : Type} {EN : Engine A} {RN : Random A}.

Lemma run_batch_body_cost op ph (feed : ndarray A) ph2 feed2 b m idx acc :
  costs (is_run_of op) 1 (run_batch_body op ph feed ph2 feed2 b m idx acc).
Proof.
  unfold run_batch_body.
  apply costs_zero_r; [|intros; emits_steps ltac:(idtac; reflexivity)].
  intros w v w' E. apply session_run_ok in E as (_ & e' & _ & ->).
  eexists. split; [reflexivity|].
  unfold count_events. simpl. rewrite bool_decide_eq_true_2 by reflexivity.
  reflexivity.
Qed.

Lemma ceil_div_positive (n : nat) (b m : Z) :
  ceil_div (Z.of_nat n) b = Ok m -> 1 <= m ->
  (1 <= n)%nat /\ 1 <= b /\
  Z.to_nat m = ((n + Z.to_nat b - 1) / Z.to_nat b)%nat.
Proof.
  unfold ceil_div. destruct (Z.eqb_spec b 0) as [|Hb]; [discriminate|].
  intros E Hm. injection E as <-.
  assert (Hpos : 1 <= b /\ (1 <= n)%nat).
  { Z.to_euclidean_division_equations. nia. }
  destruct Hpos as (Hb1 & Hn1). split; [exact Hn1|]. split; [exact Hb1|].
  apply Nat2Z.inj. rewrite Z2Nat.id by lia.
  rewrite Nat2Z.inj_div, Nat2Z.inj_sub, Nat2Z.inj_add, Z2Nat.id by lia.
  Z.to_euclidean_division_equations. nia.
Qed.

(** X1. Whatever the engine computes, an array returned by [_run_batch]
    has exactly as many rows as the feed and rank at least 2; the feed was
    not empty, the chunk size was positive, and the engine was asked for
    the operation, and nothing else, once per chunk: [ceil(N / B)]
    times. *)
Theorem run_batch_postcondition (opts : options) (op : fetch)
    (ph ph2 : feed_key) (feed : ndarray A) (feed2 : option (feed_val A))
    (w w' : world A) (arr : ndarray A) :
  _run_batch opts op ph feed ph2 feed2 w = (Ok arr, w') ->
  let b := Z.to_nat (tf_run_batch_size opts) in
  let new := drop (length (trace w)) (trace w') in
  (1 <= len feed)%nat /\
  1 <= tf_run_batch_size opts /\
  len arr = len feed /\
  (2 <= ndim arr)%nat /\
  runs_of op new = ((len feed + b - 1) / b)%nat /\
  Forall (only_fetches [op]) new /\
  gen w' = gen w.
Proof.
  intros E b new.
  pose proof (emits_run_batch (only_fetches [op]) opts op ph feed ph2 feed2
                ltac:(intros; left; reflexivity) _ _ _ E) as (new' & Ht' & Hall).
  pose proof (run_batch_ok _ _ _ _ _ _ _ _ _ E) as (new0 & Ht0 & Hg & Hv & Hlen).
  apply vstack_ndim in Hv as (Hne & Hrank).
  assert (Hnew : new = new') by (subst new; rewrite Ht'; apply drop_app_length).
  assert (Hnew0 : new0 = new')
    by (apply (app_inv_head (trace w)); rewrite <- Ht', <- Ht0; reflexivity).
  subst new0. rewrite Hnew. clear Hnew new.
  unfold _run_batch in E. cbv zeta in E.
  apply bind_ok in E as (u & w1 & Ea & E).
  unfold py_assert in Ea. destruct (0 <? ndim feed)%nat; [|discriminate].
  injection Ea as _ <-.
  apply bind_ok in E as (m & w1 & Em & E). injection Em as Em <-.
  apply bind_ok in E as (res & w2 & Eloop & E).
  apply bind_ok in E as (stacked & w3 & Ev & E). injection Ev as Ev <-.
  apply bind_ok in E as (u' & w3 & Ea & E).
  unfold py_assert in Ea. destruct (len stacked =? len feed)%nat; [|discriminate].
  injection Ea as _ <-. injection E as <- <-.
  pose proof (costs_for_each (is_run_of op) (xrange m) _ [] 1
                (run_batch_body_cost op ph feed ph2 feed2
                   (tf_run_batch_size opts) m) _ _ _ Eloop)
    as (new1 & Ht1 & Hc1).
  assert (Hnew1 : new1 = new')
    by (apply (app_inv_head (trace w)); rewrite <- Ht', <- Ht1; reflexivity).
  subst new1.
  assert (Hm : 1 <= m).
  { destruct (xrange m) as [|i idxs] eqn:Hx.
    - injection Eloop as <- _. discriminate.
    - unfold xrange in Hx. destruct (Z.to_nat m) eqn:Hz; [discriminate | lia]. }
  destruct (ceil_div_positive _ _ _ Em Hm) as (Hn1 & Hb1 & Hceil).
  repeat split; auto.
  - destruct (chunk_outputs new') as [|r rs]; [contradiction|].
    inversion Hrank as [|? ? Hr _]; subst. lia.
  - unfold runs_of. rewrite Hc1. unfold xrange. rewrite length_seq. fold b in Hceil. lia.
Qed.

(** X2. An exception of the engine on the first chunk is the exception of
    [_run_batch], unchanged; the engine's state is what the failed call
    left, and the trace records no call. *)
Theorem run_batch_engine_failure (opts : options) (op : fetch)
    (ph ph2 : feed_key) (feed : ndarray A) (feed2 : option (feed_val A))
    (n : nat) (s : list nat) (w : world A) (x : exn) (e' : engine) :
  shape feed = n :: s -> (1 <= n)%nat -> 1 <= tf_run_batch_size opts ->
  is_tensor ph = true ->
  match feed2 with None => True | Some _ => is_tensor ph2 = true end ->
  engine_run op
    (chunk_feed ph (slice_rows feed 0 (Nat.min n (Z.to_nat (tf_run_batch_size opts))))
                ph2 feed2) (eng w) = (Raise x, e') ->
  _run_batch opts op ph feed ph2 feed2 w
  = (Raise x, mk_world e' (gen w) (trace w)).
Proof.
  intros Hs Hn HB Hph Hph2 Heng. unfold _run_batch. cbv zeta.
  erewrite bind_eq; [|unfold py_assert, ndim; rewrite Hs; reflexivity].
  destruct (ceil_div_spec (Z.of_nat n) (tf_run_batch_size opts) HB)
    as (m & Hm & Hlo & Hhi).
  erewrite bind_eq;
    [|unfold lift, len; rewrite Hs; simpl hd; rewrite Hm; reflexivity].
  set (b := Z.to_nat (tf_run_batch_size opts)) in *.
  assert (Hb : tf_run_batch_size opts = Z.of_nat b) by lia.
  assert (Hmm : m = Z.of_nat (Z.to_nat m)) by nia.
  assert (Hx : exists idxs, xrange m = 0%nat :: idxs).
  { unfold xrange. destruct (Z.to_nat m) eqn:Hz; [nia|]. simpl. eauto. }
  destruct Hx as (idxs & ->).
  apply bind_raise. simpl. apply bind_raise. unfold run_batch_body.
  apply bind_raise. unfold session_run.
  rewrite chunk_feed_keys, Hph.
  replace (match feed2 with None => true | Some _ => is_tensor ph2 end)
    with true by (destruct feed2; [symmetry; exact Hph2 | reflexivity]).
  simpl andb. cbv iota.
  rewrite Hb, Hmm, (chunk_of_rows feed n s) by (auto; nia).
  simpl Nat.mul. rewrite Nat.add_0_r. fold b. rewrite Heng. reflexivity.
Qed.

(** X3. What [_run_batch] refuses before it asks the engine for anything:
    a feed of rank 0 fails the assertion, a chunk size of zero makes the
    division fail, and a negative chunk size leaves no chunk to stack. *)
Theorem run_batch_rejects (opts : options) (op : fetch) (ph ph2 : feed_key)
    (feed2 : option (feed_val A)) (contents : list A) (w : world A) :
  _run_batch opts op ph (mk_nd [] contents) ph2 feed2 w
  = (Raise (AssertionError "Empry feed."), w) /\
  (forall n s,
      tf_run_batch_size opts = 0 ->
      _run_batch opts op ph (mk_nd (n :: s) contents) ph2 feed2 w
      = (Raise ZeroDivisionError, w)) /\
  (forall n s,
      tf_run_batch_size opts < 0 ->
      _run_batch opts op ph (mk_nd (n :: s) contents) ph2 feed2 w
      = (Raise (ValueError "need at least one array to concatenate"), w)).
Proof.
  split; [reflexivity|]. split; intros n s HB; unfold _run_batch; cbv zeta.
  - erewrite bind_eq; [|reflexivity].
    apply bind_raise. unfold lift, ceil_div. rewrite HB. reflexivity.
  - erewrite bind_eq; [|reflexivity].
    unfold len. simpl hd. unfold ceil_div.
    destruct (Z.eqb_spec (tf_run_batch_size opts) 0); [lia|].
    erewrite bind_eq; [|reflexivity].
    replace (xrange _) with (@nil nat).
    + erewrite bind_eq; [|reflexivity]. reflexivity.
    + unfold xrange.
      replace (Z.to_nat _) with 0%nat; [reflexivity|].
      Z.to_euclidean_division_equations. nia.
Qed.

End RunBatchMore.

(** ** The alternating updates and the plots of the training loops *)

Lemma plots_until_step (opts : options) (every c : Z) :
  1 <= every -> 0 <= c ->
  (plots_until opts every c
   + (if verbose opts && ((c + 1) mod every =? 0)%Z then 1 else 0)
   = plots_until opts every (c + 1)%Z)%nat.
Proof.
  intros He Hc. unfold plots_until. destruct (verbose opts); simpl; [|lia].
  destruct (Z.eqb_spec ((c + 1) mod every) 0) as [Hz|Hnz];
    Z.to_euclidean_division_equations; nia.
Qed.

Section TrainingCounts.
Context {A : Type} {EN : Engine A} {RN : Random A}.

Lemma ticks_of_costs {T} (c : event A -> bool) (F : Z -> nat) (counter : T -> Z)
    (body : nat -> Z -> M T) :
  (forall i c0 (w : world A) r w1, body i c0 w = (Ok r, w1) -> counter r = c0 + 1) ->
  (forall i c0, 0 <= c0 ->
                exists n, costs c n (body i c0) /\ (F c0 + n = F (c0 + 1)%Z)%nat) ->
  ticks c F counter body.
Proof.
  intros Hstep Hcost i c0 w r w1 H0 E. split; [eapply Hstep, E|].
  destruct (Hcost i c0 H0) as (n & Hn & HF).
  destruct (Hn _ _ _ E) as (new & Ht & Hc). exists new. split; [exact Ht | lia].
Qed.

Lemma plot_due_ok opts counter (w : world A) due w' :
  plot_due opts counter w = (Ok due, w') ->
  w' = w /\ due = verbose opts && (counter mod plot_every opts =? 0).
Proof.
  unfold plot_due. destruct (verbose opts); simpl.
  - destruct (plot_every opts =? 0); [discriminate|].
    intros E. injection E as <- <-. auto.
  - intros E. injection E as <- <-. auto.
Qed.

Lemma toy_train_body_stepping (self : gan A) opts :
  stepping_body (toy_train_body self opts).
Proof.
  intros e i c w c2 w2 E. unfold toy_train_body in E. cbv zeta in E.
  repeat (apply bind_ok in E as (? & ? & _ & E)).
  injection E as <- _. reflexivity.
Qed.

(** The parameter updates of one minibatch, for each training loop. *)

Lemma toy_train_body_updates (self : gan A) opts e i c0 f :
  is_update f = true ->
  costs (is_run_of f) (updates_per_minibatch opts f) (toy_train_body self opts e i c0).
Proof.
  intros Hf. unfold toy_train_body, make_plots. cbv zeta.
  destruct f; try discriminate; simpl updates_per_minibatch.
  - do 3 (apply costs_zero_l; [emits_steps ltac:(idtac; reflexivity) | intros]).
    apply costs_zero_r; [apply costs_run_steps; intros; reflexivity | intros].
    emits_steps ltac:(idtac; reflexivity).
  - do 4 (apply costs_zero_l; [emits_steps ltac:(idtac; reflexivity) | intros]).
    apply costs_zero_r; [apply costs_run_steps; intros; reflexivity | intros].
    emits_steps ltac:(idtac; reflexivity).
  - apply costs_of_emits. emits_steps ltac:(idtac; reflexivity).
Qed.

Lemma image_train_body_updates (self : gan A) opts e i c0 f :
  is_update f = true ->
  costs (is_run_of f) (updates_per_minibatch opts f)
        (image_train_body self opts e i c0).
Proof.
  intros Hf. unfold image_train_body, plot_due, make_plots. cbv zeta.
  destruct f; try discriminate; simpl updates_per_minibatch.
  - do 3 (apply costs_zero_l; [emits_steps ltac:(idtac; reflexivity) | intros]).
    apply costs_zero_r; [apply costs_run_steps; intros; reflexivity | intros].
    emits_steps ltac:(idtac; reflexivity).
  - do 4 (apply costs_zero_l; [emits_steps ltac:(idtac; reflexivity) | intros]).
    apply costs_zero_r; [apply costs_run_steps; intros; reflexivity | intros].
    emits_steps ltac:(idtac; reflexivity).
  - apply costs_of_emits. emits_steps ltac:(idtac; reflexivity).
Qed.

Lemma unrolled_train_body_updates (self : gan A) opts e i c0 f :
  is_update f = true ->
  costs (is_run_of f) (updates_per_minibatch opts f)
        (unrolled_train_body self opts e i c0).
Proof.
  intros Hf. unfold unrolled_train_body, plot_due, make_plots. cbv zeta.
  destruct f; try discriminate; simpl updates_per_minibatch.
  - do 3 (apply costs_zero_l; [emits_steps ltac:(idtac; reflexivity) | intros]).
    apply costs_zero_r; [apply costs_run_steps; intros; reflexivity | intros].
    emits_steps ltac:(idtac; reflexivity).
  - do 4 (apply costs_zero_l; [emits_steps ltac:(idtac; reflexivity) | intros]).
    apply costs_zero_r; [apply costs_run_steps; intros; reflexivity | intros].
    emits_steps ltac:(idtac; reflexivity).
  - apply costs_of_emits. emits_steps ltac:(idtac; reflexivity).
Qed.

(** The plots of one minibatch. *)

Lemma plot_block_cost opts op ph (feed : ndarray A) ph2 feed2 counter real e i
    (due : bool) :
  costs is_plot (if due then 1 else 0)%nat
        (if due
         then points_to_plot <- _run_batch opts op ph feed ph2 feed2 ;;
              make_plots counter real points_to_plot e i
         else ret tt).
Proof.
  destruct due.
  - apply costs_zero_l; [apply emits_run_batch; intros; reflexivity | intros].
    apply costs_log. reflexivity.
  - apply costs_of_emits, emits_ret.
Qed.

Lemma toy_train_body_plots (self : gan A) opts e i c0 :
  costs is_plot (if verbose opts && ((c0 + 1) mod 100 =? 0)%Z then 1 else 0)%nat
        (toy_train_body self opts e i c0).
Proof.
  unfold toy_train_body. cbv zeta.
  do 5 (apply costs_zero_l; [emits_steps ltac:(idtac; reflexivity) | intros]).
  apply costs_zero_r; [apply plot_block_cost | intros; apply emits_ret].
Qed.

Lemma image_train_body_plots (self : gan A) opts e i c0 :
  costs is_plot
        (if verbose opts && ((c0 + 1) mod plot_every opts =? 0)%Z then 1 else 0)%nat
        (image_train_body self opts e i c0).
Proof.
  unfold image_train_body. cbv zeta.
  do 5 (apply costs_zero_l; [emits_steps ltac:(idtac; reflexivity) | intros]).
  intros w r w1 E. apply bind_ok in E as (due & w2 & Ed & E).
  apply plot_due_ok in Ed as (-> & ->). revert w r w1 E.
  apply costs_zero_r; [apply plot_block_cost | intros; apply emits_ret].
Qed.

Lemma unrolled_train_body_plots (self : gan A) opts e i c0 :
  costs is_plot
        (if verbose opts && ((c0 + 1) mod plot_every opts =? 0)%Z then 1 else 0)%nat
        (unrolled_train_body self opts e i c0).
Proof.
  unfold unrolled_train_body. cbv zeta.
  do 5 (apply costs_zero_l; [emits_steps ltac:(idtac; reflexivity) | intros]).
  intros w r w1 E. apply bind_ok in E as (due & w2 & Ed & E).
  apply plot_due_ok in Ed as (-> & ->). revert w r w1 E.
  apply costs_zero_r; [apply plot_block_cost | intros; apply emits_ret].
Qed.

(** From one minibatch to the whole loop. *)

Lemma toy_train_loop_tracks (self : gan A) opts c F w c1 w1 :
  c EvBam = false -> F 0 = 0%nat ->
  (forall e, ticks c F (fun r => r) (toy_train_body self opts e)) ->
  toy_train_loop self opts w = (Ok c1, w1) ->
  0 <= c1 /\ F c1 = count_events c (drop (length (trace w)) (trace w1)).
Proof.
  intros Hbam HF Hticks E. unfold toy_train_loop in E.
  apply bind_ok in E as (bn & w2 & Ebn & E). injection Ebn as _ <-.
  apply (tracks_epochs c F (fun e => for_each (xrange bn) (toy_train_body self opts e)))
    in E; [| exact Hbam | intros e; apply tracks_for_each, Hticks | lia].
  destruct E as (Hle & new & Ht & Hn).
  split; [exact Hle|]. rewrite Ht, drop_app_length. lia.
Qed.

Lemma epochs_loop_tracks (self : gan A) opts body c F w c1 w1 :
  c EvBam = false -> F 0 = 0%nat ->
  (forall e, ticks c F fst (body e)) ->
  epochs_loop self opts body w = (Ok c1, w1) ->
  0 <= c1 /\ F c1 = count_events c (drop (length (trace w)) (trace w1)).
Proof.
  intros Hbam HF Hticks E. unfold epochs_loop in E.
  apply bind_ok in E as (bn & w2 & Ebn & E). injection Ebn as _ <-.
  apply (tracks_epochs c F (fun e => for_break (xrange bn) (body e)))
    in E; [| exact Hbam | intros e; apply tracks_for_break, Hticks | lia].
  destruct E as (Hle & new & Ht & Hn).
  split; [exact Hle|]. rewrite Ht, drop_app_length. lia.
Qed.

Lemma updates_step (n : nat) (c0 : Z) :
  0 <= c0 -> (n * Z.to_nat c0 + n = n * Z.to_nat (c0 + 1)%Z)%nat.
Proof. intros H0. rewrite Z2Nat.inj_add by lia. simpl Z.to_nat. lia. Qed.

(** X5. The alternating protocol. A training run of any of the three
    variants that returns has run, for every minibatch it counted, exactly
    [d_steps] discriminator updates and [g_steps] generator updates, and
    no classifier update. *)
Theorem training_update_counts (self : gan A) (opts : options)
    (w w' : world A) (c : Z) (f : fetch) :
  toy_train_loop self opts w = (Ok c, w') \/
  image_train_loop self opts w = (Ok c, w') \/
  unrolled_train_loop self opts w = (Ok c, w') ->
  is_update f = true ->
  0 <= c /\
  runs_of f (drop (length (trace w)) (trace w'))
  = (updates_per_minibatch opts f * Z.to_nat c)%nat.
Proof.
  intros Hrun Hf.
  set (F := fun c0 => (updates_per_minibatch opts f * Z.to_nat c0)%nat).
  assert (HF0 : F 0 = 0%nat) by (unfold F; simpl; lia).
  assert (Hstep : forall c0, 0 <= c0 ->
            (F c0 + updates_per_minibatch opts f = F (c0 + 1)%Z)%nat)
    by (intros; apply updates_step; assumption).
  assert (Hbam : is_run_of f (@EvBam A) = false) by reflexivity.
  assert (Hgoal : 0 <= c /\
            F c = count_events (is_run_of f) (drop (length (trace w)) (trace w'))).
  { destruct Hrun as [Hrun|[Hrun|Hrun]].
    - eapply toy_train_loop_tracks; [exact Hbam | exact HF0 | | exact Hrun].
      intros e. apply ticks_of_costs.
      + intros. eapply toy_train_body_stepping. eassumption.
      + intros i c0 H0. eexists. split; [apply toy_train_body_updates, Hf | auto].
    - eapply epochs_loop_tracks; [exact Hbam | exact HF0 | | exact Hrun].
      intros e. apply ticks_of_costs.
      + intros i c0 w0 [c2 b] w1 E. simpl.
        eapply image_train_body_counting. exact E.
      + intros i c0 H0. eexists. split; [apply image_train_body_updates, Hf | auto].
    - eapply epochs_loop_tracks; [exact Hbam | exact HF0 | | exact Hrun].
      intros e. apply ticks_of_costs.
      + intros i c0 w0 [c2 b] w1 E. simpl.
        eapply unrolled_train_body_counting. exact E.
      + intros i c0 H0. eexists. split; [apply unrolled_train_body_updates, Hf | auto]. }
  destruct Hgoal as (H0 & Hc). split; [exact H0|]. symmetry. exact Hc.
Qed.

(** X6. The cadence of the plots. A returning training run has requested
    one plot for every [every] updates it counted, when [verbose] is set,
    and none otherwise: [every] is 100 in [ToyGan] and the option
    [plot_every], when it is at least 1, in the image variants. *)
Theorem plot_cadence (self : gan A) (opts : options) (w w' : world A) (c : Z) :
  (toy_train_loop self opts w = (Ok c, w') ->
   plots (drop (length (trace w)) (trace w')) = plots_until opts 100 c) /\
  (1 <= plot_every opts ->
   image_train_loop self opts w = (Ok c, w') \/
   unrolled_train_loop self opts w = (Ok c, w') ->
   plots (drop (length (trace w)) (trace w'))
   = plots_until opts (plot_every opts) c).
Proof.
  assert (HF0 : forall every, plots_until opts every 0 = 0%nat).
  { intros every. unfold plots_until. destruct (verbose opts); [|reflexivity].
    rewrite Zdiv_0_l. reflexivity. }
  split.
  - intros Hrun.
    destruct (toy_train_loop_tracks self opts is_plot (plots_until opts 100)
                w c w' eq_refl (HF0 100)) as (_ & Hc); [|exact Hrun|].
    + intros e. apply ticks_of_costs.
      * intros. eapply toy_train_body_stepping. eassumption.
      * intros i c0 H0. eexists. split; [apply toy_train_body_plots|].
        apply plots_until_step; lia.
    + symmetry. exact Hc.
  - intros Hp Hrun.
    assert (Hc : 0 <= c /\
              plots_until opts (plot_every opts) c
              = count_events is_plot (drop (length (trace w)) (trace w'))).
    { destruct Hrun as [Hrun|Hrun].
      - eapply epochs_loop_tracks; [reflexivity | apply HF0 | | exact Hrun].
        intros e. apply ticks_of_costs.
        + intros i c0 w0 [c2 b] w1 E. simpl.
          eapply image_train_body_counting. exact E.
        + intros i c0 H0. eexists. split; [apply image_train_body_plots|].
          apply plots_until_step; lia.
      - eapply epochs_loop_tracks; [reflexivity | apply HF0 | | exact Hrun].
        intros e. apply ticks_of_costs.
        + intros i c0 w0 [c2 b] w1 E. simpl.
          eapply unrolled_train_body_counting. exact E.
        + intros i c0 H0. eexists. split; [apply unrolled_train_body_plots|].
          apply plots_until_step; lia. }
    symmetry. exact (proj2 Hc).
Qed.

End TrainingCounts.

(** ** More about the methods of the three variants *)

Section MethodsMore.
Context {A : Type} {EN : Engine A} {RN : Random A}.

(** X4. [ImageGan] feeds the training-mode flag with every engine call:
    true with every parameter update (discriminator, generator,
    classifier), false with every evaluation (samples, plots, classifier
    output). *)
Theorem image_mode_flag (self : gan A) :
  cls self = ImageGan ->
  (forall opts, emits (mode_fed self) (_train_internal self opts)) /\
  (forall opts num, emits (mode_fed self) (_sample_internal self opts num)) /\
  (forall opts fake_images,
      emits (mode_fed self)
            (_train_mixture_discriminator_internal self opts fake_images)).
Proof.
  intros Hc.
  assert (Hflag : _is_training_ph self = Placeholder "is_train").
  { unfold _is_training_ph. rewrite Hc. reflexivity. }
  assert (Hd : forall (x y : ndarray A) v,
             mode_fed self (EvRun D_optim
               (py_dict [(_real_points_ph, FArr x); (_noise_ph, FArr y);
                         (_is_training_ph self, FBool true)]) v)).
  { intros. unfold mode_fed. rewrite Hflag. right. right. left. reflexivity. }
  assert (Hg : forall (y : ndarray A) v,
             mode_fed self (EvRun G_optim
               (py_dict [(_noise_ph, FArr y);
                         (_is_training_ph self, FBool true)]) v)).
  { intros. unfold mode_fed. rewrite Hflag. right. left. reflexivity. }
  assert (Hcl : forall (x y : ndarray A) v,
             mode_fed self (EvRun C_optim
               (py_dict ([(_real_points_ph, FArr x); (_fake_points_ph, FArr y)]
                         ++ [(_is_training_ph self, FBool true)])) v)).
  { intros. unfold mode_fed. rewrite Hflag. right. right. left. reflexivity. }
  assert (He : forall f ph (x : ndarray A) v,
             is_tensor ph = true -> ph <> Placeholder "is_train" ->
             is_update f = false ->
             mode_fed self (EvRun f (chunk_feed ph x (_is_training_ph self)
                                                (Some (FBool false))) v)).
  { intros f ph x v Hph Hne Hf. unfold mode_fed, chunk_feed, py_dict.
    rewrite Hflag, Hf. simpl.
    rewrite bool_decide_eq_false_2 by exact Hne. right. left. reflexivity. }
  split; [|split].
  - intros opts. unfold _train_internal. rewrite Hc.
    unfold image_train_loop, epochs_loop, image_train_body, plot_due, make_plots,
      bam. cbv zeta.
    emits_steps ltac:(idtac; first [exact I | apply Hd | apply Hg
                                    | apply He; [reflexivity | discriminate
                                                 | reflexivity]]).
  - intros opts num. unfold _sample_internal. rewrite Hc.
    unfold image_sample_internal.
    emits_steps ltac:(idtac; apply He; [reflexivity | discriminate | reflexivity]).
  - intros opts fake. unfold _train_mixture_discriminator_internal. rewrite Hc.
    unfold image_train_mixture_discriminator_internal, mixture_loop, mixture_body,
      bam.
    emits_steps ltac:(idtac; first [exact I | apply Hcl
                                    | apply He; [reflexivity | discriminate
                                                 | reflexivity]]).
Qed.

(** X8. Sampling only evaluates: a [sample] call that returns has asked
    the engine for the generator output and for nothing else, so it has
    run no parameter update; the instance stays trained. *)
Theorem sample_only_evaluates (self : gan A) (opts : options) (num : Z)
    (st st' : object_state) (arr : ndarray A) :
  sample self opts num st = (Ok arr, st') ->
  _trained st' = true /\
  extends (only_fetches [G]) (snd st) (snd st') /\
  forall f, is_update f = true ->
            runs_of f (drop (length (trace (snd st))) (trace (snd st'))) = 0%nat.
Proof.
  intros E. unfold sample in E. destruct (_trained st) eqn:Ht; [|discriminate].
  destruct (_sample_internal self opts num (snd st)) as [r w1] eqn:Ei.
  injection E as -> <-. simpl.
  assert (Hem : emits (only_fetches [G]) (_sample_internal self opts num)).
  { unfold _sample_internal, toy_sample_internal, image_sample_internal,
      unrolled_sample_internal.
    destruct (cls self);
      emits_steps ltac:(idtac; left; reflexivity). }
  destruct (Hem _ _ _ Ei) as (new & Hnew & Hall).
  split; [reflexivity|]. split; [exists new; auto|].
  intros f Hf. rewrite Hnew, drop_app_length.
  apply count_events_uncounted. eapply Forall_impl; [exact Hall|].
  intros [f' fd v| |] Hev; try reflexivity.
  simpl in Hev. destruct Hev as [<-|[]]. unfold uncounted. simpl.
  apply bool_decide_eq_false_2. intros <-. discriminate.
Qed.

Lemma mixture_body_cost (self : gan A) opts fake mode idx u :
  costs (is_run_of C_optim) 1 (mixture_body self opts fake mode idx u).
Proof.
  unfold mixture_body.
  do 5 (apply costs_zero_l; [emits_steps ltac:(idtac; reflexivity) | intros]).
  apply costs_zero_r; [|intros; apply emits_ret].
  intros w v w' E. apply session_run_ok in E as (_ & e' & _ & ->).
  eexists. split; [reflexivity|]. reflexivity.
Qed.

Lemma mixture_loop_counts (self : gan A) opts fake mode w u w' :
  mixture_loop self opts fake mode w = (Ok u, w') ->
  exists bn new,
    py_div (num_points (_data self)) (batch_size opts) = Ok bn /\
    trace w' = trace w ++ new /\
    runs_of C_optim new
    = (Z.to_nat (mixture_c_epoch_num opts) * Z.to_nat bn)%nat /\
    bams new = Z.to_nat (mixture_c_epoch_num opts) /\
    Forall (only_fetches [C_optim; C_training]) new.
Proof.
  intros E.
  assert (Hem : emits (only_fetches [C_optim; C_training])
                      (mixture_loop self opts fake mode)).
  { unfold mixture_loop, mixture_body, bam.
    emits_steps ltac:(idtac; first [exact I | left; reflexivity]). }
  destruct (Hem _ _ _ E) as (new & Hnew & Hall).
  unfold mixture_loop in E.
  apply bind_ok in E as (bn & w1 & Ebn & E). injection Ebn as Ebn <-.
  exists bn, new. split; [exact Ebn|]. split; [exact Hnew|].
  assert (Hruns : costs (is_run_of C_optim)
                    (length (xrange (mixture_c_epoch_num opts))
                     * (length (xrange bn) * 1 + 0))
                    (for_each (xrange (mixture_c_epoch_num opts))
                       (fun epoch (_ : unit) =>
                          for_each (xrange bn)
                            (mixture_body self opts fake mode) tt ;;; bam) tt)).
  { apply costs_for_each. intros epoch [].
    apply costs_bind; [|intros; apply costs_of_emits, emits_log; reflexivity].
    apply costs_for_each. intros. apply mixture_body_cost. }
  assert (Hbams : costs is_bam
                    (length (xrange (mixture_c_epoch_num opts)) * 1)
                    (for_each (xrange (mixture_c_epoch_num opts))
                       (fun epoch (_ : unit) =>
                          for_each (xrange bn)
                            (mixture_body self opts fake mode) tt ;;; bam) tt)).
  { apply costs_for_each. intros epoch [].
    apply costs_zero_l; [|intros; apply costs_log; reflexivity].
    unfold mixture_body. emits_steps ltac:(idtac; reflexivity). }
  destruct (Hruns _ _ _ E) as (new1 & Ht1 & Hc1).
  destruct (Hbams _ _ _ E) as (new2 & Ht2 & Hc2).
  assert (new1 = new) by (apply (app_inv_head (trace w)); congruence).
  assert (new2 = new) by (apply (app_inv_head (trace w)); congruence).
  subst new1 new2. unfold xrange in Hc1, Hc2.
  repeat rewrite length_seq in Hc1. repeat rewrite length_seq in Hc2.
  repeat split; [unfold runs_of; lia | unfold bams; fold (count_events is_bam new); lia
                | exact Hall].
Qed.

(** X7. The mixture discriminator stands apart from the game: a call of
    [_train_mixture_discriminator_internal] that returns has run one
    classifier update for each of the [num_points / batch_size]
    minibatches of each of the [mixture_c_epoch_num] epochs, has signalled
    the progress bar once per epoch, and has asked the engine only for
    classifier updates and the classifier output: it never updated the
    discriminator or the generator and never evaluated the generator. *)
Theorem mixture_training_counts (self : gan A) (opts : options)
    (fake_images : ndarray A) (w w' : world A) (arr : ndarray A) :
  _train_mixture_discriminator_internal self opts fake_images w = (Ok arr, w') ->
  let new := drop (length (trace w)) (trace w') in
  exists bn,
    py_div (num_points (_data self)) (batch_size opts) = Ok bn /\
    runs_of C_optim new = (Z.to_nat (mixture_c_epoch_num opts) * Z.to_nat bn)%nat /\
    bams new = Z.to_nat (mixture_c_epoch_num opts) /\
    Forall (only_fetches [C_optim; C_training]) new /\
    len arr = len (data (_data self)).
Proof.
  intros E new.
  assert (Hparts : exists mode ph2 feed2 u w1,
             mixture_loop self opts fake_images mode w = (Ok u, w1) /\
             _run_batch opts C_training _real_points_ph (data (_data self))
                        ph2 feed2 w1 = (Ok arr, w')).
  { unfold _train_mixture_discriminator_internal in E.
    destruct (cls self); [discriminate| | |];
      apply bind_ok in E as (u & w1 & E1 & E2); eauto 10. }
  destruct Hparts as (mode & ph2 & feed2 & u & w1 & E1 & E2).
  apply mixture_loop_counts in E1 as (bn & new1 & Hbn & Ht1 & Hr1 & Hb1 & Hall1).
  pose proof (emits_run_batch (only_fetches [C_optim; C_training]) opts
                C_training _real_points_ph (data (_data self)) ph2 feed2
                ltac:(intros; right; left; reflexivity) _ _ _ E2)
    as (new2 & Ht2 & Hall2).
  pose proof (emits_run_batch (uncounted (is_run_of C_optim)) opts
                C_training _real_points_ph (data (_data self)) ph2 feed2
                ltac:(intros; reflexivity) _ _ _ E2) as (new3 & Ht3 & Hq3).
  pose proof (emits_run_batch not_bam opts
                C_training _real_points_ph (data (_data self)) ph2 feed2
                ltac:(intros; reflexivity) _ _ _ E2) as (new4 & Ht4 & Hq4).
  assert (new3 = new2) by (apply (app_inv_head (trace w1)); congruence).
  assert (new4 = new2) by (apply (app_inv_head (trace w1)); congruence).
  subst new3 new4.
  apply run_batch_ok in E2 as (_ & _ & _ & _ & Hlen).
  exists bn. subst new. rewrite Ht2, Ht1, <- app_assoc, drop_app_length.
  split; [exact Hbn|].
  split; [unfold runs_of in *; rewrite count_events_app,
            (count_events_uncounted _ new2 Hq3); lia|].
  split; [rewrite bams_app, (bams_not_bam new2 Hq4); lia|].
  split; [apply Forall_app; auto | exact Hlen].
Qed.

(** X9. A minibatch size of zero stops every training method of the
    three variants at the division that counts the minibatches: nothing
    has run, and the instance is as it was. *)
Theorem zero_batch_size_raises (self : gan A) (opts : options)
    (fake_images : ndarray A) (st : object_state) :
  cls self <> Gan -> batch_size opts = 0 ->
  train self opts st = (Raise ZeroDivisionError, st) /\
  train_mixture_discriminator self opts fake_images st
  = (Raise ZeroDivisionError, st).
Proof.
  intros Hc Hb. destruct st as [t w].
  unfold train, train_mixture_discriminator, _train_internal,
    _train_mixture_discriminator_internal, toy_train_loop, image_train_loop,
    unrolled_train_loop, epochs_loop,
    toy_train_mixture_discriminator_internal,
    image_train_mixture_discriminator_internal,
    unrolled_train_mixture_discriminator_internal, mixture_loop, py_div.
  rewrite Hb. destruct (cls self); [contradiction| | |]; split; reflexivity.
Qed.

Lemma idle_epochs (l : list nat) (c : Z) (w : world A)
    (inner : nat -> Z -> M Z) :
  (forall e c0 w0, inner e c0 w0 = (Ok c0, w0)) ->
  for_each l (fun e c0 => c1 <- inner e c0 ;; bam ;;; ret c1) c w
  = (Ok c, mk_world (eng w) (gen w) (trace w ++ repeat EvBam (length l))).
Proof.
  intros Hin. revert w. induction l as [|e l IH]; intros w.
  - simpl. rewrite app_nil_r. destruct w; reflexivity.
  - simpl for_each. erewrite bind_eq.
    2:{ erewrite bind_eq; [|apply Hin]. reflexivity. }
    rewrite IH. simpl. rewrite <- app_assoc. reflexivity.
Qed.

(** X10. A minibatch size above the number of points leaves no minibatch:
    [train] then runs no update and asks the engine for nothing, signals
    the progress bar once per epoch, returns normally and marks the
    instance trained. *)
Theorem oversized_batch_trains_nothing (self : gan A) (opts : options)
    (t : bool) (w : world A) :
  cls self <> Gan ->
  0 <= num_points (_data self) < batch_size opts ->
  train self opts (t, w)
  = (Ok tt, (true, mk_world (eng w) (gen w)
                     (trace w ++ repeat EvBam (Z.to_nat (gan_epoch_num opts))))).
Proof.
  intros Hc Hn.
  assert (Hdiv : py_div (num_points (_data self)) (batch_size opts) = Ok 0).
  { unfold py_div. destruct (Z.eqb_spec (batch_size opts) 0); [lia|].
    rewrite Z.div_small by lia. reflexivity. }
  assert (Hlen : length (xrange (gan_epoch_num opts)) = Z.to_nat (gan_epoch_num opts))
    by (unfold xrange; apply length_seq).
  unfold train, _train_internal. simpl snd.
  destruct (cls self); [contradiction| | |].
  - unfold toy_train_loop. erewrite bind_eq.
    2:{ erewrite bind_eq; [|unfold lift; rewrite Hdiv; reflexivity].
        apply (idle_epochs _ _ _ (fun e => for_each (xrange 0)
                                              (toy_train_body self opts e))).
        reflexivity. }
    rewrite Hlen. reflexivity.
  - unfold image_train_loop, epochs_loop. erewrite bind_eq.
    2:{ erewrite bind_eq; [|unfold lift; rewrite Hdiv; reflexivity].
        apply (idle_epochs _ _ _ (fun e => for_break (xrange 0)
                                              (image_train_body self opts e))).
        reflexivity. }
    rewrite Hlen. reflexivity.
  - unfold unrolled_train_loop, epochs_loop. erewrite bind_eq.
    2:{ erewrite bind_eq; [|unfold lift; rewrite Hdiv; reflexivity].
        apply (idle_epochs _ _ _ (fun e => for_break (xrange 0)
                                              (unrolled_train_body self opts e))).
        reflexivity. }
    rewrite Hlen. reflexivity.
Qed.

(** X11. Nothing works on an instance of the base class: every call of
    every history raises an assertion error, and the instance is never
    marked trained nor its world touched. *)
Theorem base_class_is_abstract (self : gan A) (cs : list (call A))
    (w0 : world A) (h : list (call A * outcome A)) (st : object_state) :
  cls self = Gan ->
  exec_calls self cs (false, w0) = (h, st) ->
  st = (false, w0) /\
  Forall (fun co => exists msg, snd co = Raise (AssertionError msg)) h.
Proof.
  intros Hc. revert h st. induction cs as [|c cs IH]; intros h st E.
  - injection E as <- <-. auto.
  - simpl in E.
    assert (Hcall : exists msg,
               exec_call self c (false, w0)
               = (Raise (AssertionError msg), (false, w0))).
    { destruct c as [opts|opts num|opts fake]; simpl;
        unfold train, sample, train_mixture_discriminator, _train_internal,
          _train_mixture_discriminator_internal; simpl; rewrite ?Hc; eauto. }
    destruct Hcall as (msg & Hcall). rewrite Hcall in E.
    destruct (exec_calls self cs (false, w0)) as [h1 st1] eqn:E1.
    injection E as <- <-. destruct (IH _ _ eq_refl) as (-> & Hall).
    split; [reflexivity|]. constructor; [simpl; eauto | exact Hall].
Qed.

(** X12. Weights that are not one per data point stop [train] at the
    first minibatch, before any update: the draw of the minibatch raises,
    nothing has run, and the instance is not marked trained. *)
Theorem mismatched_weights_raise (self : gan A) (opts : options)
    (t : bool) (w : world A) :
  cls self <> Gan ->
  1 <= batch_size opts <= num_points (_data self) ->
  1 <= gan_epoch_num opts ->
  Z.of_nat (length (_data_weights self)) <> num_points (_data self) ->
  train self opts (t, w)
  = (Raise (ValueError "a and p must have same size"), (t, w)).
Proof.
  intros Hc Hb He Hw.
  assert (Hdiv : exists bn, py_div (num_points (_data self)) (batch_size opts) = Ok bn
                            /\ 1 <= bn).
  { unfold py_div. destruct (Z.eqb_spec (batch_size opts) 0); [lia|].
    eexists. split; [reflexivity|].
    apply Z.div_le_lower_bound; lia. }
  destruct Hdiv as (bn & Hdiv & Hbn).
  assert (Hxe : exists l, xrange (gan_epoch_num opts) = 0%nat :: l).
  { unfold xrange. destruct (Z.to_nat (gan_epoch_num opts)) eqn:Hz; [lia|].
    simpl. eauto. }
  assert (Hxb : exists l, xrange bn = 0%nat :: l).
  { unfold xrange. destruct (Z.to_nat bn) eqn:Hz; [lia|]. simpl. eauto. }
  destruct Hxe as (le & Hxe). destruct Hxb as (lb & Hxb).
  assert (Hchoice : np_random_choice (num_points (_data self)) (batch_size opts)
                      (Some (_data_weights self)) w
                    = (Raise (ValueError "a and p must have same size"), w)).
  { unfold np_random_choice.
    destruct (Z.leb_spec (num_points (_data self)) 0); [lia|].
    destruct (Z.eqb_spec (Z.of_nat (length (_data_weights self)))
                         (num_points (_data self))); [contradiction|].
    reflexivity. }
  unfold train, _train_internal. simpl snd.
  destruct (cls self); [contradiction| | |].
  - unfold toy_train_loop. erewrite bind_raise; [reflexivity|].
    erewrite bind_eq; [|unfold lift; rewrite Hdiv; reflexivity].
    rewrite Hxe, Hxb. simpl. unfold toy_train_body.
    repeat apply bind_raise. exact Hchoice.
  - unfold image_train_loop, epochs_loop. erewrite bind_raise; [reflexivity|].
    erewrite bind_eq; [|unfold lift; rewrite Hdiv; reflexivity].
    rewrite Hxe, Hxb. simpl. unfold image_train_body.
    repeat apply bind_raise. exact Hchoice.
  - unfold unrolled_train_loop, epochs_loop. erewrite bind_raise; [reflexivity|].
    erewrite bind_eq; [|unfold lift; rewrite Hdiv; reflexivity].
    rewrite Hxe, Hxb. simpl. unfold unrolled_train_body.
    repeat apply bind_raise. exact Hchoice.
Qed.

(** X13. With [verbose] set and [plot_every] at zero, a training run of
    the image variants that reaches a minibatch does not return: the
    check for a plot divides by zero after the first updates. *)
Theorem zero_plot_every_never_returns (self : gan A) (opts : options)
    (w w' : world A) (c : Z) :
  verbose opts = true -> plot_every opts = 0 ->
  1 <= gan_epoch_num opts ->
  1 <= batch_size opts <= num_points (_data self) ->
  image_train_loop self opts w <> (Ok c, w') /\
  unrolled_train_loop self opts w <> (Ok c, w').
Proof.
  intros Hv Hp He Hb.
  assert (Hdue : forall counter (w0 : world A) due w1,
             plot_due opts counter w0 <> (Ok due, w1)).
  { intros counter w0 due w1. unfold plot_due. rewrite Hv, Hp. discriminate. }
  assert (Hloop : forall body,
             (forall e i c0 (w0 : world A) r w1,
                 body e i c0 w0 <> (Ok r, w1)) ->
             epochs_loop self opts body w <> (Ok c, w')).
  { intros body Hbody E. unfold epochs_loop in E.
    apply bind_ok in E as (bn & w1 & Ebn & E). injection Ebn as Ebn <-.
    unfold py_div in Ebn. destruct (Z.eqb_spec (batch_size opts) 0); [lia|].
    injection Ebn as <-.
    assert (Hbn : 1 <= num_points (_data self) / batch_size opts)
      by (apply Z.div_le_lower_bound; lia).
    unfold xrange in E.
    destruct (Z.to_nat (gan_epoch_num opts)) eqn:Hze; [lia|].
    destruct (Z.to_nat (num_points (_data self) / batch_size opts)) eqn:Hzb; [lia|].
    simpl in E. apply bind_ok in E as (c1 & w1 & E1 & _).
    apply bind_ok in E1 as (c2 & w2 & E2 & _).
    apply bind_ok in E2 as (r & w3 & E3 & _).
    exact (Hbody _ _ _ _ _ _ E3). }
  split; apply Hloop; intros e i c0 w0 r w1 E.
  - unfold image_train_body in E. cbv zeta in E.
    do 5 (apply bind_ok in E as (? & ? & _ & E)).
    apply bind_ok in E as (due & w2 & Ed & _). exact (Hdue _ _ _ _ Ed).
  - unfold unrolled_train_body in E. cbv zeta in E.
    do 5 (apply bind_ok in E as (? & ? & _ & E)).
    apply bind_ok in E as (due & w2 & Ed & _). exact (Hdue _ _ _ _ Ed).
Qed.

End MethodsMore.

(** ** More about [extract_update_dict] and the unrolling *)

Lemma extract_update_post gv updates update v t :
  post_update update = Some (v, t) -> v ∈ gv ->
  extract_update gv updates update = Ok (<[v := t]> updates).
Proof.
  unfold post_update, extract_update, py_index.
  destruct (op_inputs update) as [|ref [|value others]]; try discriminate.
  simpl. intros Hp Hv.
  destruct (String.eqb (op_type update) "Assign").
  - injection Hp as <- <-. rewrite bool_decide_eq_true_2 by exact Hv. reflexivity.
  - destruct (String.eqb (op_type update) "AssignAdd"); [|discriminate].
    injection Hp as <- <-. rewrite bool_decide_eq_true_2 by exact Hv. reflexivity.
Qed.

Lemma extract_updates_supported gv updates ops :
  Forall (fun u => exists v t, post_update u = Some (v, t) /\ v ∈ gv) ops ->
  extract_updates gv updates ops
  = Ok (assign_all updates (omap post_update ops)).
Proof.
  intros Hall. revert updates.
  induction Hall as [|u ops (v & t & Hp & Hv) _ IH]; intros updates; [reflexivity|].
  simpl. rewrite (extract_update_post gv updates u v t Hp Hv), Hp. simpl.
  apply IH.
Qed.

Lemma assign_all_lookup_other d kvs v :
  v ∉ map fst kvs -> assign_all d kvs !! v = d !! v.
Proof.
  revert d. induction kvs as [|[k t] kvs IH]; intros d Hv; [reflexivity|].
  simpl in *. apply not_elem_of_cons in Hv as (Hne & Hv).
  unfold assign_all in *. simpl. rewrite IH by exact Hv.
  apply lookup_insert_ne. congruence.
Qed.

Lemma assign_all_dom d kvs :
  dom (assign_all d kvs) = dom d ∪ list_to_set (map fst kvs).
Proof.
  revert d. induction kvs as [|[k t] kvs IH]; intros d.
  - simpl. rewrite union_empty_r_L. reflexivity.
  - unfold assign_all in *. simpl. rewrite IH, dom_insert_L.
    rewrite (union_comm_L {[k]} (dom d)), <- union_assoc_L. reflexivity.
Qed.

(** X14. On a list of supported update ops ([Assign] or [AssignAdd] with
    two inputs, the first a global variable), [extract_update_dict]
    returns a dictionary whose keys are exactly the variables written, and
    a variable is mapped to the post-update value of the last op that
    writes it. *)
Theorem extract_update_dict_supported (gv : list string)
    (update_ops : list tf_operation) :
  Forall (fun u => exists v t, post_update u = Some (v, t) /\ v ∈ gv) update_ops ->
  exists update_dict,
    extract_update_dict gv update_ops = Ok update_dict /\
    dom update_dict
    = list_to_set (map fst (omap post_update update_ops)) /\
    forall before u after v t,
      update_ops = before ++ u :: after ->
      post_update u = Some (v, t) ->
      v ∉ map fst (omap post_update after) ->
      update_dict !! v = Some t.
Proof.
  intros Hall. eexists. split; [apply extract_updates_supported, Hall|].
  split.
  - rewrite assign_all_dom, dom_empty_L, union_empty_l_L. reflexivity.
  - intros before u after v t -> Hp Hlast.
    rewrite omap_app. simpl. rewrite Hp. unfold assign_all.
    rewrite fold_left_app. simpl.
    change (assign_all (<[v := t]> (assign_all ∅ (omap post_update before)))
                       (omap post_update after) !! v = Some t).
    rewrite assign_all_lookup_other by exact Hlast.
    apply lookup_insert_eq.
Qed.

(** X15. What stops the extraction besides an unsupported type, whatever
    the type of the op: an op without a first or a second input raises
    [IndexError], and an op whose first input is not a global variable
    raises [KeyError] with the name of that input. The ops after the
    offending one are not looked at. *)
Theorem extract_update_dict_bad_inputs (gv : list string)
    (supported : list tf_operation) (update : tf_operation)
    (rest : list tf_operation) (update_dict : gmap string tensor) :
  extract_update_dict gv supported = Ok update_dict ->
  (op_inputs update = [] ->
   extract_update_dict gv (supported ++ update :: rest) = Raise IndexError) /\
  (forall ref others,
      op_inputs update = ref :: others -> t_name ref ∉ gv ->
      extract_update_dict gv (supported ++ update :: rest)
      = Raise (KeyError (t_name ref))) /\
  (forall ref,
      op_inputs update = [ref] -> t_name ref ∈ gv ->
      extract_update_dict gv (supported ++ update :: rest) = Raise IndexError).
Proof.
  intros Hsup. unfold extract_update_dict in *.
  rewrite extract_updates_app, Hsup. simpl. unfold extract_update, py_index.
  split; [|split].
  - intros ->. reflexivity.
  - intros ref others -> Hgv. simpl.
    rewrite bool_decide_eq_false_2 by exact Hgv. reflexivity.
  - intros ref -> Hgv. simpl.
    rewrite bool_decide_eq_true_2 by exact Hgv. reflexivity.
Qed.

(** Two rewritings in a row are one rewriting with the rewritten
    dictionary, when the second dictionary has no key the first lacks. *)
Lemma graph_replace_twice (sigma tau : gmap string tensor) (t : tensor) :
  dom tau ⊆ dom sigma ->
  graph_replace (graph_replace t sigma) tau
  = graph_replace t (graph_replace_dict sigma tau).
Proof.
  intros Hdom.
  induction t as [v|p|t IH|a b IHa IHb|f args IH] using tensor_induction; simpl.
  - unfold graph_replace_dict. rewrite lookup_fmap.
    destruct (sigma !! v) as [u|] eqn:Hv; simpl; [reflexivity|].
    assert (Htau : tau !! v = None).
    { apply not_elem_of_dom. intros Hin. apply Hdom in Hin.
      apply elem_of_dom in Hin as [u Hu]. congruence. }
    rewrite Htau. reflexivity.
  - reflexivity.
  - rewrite IH. reflexivity.
  - rewrite IHa, IHb. reflexivity.
  - f_equal. rewrite map_map. apply map_ext_in. intros t Ht.
    rewrite Forall_forall in IH. apply IH, list_elem_of_In, Ht.
Qed.

Lemma composed_dom (ud : gmap string tensor) (k : nat) :
  dom (composed ud k) = dom ud.
Proof.
  destruct k as [|k]; [reflexivity|]. simpl. unfold graph_replace_dict.
  apply dom_fmap_L.
Qed.

Lemma graph_replace_composed (ud : gmap string tensor) (k : nat) (t : tensor) :
  graph_replace t (composed ud k)
  = Nat.iter (S k) (fun t' => graph_replace t' ud) t.
Proof.
  revert t. induction k as [|k IH]; intros t; [reflexivity|].
  rewrite Nat.iter_succ_r, <- IH. simpl composed.
  symmetry. apply graph_replace_twice. rewrite composed_dom. reflexivity.
Qed.

Lemma reaches_dom (sigma tau : gmap string tensor) (t : tensor) :
  dom sigma = dom tau -> reaches sigma t = reaches tau t.
Proof.
  intros Hdom. unfold reaches.
  induction (reads t) as [|v l IH]; [reflexivity|].
  simpl. rewrite IH. f_equal. apply bool_decide_ext.
  rewrite <- !elem_of_dom, Hdom. reflexivity.
Qed.

Lemma reaches_false (sigma : gmap string tensor) (t : tensor) :
  reaches sigma t = false <-> Forall (fun v => sigma !! v = None) (reads t).
Proof.
  unfold reaches. induction (reads t) as [|v l IH]; simpl.
  - split; [constructor | reflexivity].
  - rewrite orb_false_iff, IH, Forall_cons, bool_decide_eq_false.
    rewrite <- eq_None_not_Some. reflexivity.
Qed.

Lemma dict_reaches_dom (sigma tau ud : gmap string tensor) :
  dom sigma = dom tau ->
  existsb (reaches sigma) (map snd (map_to_list ud))
  = existsb (reaches tau) (map snd (map_to_list ud)).
Proof.
  intros Hdom. induction (map snd (map_to_list ud)) as [|t l IH]; [reflexivity|].
  simpl. rewrite IH, (reaches_dom sigma tau t Hdom). reflexivity.
Qed.

(** The loop of the build: with a dictionary whose values read its own
    keys every step goes through, and otherwise the first step is
    refused. *)
Lemma checked_fold (ud : gmap string tensor) (s n : nat) :
  fold_left (fun cur _ =>
               match cur with
               | Ok cur => checked_graph_replace_dict ud cur
               | Raise e => Raise e
               end) (seq s n) (Ok ud)
  = if (n =? 0)%nat || existsb (reaches ud) (map snd (map_to_list ud))
    then Ok (composed ud n) else Raise not_connected.
Proof.
  destruct (existsb (reaches ud) (map snd (map_to_list ud))) eqn:Hc.
  - rewrite orb_true_r. revert s.
    induction n as [|n IH]; intros s; [reflexivity|].
    rewrite seq_S, fold_left_app, IH. simpl.
    unfold checked_graph_replace_dict.
    rewrite (dict_reaches_dom (composed ud n) ud ud (composed_dom ud n)), Hc.
    reflexivity.
  - rewrite orb_false_r. destruct n as [|n]; [reflexivity|]. simpl.
    unfold checked_graph_replace_dict at 2. rewrite Hc.
    generalize (seq (S s) n). intros l.
    induction l as [|i l IH]; [reflexivity | exact IH].
Qed.

(** X16. Unrolling is repeated substitution, where [graph_replace] accepts
    it. With [unrolling_steps = K > 0] and the check of [graph_replace],
    the build returns a generator loss exactly when the discriminator loss
    reads an updated variable and, for [K > 1], some update value does
    too; the loss is then the negated discriminator loss in which the
    one-step update dictionary has been substituted [K] times in a row,
    as without the check. Otherwise the build raises the [ValueError] of
    [graph_replace]; in particular for a discriminator loss that reads
    none of the updated variables. *)
Theorem unrolling_is_repeated_substitution (opts : options)
    (global_variables : list string) (updates : list tf_operation)
    (d_loss : tensor) (update_dict : gmap string tensor) :
  0 < unrolling_steps opts ->
  extract_update_dict global_variables updates = Ok update_dict ->
  let connected :=
    reaches update_dict d_loss
    && ((unrolling_steps opts =? 1)
        || existsb (reaches update_dict) (map snd (map_to_list update_dict))) in
  (connected = true ->
   checked_unrolled_g_loss opts global_variables updates d_loss
   = Ok (Neg (Nat.iter (Z.to_nat (unrolling_steps opts))
                       (fun t => graph_replace t update_dict) d_loss)) /\
   unrolled_g_loss opts global_variables updates d_loss
   = checked_unrolled_g_loss opts global_variables updates d_loss) /\
  (connected = false ->
   checked_unrolled_g_loss opts global_variables updates d_loss
   = Raise not_connected) /\
  (Forall (fun v => update_dict !! v = None) (reads d_loss) ->
   checked_unrolled_g_loss opts global_variables updates d_loss
   = Raise not_connected).
Proof.
  intros HK Hud connected.
  assert (Hchecked :
            checked_unrolled_g_loss opts global_variables updates d_loss
            = if connected
              then Ok (Neg (graph_replace d_loss
                              (composed update_dict
                                 (Z.to_nat (unrolling_steps opts - 1)))))
              else Raise not_connected).
  { unfold checked_unrolled_g_loss.
    destruct (Z.ltb_spec 0 (unrolling_steps opts)); [|lia].
    rewrite Hud. cbv zeta. unfold xrange. rewrite checked_fold.
    subst connected.
    replace (Z.to_nat (unrolling_steps opts - 1) =? 0)%nat
      with (unrolling_steps opts =? 1)
      by (destruct (Z.eqb_spec (unrolling_steps opts) 1),
            (Nat.eqb_spec (Z.to_nat (unrolling_steps opts - 1)) 0);
          [reflexivity | lia | lia | reflexivity]).
    destruct ((unrolling_steps opts =? 1) || _).
    - rewrite andb_true_r. unfold checked_graph_replace.
      rewrite (reaches_dom _ update_dict d_loss (composed_dom update_dict _)).
      destruct (reaches update_dict d_loss); reflexivity.
    - rewrite andb_false_r. reflexivity. }
  assert (Hloss : unrolled_g_loss opts global_variables updates d_loss
                  = Ok (Neg (graph_replace d_loss
                               (composed update_dict
                                  (Z.to_nat (unrolling_steps opts - 1)))))).
  { unfold unrolled_g_loss. destruct (Z.ltb_spec 0 (unrolling_steps opts)); [|lia].
    rewrite Hud. unfold xrange. rewrite fold_composed, <- composed_iter.
    reflexivity. }
  split; [|split].
  - intros Hc. rewrite Hchecked, Hloss, Hc. split; [|reflexivity].
    rewrite graph_replace_composed.
    replace (S (Z.to_nat (unrolling_steps opts - 1)))
      with (Z.to_nat (unrolling_steps opts)) by lia.
    reflexivity.
  - intros Hc. rewrite Hchecked, Hc. reflexivity.
  - intros Hr. rewrite Hchecked. subst connected.
    apply reaches_false in Hr. rewrite Hr. reflexivity.
Qed.

(** ** The layers of the image generator *)

(** X17. The shapes of the image generator. The first linear layer has as
    many units as the tensor it is reshaped to has entries per point; each
    of the first two transposed convolutions doubles the height and the
    width; and the second one arrives at the height and the width of the
    data, which the last one (of stride 1) is asked to keep, exactly when
    both are divisible by 4. A data shape with fewer than two dimensions
    raises [IndexError]. *)
Theorem image_generator_layout_shapes (H W : Z) (rest : list Z)
    (num_filters dim1 : Z) :
  (exists layout,
      image_generator_layout (H :: W :: rest) num_filters dim1 = Ok layout /\
      linear_units layout = fold_right Z.mul 1 (tl (h0_shape layout)) /\
      h1_shape layout = [dim1; 2 * (H / 4); 2 * (W / 4); num_filters / 2] /\
      h2_shape layout = [dim1; 4 * (H / 4); 4 * (W / 4); num_filters / 4] /\
      h3_shape layout = dim1 :: H :: W :: rest /\
      (take 3 (h2_shape layout) = take 3 (h3_shape layout) <->
       H mod 4 = 0 /\ W mod 4 = 0)) /\
  image_generator_layout [] num_filters dim1 = Raise IndexError /\
  image_generator_layout [H] num_filters dim1 = Raise IndexError.
Proof.
  split; [|split; reflexivity].
  eexists. split; [reflexivity|]. simpl.
  split; [lia|]. split; [f_equal; f_equal; [lia | f_equal; lia]|].
  split; [f_equal; f_equal; [lia | f_equal; lia]|].
  split; [reflexivity|].
  split.
  - intros E. injection E as EH EW.
    split; Z.to_euclidean_division_equations; lia.
  - intros (EH & EW). f_equal. f_equal; [|f_equal];
      Z.to_euclidean_division_equations; lia.
Qed.

(** ** Construction *)

Section ConstructionFacts.
Context {A : Type} {EN : Engine A} {RN : Random A}.
Variable build_graph : gan_class -> options -> dataset A -> M unit.
Variable run_init : M unit.

(** X18. Construction. The base class cannot be instantiated: its
    constructor raises the assertion of [_build_model_internal], whatever
    the engine would do. An instance that the constructor does return
    belongs to a subclass, holds the data and the weights it was given and
    500 noise vectors for the plots (of which the plots use the first 300
    or 16), and is not trained: [sample] on it raises the precondition
    error. *)
Theorem init_contract (c : gan_class) (opts : options) (data : dataset A)
    (weights : list A) (w : world A) :
  (c = Gan -> 0 <= latent_space_dim opts ->
   fst (__init__ build_graph run_init c opts data weights w)
   = Raise (AssertionError "Gan base class has no build_model method defined.")) /\
  (forall self t w',
      __init__ build_graph run_init c opts data weights w = (Ok (self, t), w') ->
      c <> Gan /\ t = false /\ cls self = c /\
      _data self = data /\ _data_weights self = weights /\
      shape (_noise_for_plots self) = [500%nat; Z.to_nat (latent_space_dim opts)] /\
      len (slice (_noise_for_plots self) 0 300) = 300%nat /\
      len (slice (_noise_for_plots self) 0 16) = 16%nat /\
      forall opts' num,
        sample self opts' num (t, w')
        = (Raise (AssertionError untrained_msg), (t, w'))).
Proof.
  split.
  - intros -> Hl. unfold __init__, generate_noise. cbv zeta.
    destruct (Z.ltb_spec (latent_space_dim opts) 0); [lia|]. simpl orb. cbv iota.
    unfold bind at 1.
    destruct (draw_many _ _) as [xs g']. reflexivity.
  - intros self t w' E. unfold __init__ in E. cbv zeta in E.
    apply bind_ok in E as (noise & w1 & En & E).
    apply generate_noise_ok in En.
    change (Z.to_nat 500) with 500%nat in En.
    apply bind_ok in E as (u & w2 & Eb & E).
    apply bind_ok in E as (u' & w3 & _ & E).
    injection E as <- <- <-.
    assert (Hc : c <> Gan) by (intros ->; discriminate).
    simpl. repeat split; auto.
    + unfold slice. rewrite (len_slice_rows _ _ _ _ _ En).
      unfold len. rewrite En. reflexivity.
    + unfold slice. rewrite (len_slice_rows _ _ _ _ _ En).
      unfold len. rewrite En. reflexivity.
Qed.

End ConstructionFacts.

(** ** The properties on concrete runs *)

Lemma run_batch_postcondition_witness :
  exists arr w',
    _run_batch demo_options G (Placeholder "noise") five_points PyNone None demo_world
    = (Ok arr, w') /\
    len arr = 5%nat /\
    runs_of G (drop (length (trace demo_world)) (trace w')) = 3%nat.
Proof.
  eexists. eexists.
  assert (Hrun : _run_batch demo_options G (Placeholder "noise") five_points
                   PyNone None demo_world
                 = (Ok (pointwise image_of [2%nat; 1%nat] five_points),
                    snd (_run_batch demo_options G (Placeholder "noise")
                           five_points PyNone None demo_world))).
  { vm_compute. reflexivity. }
  split; [exact Hrun|].
  pose proof (run_batch_postcondition _ _ _ _ _ _ _ _ _ Hrun) as H.
  cbv zeta in H. destruct H as (_ & _ & Hl & _ & Hr & _).
  split; [exact Hl | exact Hr].
Defined.

Lemma run_batch_engine_failure_witness :
  _run_batch (EN := failing_engine) (RN := counting_random)
             demo_options G (Placeholder "noise") five_points PyNone None
             failing_world
  = (Raise (EngineError "ResourceExhausted"),
     @mk_world Z failing_engine counting_random 1%nat 0%nat []).
Proof.
  apply (run_batch_engine_failure (EN := failing_engine) (RN := counting_random)
           demo_options G (Placeholder "noise") PyNone five_points None
           5%nat [2%nat] failing_world (EngineError "ResourceExhausted") 1%nat).
  - reflexivity.
  - lia.
  - simpl. lia.
  - reflexivity.
  - exact I.
  - reflexivity.
Defined.

Lemma run_batch_rejects_witness :
  _run_batch (with_tf_run_batch_size 0 demo_options) G (Placeholder "noise")
             five_points PyNone None demo_world
  = (Raise ZeroDivisionError, demo_world) /\
  _run_batch (with_tf_run_batch_size (-2) demo_options) G (Placeholder "noise")
             five_points PyNone None demo_world
  = (Raise (ValueError "need at least one array to concatenate"), demo_world).
Proof.
  split.
  - apply (proj1 (proj2 (run_batch_rejects (EN := counting_engine)
                           (RN := counting_random)
                           (with_tf_run_batch_size 0 demo_options) G
                           (Placeholder "noise") PyNone None
                           [1; 2; 3; 4; 5; 6; 7; 8; 9; 10] demo_world))
                 5%nat [2%nat]).
    reflexivity.
  - apply (proj2 (proj2 (run_batch_rejects (EN := counting_engine)
                           (RN := counting_random)
                           (with_tf_run_batch_size (-2) demo_options) G
                           (Placeholder "noise") PyNone None
                           [1; 2; 3; 4; 5; 6; 7; 8; 9; 10] demo_world))
                 5%nat [2%nat]).
    simpl. lia.
Defined.

Lemma image_mode_flag_witness :
  cls (demo_gan ImageGan) = ImageGan /\
  exists w',
    _train_internal (demo_gan ImageGan) demo_options demo_world = (Ok tt, w') /\
    extends (mode_fed (demo_gan ImageGan)) demo_world w'.
Proof.
  split; [reflexivity|]. eexists.
  assert (Hrun : _train_internal (demo_gan ImageGan) demo_options demo_world
                 = (Ok tt, snd (_train_internal (demo_gan ImageGan) demo_options
                                  demo_world))).
  { vm_compute. reflexivity. }
  split; [exact Hrun|].
  exact (proj1 (image_mode_flag (EN := counting_engine) (RN := counting_random)
                  (demo_gan ImageGan) eq_refl) demo_options _ _ _ Hrun).
Defined.

Lemma training_update_counts_witness :
  exists w',
    image_train_loop (demo_gan ImageGan) demo_options demo_world = (Ok 4, w') /\
    runs_of D_optim (drop (length (trace demo_world)) (trace w')) = 4%nat /\
    runs_of C_optim (drop (length (trace demo_world)) (trace w')) = 0%nat.
Proof.
  eexists.
  assert (Hrun : image_train_loop (demo_gan ImageGan) demo_options demo_world
                 = (Ok 4, snd (image_train_loop (demo_gan ImageGan) demo_options
                                 demo_world))).
  { vm_compute. reflexivity. }
  split; [exact Hrun|]. split.
  - exact (proj2 (training_update_counts _ _ _ _ _ D_optim
                    (or_intror (or_introl Hrun)) eq_refl)).
  - exact (proj2 (training_update_counts _ _ _ _ _ C_optim
                    (or_intror (or_introl Hrun)) eq_refl)).
Defined.

Lemma plot_cadence_witness :
  exists w1 w2,
    toy_train_loop (demo_gan ToyGan) demo_options demo_world = (Ok 6, w1) /\
    plots (drop (length (trace demo_world)) (trace w1)) = 0%nat /\
    image_train_loop (demo_gan ImageGan) demo_options demo_world = (Ok 4, w2) /\
    plots (drop (length (trace demo_world)) (trace w2)) = 2%nat.
Proof.
  eexists. eexists.
  assert (Htoy : toy_train_loop (demo_gan ToyGan) demo_options demo_world
                 = (Ok 6, snd (toy_train_loop (demo_gan ToyGan) demo_options
                                 demo_world))).
  { vm_compute. reflexivity. }
  assert (Himg : image_train_loop (demo_gan ImageGan) demo_options demo_world
                 = (Ok 4, snd (image_train_loop (demo_gan ImageGan) demo_options
                                 demo_world))).
  { vm_compute. reflexivity. }
  split; [exact Htoy|]. split.
  - exact (proj1 (plot_cadence _ _ _ _ _) Htoy).
  - split; [exact Himg|].
    refine (proj2 (plot_cadence _ _ _ _ _) _ (or_introl Himg)).
    simpl. lia.
Defined.

Lemma mixture_training_counts_witness :
  exists arr w',
    _train_mixture_discriminator_internal (demo_gan ToyGan) demo_options
      five_points demo_world = (Ok arr, w') /\
    runs_of C_optim (drop (length (trace demo_world)) (trace w')) = 2%nat /\
    bams (drop (length (trace demo_world)) (trace w')) = 1%nat.
Proof.
  eexists. eexists.
  assert (Hrun : _train_mixture_discriminator_internal (demo_gan ToyGan)
                   demo_options five_points demo_world
                 = (Ok (mk_nd [5%nat; 1%nat] [3; 7; 11; 15; 19]),
                    snd (_train_mixture_discriminator_internal (demo_gan ToyGan)
                           demo_options five_points demo_world))).
  { vm_compute. reflexivity. }
  split; [exact Hrun|].
  pose proof (mixture_training_counts _ _ _ _ _ _ Hrun) as H.
  cbv zeta in H. destruct H as (bn & Hbn & Hc & Hb & _).
  assert (bn = 2) as -> by (vm_compute in Hbn; congruence).
  split; [exact Hc | exact Hb].
Defined.

Lemma sample_only_evaluates_witness :
  exists arr st',
    sample (demo_gan ToyGan) demo_options 4 (true, demo_world) = (Ok arr, st') /\
    _trained st' = true /\
    runs_of G_optim (drop (length (trace demo_world)) (trace (snd st'))) = 0%nat.
Proof.
  eexists. eexists.
  assert (Hrun : sample (demo_gan ToyGan) demo_options 4 (true, demo_world)
                 = (Ok (mk_nd [4%nat; 2%nat; 1%nat] [1; 2; 5; 6; 9; 10; 13; 14]),
                    snd (sample (demo_gan ToyGan) demo_options 4
                           (true, demo_world)))).
  { vm_compute. reflexivity. }
  split; [exact Hrun|].
  destruct (sample_only_evaluates _ _ _ _ _ _ Hrun) as (Ht & _ & Hz).
  split; [exact Ht | exact (Hz G_optim eq_refl)].
Defined.

Lemma zero_batch_size_raises_witness :
  train (demo_gan ToyGan) (with_batch_size 0 demo_options) (false, demo_world)
  = (Raise ZeroDivisionError, (false, demo_world)) /\
  train_mixture_discriminator (demo_gan ImageGan)
    (with_batch_size 0 demo_options) five_points (false, demo_world)
  = (Raise ZeroDivisionError, (false, demo_world)).
Proof.
  split.
  - refine (proj1 (zero_batch_size_raises (EN := counting_engine)
                     (RN := counting_random) (demo_gan ToyGan)
                     (with_batch_size 0 demo_options) five_points
                     (false, demo_world) _ _)); [discriminate | reflexivity].
  - refine (proj2 (zero_batch_size_raises (EN := counting_engine)
                     (RN := counting_random) (demo_gan ImageGan)
                     (with_batch_size 0 demo_options) five_points
                     (false, demo_world) _ _)); [discriminate | reflexivity].
Defined.

Lemma oversized_batch_trains_nothing_witness :
  train (demo_gan UnrolledGan) (with_batch_size 6 demo_options) (false, demo_world)
  = (Ok tt, (true, @mk_world Z counting_engine counting_random 0%nat 0%nat
                     [EvBam; EvBam; EvBam])).
Proof.
  refine (oversized_batch_trains_nothing (EN := counting_engine)
            (RN := counting_random) (demo_gan UnrolledGan)
            (with_batch_size 6 demo_options) false demo_world _ _).
  - discriminate.
  - simpl. lia.
Defined.

Lemma base_class_is_abstract_witness :
  exists h,
    exec_calls (EN := counting_engine) (RN := counting_random) (demo_gan Gan)
      [CallTrain demo_options; CallSample demo_options 4;
       CallMixture demo_options five_points] (false, demo_world)
    = (h, (false, demo_world)) /\
    Forall (fun co => exists msg, snd co = Raise (AssertionError msg)) h.
Proof.
  eexists.
  assert (E : exec_calls (EN := counting_engine) (RN := counting_random)
                (demo_gan Gan)
                [CallTrain demo_options; CallSample demo_options 4;
                 CallMixture demo_options five_points] (false, demo_world)
              = (fst (exec_calls (EN := counting_engine) (RN := counting_random)
                        (demo_gan Gan)
                        [CallTrain demo_options; CallSample demo_options 4;
                         CallMixture demo_options five_points]
                        (false, demo_world)),
                 (false, demo_world))).
  { vm_compute. reflexivity. }
  split; [exact E|].
  exact (proj2 (base_class_is_abstract (demo_gan Gan) _ _ _ _ eq_refl E)).
Defined.

Lemma mismatched_weights_raise_witness :
  train (short_weights_gan ToyGan) demo_options (false, demo_world)
  = (Raise (ValueError "a and p must have same size"), (false, demo_world)).
Proof.
  refine (mismatched_weights_raise (EN := counting_engine) (RN := counting_random)
            (short_weights_gan ToyGan) demo_options false demo_world _ _ _ _).
  - discriminate.
  - simpl. lia.
  - simpl. lia.
  - simpl. lia.
Defined.

Lemma zero_plot_every_never_returns_witness :
  image_train_loop (demo_gan ImageGan) (with_plot_every 0 demo_options) demo_world
  <> (Ok 4, demo_world) /\
  fst (image_train_loop (demo_gan ImageGan) (with_plot_every 0 demo_options)
         demo_world) = Raise ZeroDivisionError.
Proof.
  split; [|vm_compute; reflexivity].
  refine (proj1 (zero_plot_every_never_returns (EN := counting_engine)
                   (RN := counting_random) (demo_gan ImageGan)
                   (with_plot_every 0 demo_options) demo_world demo_world 4
                   _ _ _ _)).
  - reflexivity.
  - reflexivity.
  - simpl. lia.
  - simpl. lia.
Defined.

Lemma extract_update_dict_supported_witness :
  exists update_dict,
    extract_update_dict demo_variables [assign_op; assign_add_op] = Ok update_dict /\
    update_dict !! "iterations:0"
    = Some (Add (Read "iterations:0") (Op "One" [])).
Proof.
  destruct (extract_update_dict_supported demo_variables [assign_op; assign_add_op])
    as (d & Hd & _ & Hlast).
  - repeat constructor.
    + eexists. eexists. split; [reflexivity|].
      apply list_elem_of_In. simpl. auto.
    + eexists. eexists. split; [reflexivity|].
      apply list_elem_of_In. simpl. auto.
  - exists d. split; [exact Hd|].
    apply (Hlast [assign_op] assign_add_op []); [reflexivity | reflexivity |].
    intros Hin. apply list_elem_of_In in Hin. exact Hin.
Defined.

Lemma extract_update_dict_bad_inputs_witness :
  extract_update_dict demo_variables [assign_op; no_op; assign_add_op]
  = Raise IndexError.
Proof.
  assert (Hd : extract_update_dict demo_variables [assign_op]
               = Ok (match extract_update_dict demo_variables [assign_op] with
                     | Ok d => d
                     | Raise _ => ∅
                     end)).
  { vm_compute. reflexivity. }
  exact (proj1 (extract_update_dict_bad_inputs demo_variables [assign_op] no_op
                  [assign_add_op] _ Hd) eq_refl).
Defined.

Lemma unrolling_is_repeated_substitution_witness :
  (exists update_dict,
      extract_update_dict demo_variables [assign_op; assign_add_op]
      = Ok update_dict /\
      checked_unrolled_g_loss unrolled_options demo_variables
        [assign_op; assign_add_op] demo_loss
      = Ok (Neg (graph_replace
                   (graph_replace (graph_replace demo_loss update_dict)
                                  update_dict)
                   update_dict))) /\
  checked_unrolled_g_loss unrolled_options demo_variables
    [assign_op; assign_add_op] detached_loss
  = Raise not_connected /\
  checked_unrolled_g_loss unrolled_options demo_variables
    [assign_constant_op] demo_loss
  = Raise not_connected.
Proof.
  assert (Hd : forall ops,
             is_ok (extract_update_dict demo_variables ops) = true ->
             extract_update_dict demo_variables ops
             = Ok (match extract_update_dict demo_variables ops with
                   | Ok d => d
                   | Raise _ => ∅
                   end)).
  { intros ops. destruct (extract_update_dict demo_variables ops);
      [reflexivity | discriminate]. }
  pose proof (Hd [assign_op; assign_add_op] eq_refl) as Hd1.
  pose proof (Hd [assign_constant_op] eq_refl) as Hd2.
  split; [|split].
  - eexists. split; [exact Hd1|].
    refine (proj1 (proj1 (unrolling_is_repeated_substitution unrolled_options
                            demo_variables [assign_op; assign_add_op] demo_loss
                            _ _ Hd1) _)).
    + simpl. lia.
    + vm_compute. reflexivity.
  - refine (proj2 (proj2 (unrolling_is_repeated_substitution unrolled_options
                            demo_variables [assign_op; assign_add_op]
                            detached_loss _ _ Hd1)) _).
    + simpl. lia.
    + repeat constructor.
  - refine (proj1 (proj2 (unrolling_is_repeated_substitution unrolled_options
                            demo_variables [assign_constant_op] demo_loss
                            _ _ Hd2)) _).
    + simpl. lia.
    + vm_compute. reflexivity.
Defined.

Lemma init_contract_witness :
  fst (__init__ (EN := counting_engine) (RN := counting_random)
         silent_build (ret tt) Gan demo_options demo_dataset [1; 1; 1; 1; 1]
         demo_world)
  = Raise (AssertionError "Gan base class has no build_model method defined.") /\
  exists self w',
    __init__ (EN := counting_engine) (RN := counting_random)
      silent_build (ret tt) ToyGan demo_options demo_dataset [1; 1; 1; 1; 1]
      demo_world = (Ok (self, false), w') /\
    len (slice (_noise_for_plots self) 0 300) = 300%nat /\
    fst (sample self demo_options 4 (false, w'))
    = Raise (AssertionError untrained_msg).
Proof.
  split.
  - refine (proj1 (init_contract (EN := counting_engine) (RN := counting_random)
                     silent_build (ret tt) Gan demo_options demo_dataset
                     [1; 1; 1; 1; 1] demo_world) eq_refl _).
    simpl. lia.
  - eexists. eexists.
    assert (Hrun : __init__ (EN := counting_engine) (RN := counting_random)
                     silent_build (ret tt) ToyGan demo_options demo_dataset
                     [1; 1; 1; 1; 1] demo_world
                   = (Ok (fst (match fst (__init__ (EN := counting_engine)
                                            (RN := counting_random)
                                            silent_build (ret tt) ToyGan
                                            demo_options demo_dataset
                                            [1; 1; 1; 1; 1] demo_world) with
                               | Ok r => r
                               | Raise _ => (demo_gan ToyGan, true)
                               end), false),
                      snd (__init__ (EN := counting_engine)
                             (RN := counting_random)
                             silent_build (ret tt) ToyGan demo_options
                             demo_dataset [1; 1; 1; 1; 1] demo_world))).
    { vm_compute. reflexivity. }
    split; [exact Hrun|].
    destruct (proj2 (init_contract (EN := counting_engine)
                       (RN := counting_random)
                       silent_build (ret tt) ToyGan demo_options demo_dataset
                       [1; 1; 1; 1; 1] demo_world) _ _ _ Hrun)
      as (_ & _ & _ & _ & _ & _ & H300 & _ & Hs).
    split; [exact H300|]. rewrite Hs. reflexivity.
Defined.

(** ** The training loop of [ToyGan] *)

Section ToyLoop.
Context {A : Type} {EN : Engine A} {RN : Random A}.

Lemma toy_train_body_no_bam (self : gan A) opts e i c0 :
  emits not_bam (toy_train_body self opts e i c0).
Proof.
  unfold toy_train_body, make_plots. cbv zeta.
  emits_steps ltac:(idtac; reflexivity).
Qed.

Lemma toy_minibatches (self : gan A) opts e (l : list nat) c0 (w : world A) c1 w1 :
  for_each l (toy_train_body self opts e) c0 w = (Ok c1, w1) ->
  c1 = c0 + Z.of_nat (length l) /\
  exists new, trace w1 = trace w ++ new /\ bams new = 0%nat.
Proof.
  intros E. split.
  - revert c0 w E. induction l as [|i l IH]; intros c0 w E.
    + injection E as <- _. simpl. lia.
    + simpl in E. apply bind_ok in E as (c2 & w2 & Eb & E).
      apply toy_train_body_stepping in Eb. subst c2.
      rewrite (IH _ _ E). simpl length. lia.
  - assert (Hem : emits not_bam (for_each l (toy_train_body self opts e) c0)).
    { apply emits_for_each. intros. apply toy_train_body_no_bam. }
    destruct (Hem _ _ _ E) as (new & Ht & Hall).
    exists new. split; [exact Ht | apply bams_not_bam, Hall].
Qed.

Lemma toy_epochs (self : gan A) opts (bn : Z) (l : list nat) c0 (w : world A) c1 w1 :
  for_each l
    (fun _epoch counter =>
       counter <- for_each (xrange bn) (toy_train_body self opts _epoch) counter ;;
       bam ;;; ret counter) c0 w = (Ok c1, w1) ->
  c1 = c0 + Z.of_nat (length l * Z.to_nat bn) /\
  exists new, trace w1 = trace w ++ new /\ bams new = length l.
Proof.
  revert c0 w. induction l as [|e l IH]; intros c0 w E.
  - injection E as <- <-. split; [simpl; lia|].
    exists []. rewrite app_nil_r. split; reflexivity.
  - simpl in E. apply bind_ok in E as (c2 & w2 & Eb & E).
    apply bind_ok in Eb as (c3 & w3 & Ei & Eb).
    apply bind_ok in Eb as (u & w4 & Ebam & Eb).
    injection Eb as <- <-. injection Ebam as _ <-.
    apply toy_minibatches in Ei as (-> & new1 & Ht1 & Hb1).
    apply IH in E as (-> & new2 & Ht2 & Hb2).
    unfold xrange. rewrite length_seq. split; [simpl length; lia|].
    exists (new1 ++ [EvBam] ++ new2). split.
    + rewrite Ht2. simpl trace. rewrite Ht1, <- !app_assoc. reflexivity.
    + rewrite !bams_app, Hb1, Hb2. reflexivity.
Qed.

(** X19. [ToyGan] has no early stop. A training loop of [ToyGan] that
    returns has counted every minibatch of every epoch,
    [gan_epoch_num * (num_points / batch_size)] of them, and has signalled
    the progress bar once per epoch, whatever [early_stop] is. *)
Theorem toy_has_no_early_stop (self : gan A) (opts : options)
    (w w' : world A) (c : Z) :
  toy_train_loop self opts w = (Ok c, w') ->
  exists bn,
    py_div (num_points (_data self)) (batch_size opts) = Ok bn /\
    c = Z.of_nat (Z.to_nat (gan_epoch_num opts) * Z.to_nat bn) /\
    bams (drop (length (trace w)) (trace w')) = Z.to_nat (gan_epoch_num opts).
Proof.
  intros E. unfold toy_train_loop in E.
  apply bind_ok in E as (bn & w1 & Ebn & E).
  unfold lift in Ebn.
  destruct (py_div (num_points (_data self)) (batch_size opts)) as [bn'|x] eqn:Hd;
    [|discriminate].
  injection Ebn as -> <-.
  apply toy_epochs in E as (-> & new & Ht & Hb).
  unfold xrange in *. rewrite length_seq in *.
  exists bn. split; [reflexivity|]. split; [lia|].
  rewrite Ht, drop_app_length. exact Hb.
Qed.

End ToyLoop.

Lemma toy_has_no_early_stop_witness :
  exists w',
    toy_train_loop (demo_gan ToyGan) demo_options demo_world = (Ok 6, w') /\
    early_stop demo_options = 2 /\
    bams (drop (length (trace demo_world)) (trace w')) = 3%nat.
Proof.
  eexists.
  assert (Hrun : toy_train_loop (demo_gan ToyGan) demo_options demo_world
                 = (Ok 6, snd (toy_train_loop (demo_gan ToyGan) demo_options
                                 demo_world))).
  { vm_compute. reflexivity. }
  split; [exact Hrun|]. split; [reflexivity|].
  destruct (toy_has_no_early_stop _ _ _ _ _ Hrun) as (bn & _ & _ & Hb).
  exact Hb.
Defined.
(** ** What a call can raise *)

Section RaisingFacts.
Context {A : Type} {EN : Engine A} {RN : Random A}.
Variable Q : exn -> Prop.

Lemma raises_ret {T} (x : T) : raises Q (ret x).
Proof. intros w e w' E. discriminate. Qed.

Lemma raises_raise {T} (e : exn) : Q e -> raises Q (raise e : M T).
Proof. intros He w x w' E. injection E as <- _. exact He. Qed.

Lemma raises_lift {T} (r : result T) :
  (forall e, r = Raise e -> Q e) -> raises Q (lift r).
Proof. intros Hr w x w' E. injection E as -> _. apply Hr. reflexivity. Qed.

Lemma raises_log (ev : event A) : raises Q (log ev).
Proof. intros w x w' E. discriminate. Qed.

Lemma raises_py_assert (b : bool) (msg : string) :
  Q (AssertionError msg) -> raises Q (py_assert b msg).
Proof.
  intros Hm. unfold py_assert. destruct b; [apply raises_ret|].
  apply raises_raise, Hm.
Qed.

Lemma raises_bind {T U} (m : M T) (k : T -> M U) :
  raises Q m -> (forall x, raises Q (k x)) -> raises Q (bind m k).
Proof.
  intros Hm Hk w e w' E. unfold bind in E.
  destruct (m w) as [[x|e1] w1] eqn:Em.
  - exact (Hk x w1 e w' E).
  - injection E as <- _. exact (Hm w e1 w1 Em).
Qed.

Lemma raises_for_each {S} (l : list nat) (body : nat -> S -> M S) (s : S) :
  (forall i s', raises Q (body i s')) -> raises Q (for_each l body s).
Proof.
  intros Hb. revert s. induction l as [|i l IH]; intros s.
  - apply raises_ret.
  - simpl. apply raises_bind; [apply Hb | exact IH].
Qed.

Lemma raises_session_run f (fd : feed_dict A) :
  (forall msg, Q (TypeError msg)) ->
  (forall e x e', engine_run f fd e = (Raise x, e') -> Q x) ->
  raises Q (session_run f fd).
Proof.
  intros Ht He w x w' E. unfold session_run in E.
  destruct (forallb _ fd).
  - destruct (engine_run f fd (eng w)) as [[v|x1] e1] eqn:Er; [discriminate|].
    injection E as <- _. exact (He _ _ _ Er).
  - injection E as <- _. apply Ht.
Qed.

Lemma raises_np_random_choice a size (p : option (list A)) :
  (forall msg, Q (ValueError msg)) ->
  (forall n k g x g', rng_choice n k p g = (Raise x, g') -> Q x) ->
  raises Q (np_random_choice a size p).
Proof.
  intros Hv Hr. unfold np_random_choice.
  repeat match goal with
         | |- raises Q (if ?c then _ else _) =>
             destruct c; [apply raises_raise, Hv|]
         end.
  intros w x w' E.
  destruct (rng_choice _ _ _ _) as [r g'] eqn:Ec. injection E as -> _.
  exact (Hr _ _ _ _ _ Ec).
Qed.

Lemma raises_as_array (v : pyval A) :
  (forall msg, Q (AttributeError msg)) -> raises Q (as_array v).
Proof.
  intros Ha. destruct v; [apply raises_raise, Ha | apply raises_ret].
Qed.

End RaisingFacts.

Section NoPreconditionError.
Context {A : Type} {EN : Engine A} {RN : Random A}.

Lemma vstack_raises (arrs : list (ndarray A)) e :
  vstack arrs = Raise e -> exists msg, e = ValueError msg.
Proof.
  unfold vstack, concatenate0. destruct (map atleast_2d arrs) as [|a rest].
  - intros E. injection E as <-. eauto.
  - destruct (forallb _ rest); [discriminate|].
    intros E. injection E as <-. eauto.
Qed.

Lemma take_rows_raises (a : ndarray A) ids e :
  take_rows a ids = Raise e -> e = IndexError.
Proof.
  unfold take_rows. destruct (shape a) as [|n s]; [congruence|].
  destruct (forallb _ ids); [discriminate | congruence].
Qed.

(** [_run_batch] raises the error of [sample] only if the engine does. *)
Lemma run_batch_raises opts op ph (feed : ndarray A) ph2 feed2 :
  quiet_engine ->
  raises (fun x => x <> precondition_error)
         (_run_batch opts op ph feed ph2 feed2).
Proof.
  intros Heng. unfold _run_batch. cbv zeta.
  apply raises_bind; [apply raises_py_assert; discriminate | intros _].
  apply raises_bind.
  { apply raises_lift. unfold ceil_div. intros e.
    destruct (_ =? 0); [intros E; injection E as <-|]; discriminate. }
  intros m. apply raises_bind.
  { apply raises_for_each. intros i acc. unfold run_batch_body.
    apply raises_bind.
    - apply raises_session_run; [discriminate | intros; eapply Heng; eauto].
    - intros v. apply raises_bind; [apply raises_as_array; discriminate|].
      intros. apply raises_ret. }
  intros res. apply raises_bind.
  { apply raises_lift. intros e E. apply vstack_raises in E as (msg & ->).
    discriminate. }
  intros arr. apply raises_bind; [apply raises_py_assert; discriminate|].
  intros. apply raises_ret.
Qed.

Lemma mixture_loop_raises (self : gan A) opts fake mode :
  quiet_engine -> quiet_random ->
  raises (fun x => x <> precondition_error) (mixture_loop self opts fake mode).
Proof.
  intros Heng Hrng. unfold mixture_loop.
  apply raises_bind.
  { apply raises_lift. unfold py_div. intros e.
    destruct (_ =? 0); [intros E; injection E as <-|]; discriminate. }
  intros bn. apply raises_for_each. intros epoch u.
  apply raises_bind; [|intros; apply raises_log].
  apply raises_for_each. intros idx u'. unfold mixture_body.
  apply raises_bind.
  { apply raises_lift. unfold py_len. intros e.
    destruct (shape fake); [intros E; injection E as <-|]; discriminate. }
  intros nf. apply raises_bind.
  { apply raises_np_random_choice; [discriminate | intros; eapply Hrng; eauto]. }
  intros ids. apply raises_bind.
  { apply raises_lift. intros e E. apply take_rows_raises in E as ->.
    discriminate. }
  intros bf. apply raises_bind.
  { apply raises_np_random_choice; [discriminate | intros; eapply Hrng; eauto]. }
  intros ids2. apply raises_bind.
  { apply raises_lift. intros e E. apply take_rows_raises in E as ->.
    discriminate. }
  intros br. apply raises_bind; [|intros; apply raises_ret].
  apply raises_session_run; [discriminate | intros; eapply Heng; eauto].
Qed.

(** No subclass and no input makes the mixture discriminator raise the
    error of [sample], unless a collaborator raises it. *)
Lemma mixture_internal_raises (self : gan A) opts fake :
  quiet_engine -> quiet_random ->
  raises (fun x => x <> precondition_error)
         (_train_mixture_discriminator_internal self opts fake).
Proof.
  intros Heng Hrng. unfold _train_mixture_discriminator_internal.
  destruct (cls self).
  - apply raises_raise. discriminate.
  - apply raises_bind; [apply mixture_loop_raises; assumption|].
    intros. apply run_batch_raises, Heng.
  - apply raises_bind; [apply mixture_loop_raises; assumption|].
    intros. apply run_batch_raises, Heng.
  - apply raises_bind; [apply mixture_loop_raises; assumption|].
    intros. apply run_batch_raises, Heng.
Qed.

End NoPreconditionError.

(** ** What a call does to the engine *)

Section DrivingFacts.
Context {A : Type} {EN : Engine A} {RN : Random A}.
Variable P : event A -> Prop.

Lemma replay_app (e : engine) (t1 t2 : list (event A)) :
  replay e (t1 ++ t2) = replay (replay e t1) t2.
Proof. unfold replay. apply fold_left_app. Qed.

Lemma drives_idle {T} (m : M T) :
  (forall w x w', m w = (Ok x, w') -> trace w' = trace w /\ eng w' = eng w) ->
  drives P m.
Proof.
  intros Hm w x w' E. destruct (Hm _ _ _ E) as (Ht & He).
  exists []. rewrite app_nil_r. auto.
Qed.

Lemma drives_ret {T} (x : T) : drives P (ret x).
Proof. apply drives_idle. intros w y w' E. injection E as _ <-. auto. Qed.

Lemma drives_lift {T} (r : result T) : drives P (lift r).
Proof. apply drives_idle. intros w y w' E. injection E as _ <-. auto. Qed.

Lemma drives_np_random_choice a size p : drives P (np_random_choice a size p).
Proof.
  apply drives_idle. intros w ids w' E. unfold np_random_choice in E.
  repeat match type of E with
         | (if ?c then _ else _) _ = _ => destruct c; [discriminate|]
         end.
  destruct (rng_choice _ _ _ _) as [r g']. injection E as _ <-. auto.
Qed.

Lemma drives_bam : P EvBam -> drives P bam.
Proof.
  intros Hev w x w' E. injection E as _ <-. exists [EvBam]. simpl. auto.
Qed.

Lemma drives_session_run f (fd : feed_dict A) :
  (forall v, P (EvRun f fd v)) -> drives P (session_run f fd).
Proof.
  intros Hev w v w' E. apply session_run_ok in E as (_ & e' & He & ->).
  exists [EvRun f fd v]. simpl. rewrite He. auto.
Qed.

Lemma drives_bind {T U} (m : M T) (k : T -> M U) :
  drives P m ->
  (forall x w w1, m w = (Ok x, w1) -> drives P (k x)) ->
  drives P (bind m k).
Proof.
  intros Hm Hk w y w' E. apply bind_ok in E as (x & w1 & E1 & E2).
  destruct (Hm _ _ _ E1) as (new1 & Ht1 & Hp1 & He1).
  destruct (Hk x w w1 E1 _ _ _ E2) as (new2 & Ht2 & Hp2 & He2).
  exists (new1 ++ new2). rewrite Ht2, Ht1, app_assoc, replay_app, <- He1.
  split; [reflexivity|]. split; [apply Forall_app; auto | exact He2].
Qed.

Lemma drives_for_each {S} (l : list nat) (body : nat -> S -> M S) (s : S) :
  (forall i s', drives P (body i s')) -> drives P (for_each l body s).
Proof.
  intros Hb. revert s. induction l as [|i l IH]; intros s.
  - apply drives_ret.
  - simpl. apply drives_bind; [apply Hb | intros; apply IH].
Qed.

End DrivingFacts.

(** ** The mixture discriminator *)

Lemma sigmoid_unit (x : R) : (0 <= sigmoid x <= 1)%R.
Proof.
  unfold sigmoid. pose proof (exp_pos (- x)) as Hexp.
  assert (Hden : (0 < 1 + exp (- x))%R) by lra.
  pose proof (Rinv_0_lt_compat _ Hden) as Hinv.
  split; [lra|].
  rewrite <- Rinv_1. apply Rinv_le_contravar; lra.
Qed.

Lemma concat_map_singleton {B C} (f : B -> C) (l : list B) :
  concat (map (fun i => [f i]) l) = map f l.
Proof. induction l as [|x l IH]; [reflexivity|]. simpl. rewrite IH. reflexivity. Qed.

(** The classifier output of the graph is a point-by-point computation. *)
Lemma c_training_pointwise (l : list R -> R) (x : ndarray R) :
  c_training (map (fun i => l (row x i)) (seq 0 (len x)))
  = pointwise (fun pt => [sigmoid (l pt)]) [1%nat] x.
Proof.
  unfold c_training, pointwise.
  rewrite length_map, length_seq, map_map, concat_map_singleton. reflexivity.
Qed.

Section MixtureTraining.
Context {A : Type} {EN : Engine A} {RN : Random A}.

Lemma mixture_body_drives (self : gan A) opts fake mode idx u :
  mode = [] \/ mode = [(Placeholder "is_train", FBool true)] ->
  drives (classifier_update self fake) (mixture_body self opts fake mode idx u).
Proof.
  intros Hmode. unfold mixture_body.
  apply drives_bind; [apply drives_lift | intros n_fake w0 w1 _].
  apply drives_bind; [apply drives_np_random_choice | intros ids_fake w2 w3 _].
  apply drives_bind; [apply drives_lift | intros batch_fake w4 w5 Ef].
  apply drives_bind; [apply drives_np_random_choice | intros ids_real w6 w7 _].
  apply drives_bind; [apply drives_lift | intros batch_real w8 w9 Er].
  apply drives_bind; [|intros; apply drives_ret].
  apply drives_session_run. intros v.
  injection Ef as Ef _. injection Er as Er _.
  split; [reflexivity|].
  exists ids_real, ids_fake, batch_real, batch_fake.
  split; [exact Er|]. split; [exact Ef|].
  destruct Hmode as [-> | ->]; split; vm_compute; auto.
Qed.

Lemma mixture_loop_drives (self : gan A) opts fake mode :
  mode = [] \/ mode = [(Placeholder "is_train", FBool true)] ->
  drives (classifier_update self fake) (mixture_loop self opts fake mode).
Proof.
  intros Hmode. unfold mixture_loop.
  apply drives_bind; [apply drives_lift | intros batches_num w0 w1 _].
  apply drives_for_each. intros epoch u.
  apply drives_bind; [|intros; apply drives_bam; exact I].
  apply drives_for_each. intros idx u'.
  apply mixture_body_drives, Hmode.
Qed.

End MixtureTraining.


Section Mixture.
Context {EN : Engine R} {RN : Random R}.
Variable c_logit : engine -> list R -> R.
Hypothesis classifier : classifier_contract c_logit.
Hypothesis updates : update_contract.
Hypothesis choices : choice_contract.

Lemma choice_total (a size : Z) (w : world R) :
  1 <= size <= a ->
  exists ids w', np_random_choice a size None w = (Ok ids, w') /\
                 Forall (fun i => i < Z.to_nat a)%nat ids.
Proof.
  intros Hs. unfold np_random_choice.
  destruct (Z.leb_spec a 0); [lia|]. cbn match.
  destruct (Z.ltb_spec size 0); [lia|].
  destruct (Z.ltb_spec a size); [lia|].
  destruct (choices (Z.to_nat a) (Z.to_nat size) (gen w) ltac:(lia))
    as (ids & g' & -> & Hids).
  eauto.
Qed.

Lemma take_rows_total (a : ndarray R) n s ids :
  shape a = n :: s -> Forall (fun i => i < n)%nat ids ->
  exists x, take_rows a ids = Ok x.
Proof.
  intros Hs Hids. unfold take_rows. rewrite Hs.
  replace (forallb _ ids) with true; [eauto|].
  symmetry. apply forallb_forall. intros i Hi. apply Nat.ltb_lt.
  rewrite Forall_forall in Hids. apply Hids, list_elem_of_In, Hi.
Qed.

Lemma mixture_body_total (self : gan R) opts fake n s nf sf mode idx w :
  shape (data (_data self)) = n :: s -> num_points (_data self) = Z.of_nat n ->
  shape fake = nf :: sf ->
  1 <= batch_size opts <= Z.of_nat nf -> batch_size opts <= Z.of_nat n ->
  mode = [] \/ mode = [(Placeholder "is_train", FBool true)] ->
  exists w', mixture_body self opts fake mode idx tt w = (Ok tt, w').
Proof.
  intros Hs Hn Hf Hbs Hbn Hmode. unfold mixture_body.
  erewrite bind_eq; [|unfold lift, py_len; rewrite Hf; reflexivity].
  destruct (choice_total (Z.of_nat nf) (batch_size opts) w ltac:(lia))
    as (ids & w1 & E1 & Hids). rewrite Nat2Z.id in Hids.
  erewrite bind_eq; [|exact E1].
  destruct (take_rows_total fake nf sf ids Hf Hids) as (bf & Ebf).
  erewrite bind_eq; [|unfold lift; rewrite Ebf; reflexivity].
  rewrite Hn.
  destruct (choice_total (Z.of_nat n) (batch_size opts) w1 ltac:(lia))
    as (ids2 & w2 & E2 & Hids2). rewrite Nat2Z.id in Hids2.
  erewrite bind_eq; [|exact E2].
  destruct (take_rows_total _ n s ids2 Hs Hids2) as (br & Ebr).
  erewrite bind_eq; [|unfold lift; rewrite Ebr; reflexivity].
  set (fd := py_dict _).
  destruct (updates fd (eng w2)) as (v & e' & Ev).
  assert (Hkeys : forallb (fun kv : feed_key * feed_val R => is_tensor (fst kv)) fd
                  = true).
  { subst fd. destruct Hmode as [-> | ->]; reflexivity. }
  erewrite bind_eq; [|unfold session_run; rewrite Hkeys, Ev; reflexivity].
  eauto.
Qed.

Lemma mixture_loop_total (self : gan R) opts fake n s nf sf mode w :
  shape (data (_data self)) = n :: s -> num_points (_data self) = Z.of_nat n ->
  shape fake = nf :: sf ->
  1 <= batch_size opts <= Z.of_nat nf ->
  mode = [] \/ mode = [(Placeholder "is_train", FBool true)] ->
  exists w', mixture_loop self opts fake mode w = (Ok tt, w').
Proof.
  intros Hs Hn Hf Hbs Hmode. unfold mixture_loop.
  assert (Hdiv : py_div (num_points (_data self)) (batch_size opts)
                 = Ok (Z.of_nat n / batch_size opts)).
  { unfold py_div. rewrite Hn. destruct (Z.eqb_spec (batch_size opts) 0); [lia|].
    reflexivity. }
  erewrite bind_eq; [|unfold lift; rewrite Hdiv; reflexivity].
  destruct (for_each_total (fun _ _ _ => True)
              (fun epoch (_ : unit) =>
                 for_each (xrange (Z.of_nat n / batch_size opts))
                   (mixture_body self opts fake mode) tt ;;; bam)
              (xrange (mixture_c_epoch_num opts))) with (s := tt) (w := w)
    as ([] & w' & E & _); [| exact I | eauto].
  intros k epoch [] w1 _ _.
  destruct (for_each_total (fun _ _ _ => True)
              (mixture_body self opts fake mode)
              (xrange (Z.of_nat n / batch_size opts))) with (s := tt) (w := w1)
    as ([] & w2 & E2 & _); [| exact I |].
  - intros j idx [] w3 Hj _.
    assert (Hpos : 1 <= Z.of_nat n / batch_size opts).
    { apply lookup_lt_Some in Hj. unfold xrange in Hj.
      rewrite length_seq in Hj. lia. }
    assert (Hle : batch_size opts <= Z.of_nat n).
    { pose proof (Z.mul_div_le (Z.of_nat n) (batch_size opts) ltac:(lia)). nia. }
    destruct (mixture_body_total self opts fake n s nf sf mode idx w3)
      as (w4 & E4); auto.
    exists tt, w4. auto.
  - erewrite bind_eq; [|exact E2]. unfold bam, log. eexists tt, _. eauto.
Qed.

(** The second placeholder and its value in the final evaluation. *)
Lemma evaluation_feed (self : gan R) :
  cls self = ToyGan \/ cls self = ImageGan ->
  match (match cls self with ToyGan => None | _ => Some (FBool false) end
         : option (feed_val R)) with
  | None => True
  | Some _ => is_tensor (_is_training_ph self) = true /\
              _is_training_ph self <> _real_points_ph
  end.
Proof.
  unfold _is_training_ph. intros [-> | ->]; [exact I|].
  split; [reflexivity | discriminate].
Qed.

(** The training comes first. On an instance of a subclass, when the
    classifier updates and the random choices go through, the method runs
    the classifier updates of every minibatch of every epoch and then
    hands over to the evaluation of the classifier on the data. *)
Lemma mixture_training (self : gan R) (opts : options) (fake_images : ndarray R)
    (n nf : nat) (s sf : list nat) (w : world R) :
  cls self <> Gan ->
  shape (data (_data self)) = n :: s ->
  num_points (_data self) = Z.of_nat n ->
  shape fake_images = nf :: sf ->
  1 <= batch_size opts <= Z.of_nat nf ->
  exists w1 updates,
    trace w1 = trace w ++ updates /\
    runs_of C_optim updates
    = (Z.to_nat (mixture_c_epoch_num opts)
       * Z.to_nat (Z.of_nat n / batch_size opts))%nat /\
    bams updates = Z.to_nat (mixture_c_epoch_num opts) /\
    Forall (classifier_update self fake_images) updates /\
    eng w1 = replay (eng w) updates /\
    _train_mixture_discriminator_internal self opts fake_images w
    = _run_batch opts C_training _real_points_ph (data (_data self))
                 (_is_training_ph self)
                 (match cls self with ToyGan => None | _ => Some (FBool false) end)
                 w1.
Proof.
  intros Hc Hs Hn Hf Hbs.
  assert (Hloop : forall mode,
             mode = [] \/ mode = [(Placeholder "is_train", FBool true)] ->
             exists w1 updates,
               mixture_loop self opts fake_images mode w = (Ok tt, w1) /\
               trace w1 = trace w ++ updates /\
               runs_of C_optim updates
               = (Z.to_nat (mixture_c_epoch_num opts)
                  * Z.to_nat (Z.of_nat n / batch_size opts))%nat /\
               bams updates = Z.to_nat (mixture_c_epoch_num opts) /\
               Forall (classifier_update self fake_images) updates /\
               eng w1 = replay (eng w) updates).
  { intros mode Hmode.
    destruct (mixture_loop_total self opts fake_images n s nf sf mode w)
      as (w1 & E1); auto.
    destruct (mixture_loop_drives self opts fake_images mode Hmode _ _ _ E1)
      as (new & Ht & Hupd & He).
    destruct (mixture_loop_counts self opts fake_images mode _ _ _ E1)
      as (bn & new' & Hbn & Ht' & Hruns & Hbams & _).
    rewrite Ht in Ht'. apply app_inv_head in Ht'. subst new'.
    assert (bn = Z.of_nat n / batch_size opts) as ->.
    { unfold py_div in Hbn. rewrite Hn in Hbn.
      destruct (Z.eqb_spec (batch_size opts) 0); [lia|]. congruence. }
    exists w1, new. auto 10. }
  unfold _train_mixture_discriminator_internal, _is_training_ph.
  destruct (cls self) eqn:Hcls; [contradiction| | |].
  - destruct (Hloop []) as (w1 & upd & E1 & Hrest); [auto|].
    exists w1, upd. unfold toy_train_mixture_discriminator_internal.
    erewrite bind_eq; [|exact E1]. intuition.
  - destruct (Hloop [(Placeholder "is_train", FBool true)])
      as (w1 & upd & E1 & Hrest); [auto|].
    exists w1, upd.
    unfold image_train_mixture_discriminator_internal, _is_training_ph.
    rewrite Hcls. erewrite bind_eq; [|exact E1]. intuition.
  - destruct (Hloop []) as (w1 & upd & E1 & Hrest); [auto|].
    exists w1, upd.
    unfold unrolled_train_mixture_discriminator_internal, _is_training_ph.
    rewrite Hcls. erewrite bind_eq; [|exact E1]. intuition.
Qed.

(** The whole method under the contracts of its collaborators: first the
    classifier updates, then the evaluation of the trained classifier on
    the data. *)
Lemma mixture_run (self : gan R) (opts : options) (fake_images : ndarray R)
    (n nf : nat) (s sf : list nat) (w : world R) :
  cls self = ToyGan \/ cls self = ImageGan ->
  shape (data (_data self)) = n :: s ->
  num_points (_data self) = Z.of_nat n ->
  (1 <= n)%nat ->
  shape fake_images = nf :: sf ->
  1 <= batch_size opts <= Z.of_nat nf ->
  1 <= tf_run_batch_size opts ->
  exists w' updates evals,
    _train_mixture_discriminator_internal self opts fake_images w
    = (Ok (c_training (map (fun i => c_logit (eng w') (row (data (_data self)) i))
                           (seq 0 n))), w') /\
    trace w' = trace w ++ updates ++ evals /\
    runs_of C_optim updates
    = (Z.to_nat (mixture_c_epoch_num opts)
       * Z.to_nat (Z.of_nat n / batch_size opts))%nat /\
    bams updates = Z.to_nat (mixture_c_epoch_num opts) /\
    Forall (classifier_update self fake_images) updates /\
    eng w' = replay (eng w) updates /\
    evals <> [] /\
    Forall (fun ev => is_run_of C_training ev = true) evals.
Proof.
  intros Hc Hs Hn Hn1 Hf Hbs HB.
  set (g := fun (e : engine) (pt : list R) => [sigmoid (c_logit e pt)]).
  destruct (mixture_training self opts fake_images n nf s sf w)
    as (w1 & upd & Ht & Hruns & Hbams & Hupd & He & Hint); auto.
  { destruct Hc as [Hc|Hc]; rewrite Hc; discriminate. }
  pose proof (evaluation_feed self Hc) as Hfeed2.
  set (ph2 := _is_training_ph self) in *.
  set (feed2 := match cls self with ToyGan => None | _ => Some (FBool false) end)
    in *.
  assert (Hk2 : match feed2 with None => True | Some _ => is_tensor ph2 = true end)
    by (destruct feed2; [apply Hfeed2 | exact I]).
  assert (Hne : match feed2 with None => True | Some _ => ph2 <> _real_points_ph end)
    by (destruct feed2; [apply Hfeed2 | exact I]).
  assert (Heng : forall x e,
             engine_run C_training (chunk_feed _real_points_ph x ph2 feed2) e
             = (Ok (PArr (pointwise (g e) [1%nat] x)), e)).
  { intros x e.
    rewrite (classifier _ x e (chunk_feed_head _ _ _ x Hne)).
    rewrite c_training_pointwise. reflexivity. }
  destruct (run_batch_pointwise C_training _real_points_ph ph2 feed2 g [1%nat]
              Heng eq_refl Hk2 opts (data (_data self)) n s w1 Hs Hn1 HB)
    as (m & Hlo & Hhi & E2).
  eexists. exists upd. eexists.
  split; [rewrite Hint, E2; f_equal; f_equal|].
  { simpl eng. unfold c_training, pointwise, g. simpl.
    rewrite length_map, length_seq, map_map, concat_map_singleton.
    unfold len. rewrite Hs. reflexivity. }
  simpl. rewrite Ht, <- app_assoc.
  split; [reflexivity|]. split; [exact Hruns|]. split; [exact Hbams|].
  split; [exact Hupd|]. split; [exact He|]. split.
  - destruct m as [|m]; [lia | discriminate].
  - apply Forall_forall. intros ev Hev.
    apply list_elem_of_In, in_map_iff in Hev as (i & <- & _). reflexivity.
Qed.

(** C5, as the code has it. For [ToyGan] and [ImageGan], on a consistent
    non-empty dataset, with fake images at least as many as the minibatch
    size and a chunk size of at least 1, [train_mixture_discriminator]
    first trains the classifier: it runs [mixture_c_epoch_num *
    (num_points / batch_size)] classifier updates, each fed rows of the
    real data and rows of the fake points, which take the engine to its
    final state. It then evaluates the classifier output of the graph in
    that state on the data and returns one probability per real data
    point: a column of [num_points] values, the value at row [i] being
    the sigmoid of the trained classifier's logit on data point [i],
    hence in [[0,1]]. *)
Theorem mixture_probabilities (self : gan R) (opts : options)
    (fake_images : ndarray R) (n nf : nat) (s sf : list nat)
    (b : bool) (w : world R) :
  cls self = ToyGan \/ cls self = ImageGan ->
  shape (data (_data self)) = n :: s ->
  num_points (_data self) = Z.of_nat n ->
  (1 <= n)%nat ->
  shape fake_images = nf :: sf ->
  1 <= batch_size opts <= Z.of_nat nf ->
  1 <= tf_run_batch_size opts ->
  exists arr w' updates evals,
    train_mixture_discriminator self opts fake_images (b, w) = (Ok arr, (b, w')) /\
    trace w' = trace w ++ updates ++ evals /\
    runs_of C_optim updates
    = (Z.to_nat (mixture_c_epoch_num opts)
       * Z.to_nat (num_points (_data self) / batch_size opts))%nat /\
    Forall (classifier_update self fake_images) updates /\
    eng w' = replay (eng w) updates /\
    evals <> [] /\
    Forall (fun ev => is_run_of C_training ev = true) evals /\
    arr = c_training (map (fun i => c_logit (eng w') (row (data (_data self)) i))
                          (seq 0 n)) /\
    shape arr = [n; 1%nat] /\
    Z.of_nat (len arr) = num_points (_data self) /\
    flat arr = map (fun i => sigmoid (c_logit (eng w') (row (data (_data self)) i)))
                   (seq 0 n) /\
    Forall (fun p => (0 <= p <= 1)%R) (flat arr).
Proof.
  intros Hc Hs Hn Hn1 Hf Hbs HB.
  destruct (mixture_run self opts fake_images n nf s sf w Hc Hs Hn Hn1 Hf Hbs HB)
    as (w' & upd & evals & Hrun & Ht & Hruns & _ & Hupd & He & Hne & Hev).
  eexists. exists w', upd, evals.
  unfold train_mixture_discriminator. simpl snd. rewrite Hrun. simpl.
  split; [reflexivity|]. split; [exact Ht|].
  split; [rewrite Hn; exact Hruns|].
  split; [exact Hupd|]. split; [exact He|]. split; [exact Hne|].
  split; [exact Hev|]. split; [reflexivity|].
  unfold c_training. simpl. rewrite length_map, length_seq, map_map.
  split; [reflexivity|]. split; [symmetry; exact Hn|]. split; [reflexivity|].
  apply Forall_forall. intros p Hp. apply list_elem_of_In, in_map_iff in Hp.
  destruct Hp as (i & <- & _). apply sigmoid_unit.
Qed.

End Mixture.

(** C5, as stated, fails: a non-empty array of fake points with fewer
    points than a minibatch makes the sampling without replacement
    raise. *)
Lemma mixture_probabilities_counterexample :
  len one_fake = 1%nat /\
  fst (train_mixture_discriminator (EN := counting_engine) (RN := counting_random)
         (demo_gan ToyGan) demo_options one_fake (false, demo_world))
  = Raise (ValueError
             "Cannot take a larger sample than population when 'replace=False'") /\
  fst (train_mixture_discriminator (EN := counting_engine) (RN := counting_random)
         (demo_gan ImageGan) demo_options one_fake (false, demo_world))
  = Raise (ValueError
             "Cannot take a larger sample than population when 'replace=False'").
Proof. split; [reflexivity|]. split; vm_compute; reflexivity. Qed.

Lemma real_engine_classifier :
  classifier_contract (EN := real_engine) (fun _ _ => 0%R).
Proof.
  intros fd x e Hhd. destruct fd as [|[k v] fd]; [discriminate|].
  injection Hhd as -> ->. simpl.
  rewrite (c_training_pointwise (fun _ => 0%R) x). reflexivity.
Qed.

Lemma real_engine_update : update_contract (EN := real_engine).
Proof. intros fd e. exists PNone, e. reflexivity. Qed.

Lemma real_random_choice : choice_contract (RN := real_random).
Proof.
  intros a size g Hs. exists (seq 0 size), g. split; [reflexivity|].
  apply Forall_forall. intros i Hi. apply list_elem_of_In, in_seq in Hi. lia.
Qed.

Lemma real_engine_quiet : quiet_engine (EN := real_engine).
Proof. intros f fd e x e' E. destruct f; discriminate. Qed.

Lemma real_random_quiet : quiet_random (RN := real_random).
Proof. intros a size p g x g' E. discriminate. Qed.

Lemma mixture_probabilities_witness :
  exists arr w' (updates : list (event R)),
    train_mixture_discriminator (EN := real_engine) (RN := real_random)
      (real_gan ToyGan) demo_options two_reals (false, real_world)
    = (Ok arr, (false, w')) /\
    runs_of C_optim updates = 1%nat /\
    Forall (classifier_update (real_gan ToyGan) two_reals) updates /\
    shape arr = [2%nat; 1%nat] /\
    Forall (fun p => (0 <= p <= 1)%R) (flat arr).
Proof.
  destruct (mixture_probabilities (EN := real_engine) (RN := real_random)
              (fun _ _ => 0%R) real_engine_classifier real_engine_update
              real_random_choice (real_gan ToyGan) demo_options two_reals
              2%nat 2%nat [1%nat] [1%nat] false real_world)
    as (arr & w' & upd & evals & Hrun & _ & Hruns & Hupd & _ & _ & _ & _
        & Hshape & _ & _ & Hunit).
  - left. reflexivity.
  - reflexivity.
  - reflexivity.
  - lia.
  - reflexivity.
  - simpl. lia.
  - simpl. lia.
  - exists arr, w', upd. auto.
Defined.

(** ** The mixture discriminator and the trained flag *)

(** C9. [train_mixture_discriminator] makes no check of the trained flag.
    On every instance its outcome is the one of
    [_train_mixture_discriminator_internal], whatever the flag, and the
    flag stays as it was; it never raises the precondition error of
    [sample] unless a collaborator does, where [sample] on the untrained
    instance always raises it. On a never-trained instance of a subclass it
    goes straight to the training of the classifier: when the classifier
    updates and the random choices go through, the first requests to the
    engine are the [mixture_c_epoch_num * (num_points / batch_size)]
    classifier updates, and the outcome of the call is the one of the
    evaluation of the classifier that follows them. For [ToyGan] and
    [ImageGan] this evaluation returns, and the instance is still untrained
    afterwards. *)
Theorem mixture_ignores_trained_flag {EN : Engine R} {RN : Random R}
    (self : gan R) (opts : options) (fake_images : ndarray R) (w : world R) :
  (forall t, exists r w',
      _train_mixture_discriminator_internal self opts fake_images w = (r, w') /\
      train_mixture_discriminator self opts fake_images (t, w) = (r, (t, w'))) /\
  (quiet_engine -> quiet_random ->
   forall t, fst (train_mixture_discriminator self opts fake_images (t, w))
             <> Raise precondition_error) /\
  (forall num,
      sample self opts num (false, w) = (Raise precondition_error, (false, w))) /\
  (forall n nf s sf,
      update_contract -> choice_contract ->
      cls self <> Gan ->
      shape (data (_data self)) = n :: s ->
      num_points (_data self) = Z.of_nat n ->
      shape fake_images = nf :: sf ->
      1 <= batch_size opts <= Z.of_nat nf ->
      exists w1 updates,
        trace w1 = trace w ++ updates /\
        runs_of C_optim updates
        = (Z.to_nat (mixture_c_epoch_num opts)
           * Z.to_nat (num_points (_data self) / batch_size opts))%nat /\
        Forall (classifier_update self fake_images) updates /\
        eng w1 = replay (eng w) updates /\
        train_mixture_discriminator self opts fake_images (false, w)
        = (let (r, w') :=
             _run_batch opts C_training _real_points_ph (data (_data self))
                        (_is_training_ph self)
                        (match cls self with
                         | ToyGan => None
                         | _ => Some (FBool false)
                         end) w1 in
           (r, (false, w')))) /\
  (forall c_logit n nf s sf,
      classifier_contract c_logit -> update_contract -> choice_contract ->
      cls self = ToyGan \/ cls self = ImageGan ->
      shape (data (_data self)) = n :: s ->
      num_points (_data self) = Z.of_nat n ->
      (1 <= n)%nat ->
      shape fake_images = nf :: sf ->
      1 <= batch_size opts <= Z.of_nat nf ->
      1 <= tf_run_batch_size opts ->
      exists arr w',
        train_mixture_discriminator self opts fake_images (false, w)
        = (Ok arr, (false, w')) /\
        forall num, sample self opts num (false, w')
                    = (Raise precondition_error, (false, w'))).
Proof.
  split; [|split; [|split; [|split]]].
  - intros t. unfold train_mixture_discriminator. simpl.
    destruct (_train_mixture_discriminator_internal self opts fake_images w)
      as [r w'].
    exists r, w'. split; reflexivity.
  - intros Heng Hrng t. unfold train_mixture_discriminator. simpl.
    destruct (_train_mixture_discriminator_internal self opts fake_images w)
      as [[arr|x] w'] eqn:E; [discriminate|].
    simpl. intros Hx. injection Hx as ->.
    exact (mixture_internal_raises self opts fake_images Heng Hrng _ _ _ E
             eq_refl).
  - intros num. reflexivity.
  - intros n nf s sf Hup Hch Hc Hs Hn Hf Hbs.
    destruct (mixture_training Hup Hch self opts fake_images n nf s sf w
                Hc Hs Hn Hf Hbs)
      as (w1 & upd & Ht & Hruns & _ & Hupd & He & Hint).
    exists w1, upd.
    split; [exact Ht|]. split; [rewrite Hn; exact Hruns|].
    split; [exact Hupd|]. split; [exact He|].
    unfold train_mixture_discriminator. simpl snd. rewrite Hint. reflexivity.
  - intros c_logit n nf s sf Hcl Hup Hch Hc Hs Hn Hn1 Hf Hbs HB.
    destruct (mixture_run c_logit Hcl Hup Hch self opts fake_images n nf s sf w
                Hc Hs Hn Hn1 Hf Hbs HB)
      as (w' & upd & evals & Hrun & _).
    eexists. exists w'.
    unfold train_mixture_discriminator. simpl snd. rewrite Hrun. simpl.
    split; [reflexivity|]. intros num. reflexivity.
Qed.

Lemma mixture_ignores_trained_flag_witness :
  (exists arr w',
      train_mixture_discriminator (EN := real_engine) (RN := real_random)
        (real_gan ImageGan) demo_options two_reals (false, real_world)
      = (Ok arr, (false, w')) /\
      sample (real_gan ImageGan) demo_options 4 (false, w')
      = (Raise precondition_error, (false, w'))) /\
  (exists (w1 : world R (EN := real_engine) (RN := real_random)) updates,
      trace w1 = trace real_world ++ updates /\
      runs_of C_optim updates = 1%nat /\
      fst (train_mixture_discriminator (real_gan UnrolledGan) demo_options
             two_reals (false, real_world))
      = fst (_run_batch demo_options C_training _real_points_ph two_reals
                        (PyBool true) (Some (FBool false)) w1)) /\
  fst (train_mixture_discriminator (EN := real_engine) (RN := real_random)
         (real_gan UnrolledGan) demo_options two_reals (false, real_world))
  <> Raise precondition_error.
Proof.
  split; [|split].
  - destruct (proj2 (proj2 (proj2 (proj2
                (mixture_ignores_trained_flag (EN := real_engine)
                   (RN := real_random) (real_gan ImageGan) demo_options
                   two_reals real_world))))
                (fun _ _ => 0%R) 2%nat 2%nat [1%nat] [1%nat]
                real_engine_classifier real_engine_update real_random_choice)
      as (arr & w' & Hrun & Hs).
    + right. reflexivity.
    + reflexivity.
    + reflexivity.
    + lia.
    + reflexivity.
    + simpl. lia.
    + simpl. lia.
    + exists arr, w'. split; [exact Hrun | exact (Hs 4)].
  - destruct (proj1 (proj2 (proj2 (proj2
                (mixture_ignores_trained_flag (EN := real_engine)
                   (RN := real_random) (real_gan UnrolledGan) demo_options
                   two_reals real_world))))
                2%nat 2%nat [1%nat] [1%nat]
                real_engine_update real_random_choice)
      as (w1 & upd & Ht & Hruns & _ & _ & Hrun).
    + discriminate.
    + reflexivity.
    + reflexivity.
    + reflexivity.
    + simpl. lia.
    + exists w1, upd. split; [exact Ht|]. split; [exact Hruns|].
      rewrite Hrun. simpl.
      destruct (_run_batch _ _ _ _ _ _ w1). reflexivity.
  - exact (proj1 (proj2 (mixture_ignores_trained_flag (EN := real_engine)
                           (RN := real_random) (real_gan UnrolledGan)
                           demo_options two_reals real_world))
                 real_engine_quiet real_random_quiet false).
Defined.
